(** * bitcoin9to5: the strategy functions and the backtest engine

    A shallow embedding of [lib/strategy.js] (zone classifier, cost model)
    and [lib/backtester.js] (position state machine, backtest loop, stats
    aggregator), with the properties the specification states about them.

    Numbers.  A JavaScript number is modelled as an exact rational [Qc]
    (canonical fractions, so that [=] is Leibniz equality).  Rounding is not
    modelled.  The non-finite values [NaN] and [Infinity] arise in this code
    only from a division whose divisor is zero; the model makes every
    division by a non-literal divisor explicit ([div]) and aborts the
    computation with [DivByZero] when the divisor is zero.  A result
    [Ok r] therefore means: the run evaluated no division by zero, and [r]
    is what exact arithmetic gives.  [runBacktest_total] shows that candles
    with a non-zero close and a positive high, and a non-zero funding
    interval, always give [Ok].

    Dates.  A [Date] is modelled by its time value, the integer number of
    milliseconds since the epoch; the UTC accessors follow ECMAScript's
    definitions (floor division).

    Loops.  [for] over the candles is a fold over a list.  The one [while]
    loop (next weekday) takes fuel and reports [OutOfFuel]; it is proved
    never to do so. *)

From Stdlib Require Import ZArith QArith Qcanon Qround Lqa Lia.
From Stdlib Require Import List Sorted String Ascii Bool.
Import ListNotations.

Local Open Scope Z_scope.
Local Open Scope Qc_scope.

(** ** Outcomes *)

Inductive error : Type :=
| DivByZero
| OutOfFuel.

Inductive result (A : Type) : Type :=
| Ok (a : A)
| Err (e : error).

Arguments Ok {A} a.
Arguments Err {A} e.

Definition bind {A B : Type} (m : result A) (k : A -> result B) : result B :=
  match m with
  | Ok a => k a
  | Err e => Err e
  end.

Notation "x <- m ;; k" := (bind m (fun x => k))
  (at level 61, m at next level, right associativity).

(** ** Numbers *)

(** An integer literal or an integer-valued quantity ([length], a UTC field). *)
Definition num (z : Z) : Qc := Q2Qc (inject_Z z).

(** A decimal literal [n / d] such as [0.999]. *)
Definition dec (n d : Z) : Qc := num n / num d.

Definition Qc_ltb (x y : Qc) : bool :=
  match x ?= y with Lt => true | _ => false end.

Definition Qc_leb (x y : Qc) : bool :=
  match x ?= y with Gt => false | _ => true end.

Definition Qc_eqb (x y : Qc) : bool :=
  match x ?= y with Eq => true | _ => false end.

Infix "<?" := Qc_ltb (at level 70, no associativity) : Qc_scope.
Infix "<=?" := Qc_leb (at level 70, no associativity) : Qc_scope.
Notation "x >? y" := (Qc_ltb y x) (at level 70, no associativity) : Qc_scope.
Notation "x >=? y" := (Qc_leb y x) (at level 70, no associativity) : Qc_scope.
Infix "=?" := Qc_eqb (at level 70, no associativity) : Qc_scope.

(** [x / y] for a divisor that is not a literal. *)
Definition div (x y : Qc) : result Qc :=
  if y =? 0 then Err DivByZero else Ok (x / y).

(** [Math.floor]. *)
Definition floor (x : Qc) : Z := Qfloor x.

(** [Math.max] as the code writes it: [if (b > a) a = b]. *)
Definition Qcmax (a b : Qc) : Qc := if b >? a then b else a.

(** ** Dates (ECMAScript time values, milliseconds since the epoch) *)

Definition Date := Z.

Definition msPerDay : Z := 86400000.

Definition getUTCHours (t : Date) : Z := ((t / 3600000) mod 24)%Z.
Definition getUTCMinutes (t : Date) : Z := ((t / 60000) mod 60)%Z.
(** 0 = Sunday, 6 = Saturday; 1970-01-01 was a Thursday. *)
Definition getUTCDay (t : Date) : Z := ((t / msPerDay + 4) mod 7)%Z.

(** Civil date (year, month, day) of a day number counted from 1970-01-01,
    proleptic Gregorian calendar. *)
Definition civilFromDays (days : Z) : Z * Z * Z :=
  (let z := days + 719468 in
   let era := z / 146097 in
   let doe := z - era * 146097 in
   let yoe := (doe - doe / 1460 + doe / 36524 - doe / 146096) / 365 in
   let y := yoe + era * 400 in
   let doy := doe - (365 * yoe + yoe / 4 - yoe / 100) in
   let mp := (5 * doy + 2) / 153 in
   let d := doy - (153 * mp + 2) / 5 + 1 in
   let m := if mp <? 10 then mp + 3 else mp - 9 in
   (if m <=? 2 then y + 1 else y, m, d))%Z.

Definition digit (n : Z) : ascii := ascii_of_nat (48 + Z.to_nat (n mod 10)).

Fixpoint digits (width : nat) (n : Z) (acc : string) : string :=
  match width with
  | O => acc
  | S w => digits w (n / 10)%Z (String (digit n) acc)
  end.

(** [date.toISOString().split('T')[0]]: [YYYY-MM-DD], with the expanded
    six-digit signed year outside 0..9999. *)
Definition isoDate (t : Date) : string :=
  let '(y, m, d) := civilFromDays (t / msPerDay)%Z in
  let year :=
    if ((0 <=? y) && (y <=? 9999))%Z then digits 4 y ""
    else if (y <? 0)%Z then String "-" (digits 6 (- y) "")
    else String "+" (digits 6 y "") in
  (year ++ "-" ++ digits 2 m "" ++ "-" ++ digits 2 d "")%string.

(** ** Configuration (lib/strategy.js) *)

Inductive Side : Type :=
| long
| short.

Definition Side_eqb (a b : Side) : bool :=
  match a, b with
  | long, long | short, short => true
  | _, _ => false
  end.

Record TimeOfDay : Type := mkTimeOfDay {
  hour : Qc;
  minute : Qc
}.

Record Config : Type := mkConfig {
  profitTargetPct : Qc;
  tpZoneTrailingStopPct : Qc;
  tpZoneHoursThreshold : Qc;
  leverage : Qc;
  shortZoneStart : TimeOfDay;
  shortZoneEnd : TimeOfDay
}.

Definition DEFAULT_CONFIG : Config := {|
  profitTargetPct := num 1;
  tpZoneTrailingStopPct := dec 5 10;
  tpZoneHoursThreshold := num 6;
  leverage := num 10;
  shortZoneStart := {| hour := num 9; minute := num 29 |};
  shortZoneEnd := {| hour := num 16; minute := num 1 |}
|}.

Record Costs : Type := mkCosts {
  takerFeeBps : Qc;
  makerRebateBps : Qc;
  slippageBps : Qc;
  avgFundingRateBps : Qc;
  fundingIntervalHours : Qc
}.

Definition DEFAULT_COSTS : Costs := {|
  takerFeeBps := num 5;
  makerRebateBps := num 0;
  slippageBps := num 5;
  avgFundingRateBps := num 1;
  fundingIntervalHours := num 8
|}.

Definition HOLIDAYS : list string := [
  "2025-12-25"; "2026-01-01"; "2026-01-19"; "2026-02-16"; "2026-04-03";
  "2026-05-25"; "2026-06-19"; "2026-07-06"; "2026-09-07"; "2026-11-26";
  "2026-12-25"
]%string.

(** [HOLIDAYS.has(dateStr)] *)
Definition isHoliday (dateStr : string) : bool :=
  existsb (String.eqb dateStr) HOLIDAYS.

(** ** Zone classifier *)

Definition getZone (date : Date) (config : Config) : Side :=
  let hour_ := num (getUTCHours date - 5) in
  let minute_ := num (getUTCMinutes date) in
  let dayOfWeek := getUTCDay date in
  if ((dayOfWeek =? 0) || (dayOfWeek =? 6))%Z then long
  else
    let dateStr := isoDate date in
    if isHoliday dateStr then long
    else
      let afterOpen :=
        (hour_ >? hour (shortZoneStart config))
        || ((hour_ =? hour (shortZoneStart config))
            && (minute_ >=? minute (shortZoneStart config))) in
      let beforeClose :=
        (hour_ <? hour (shortZoneEnd config))
        || ((hour_ =? hour (shortZoneEnd config))
            && (minute_ <? minute (shortZoneEnd config))) in
      if afterOpen && beforeClose then short else long.

Definition calcProfitPct (entryPrice currentPrice : Qc) (side : Side)
  : result Qc :=
  let priceDiff :=
    match side with
    | short => entryPrice - currentPrice
    | long => currentPrice - entryPrice
    end in
  q <- div priceDiff entryPrice ;;
  Ok (q * num 100).

Definition shouldEnterTpZone (side : Side) (hoursUntilShort threshold : Qc)
  : bool :=
  Side_eqb side long && (hoursUntilShort >? threshold).

Record ExitCheck : Type := mkExitCheck {
  shouldExit : bool;
  reason : option string
}.

Definition checkTpZoneExit
  (currentPrice entryPrice peakPrice trailingStopPct
   hoursUntilShort hoursThreshold : Qc) : result ExitCheck :=
  if currentPrice <? entryPrice then
    Ok {| shouldExit := true; reason := Some "below-entry"%string |}
  else
    q <- div (peakPrice - currentPrice) peakPrice ;;
    let dropFromPeak := q * num 100 in
    if dropFromPeak >=? trailingStopPct then
      Ok {| shouldExit := true; reason := Some "trailing-stop"%string |}
    else if hoursUntilShort <=? hoursThreshold then
      Ok {| shouldExit := true; reason := Some "time-exit"%string |}
    else
      Ok {| shouldExit := false; reason := None |}.

(** The [while (nextDay === 0 || nextDay === 6)] loop. *)
Fixpoint skipWeekend (fuel : nat) (daysUntil nextDay : Z) : result Z :=
  match fuel with
  | O => Err OutOfFuel
  | S fuel' =>
      if ((nextDay =? 0) || (nextDay =? 6))%Z
      then skipWeekend fuel' (daysUntil + 1)%Z ((nextDay + 1) mod 7)%Z
      else Ok daysUntil
  end.

Definition getHoursUntilShortZone (date : Date) (config : Config)
  : result Qc :=
  let etHour := (getUTCHours date - 5)%Z in
  let etMinute := getUTCMinutes date in
  let dayOfWeek := getUTCDay date in
  let targetMinutes :=
    hour (shortZoneStart config) * num 60 + minute (shortZoneStart config) in
  let currentMinutes := num (etHour * 60 + etMinute) in
  if ((1 <=? dayOfWeek) && (dayOfWeek <=? 5))%Z
     && (currentMinutes <? targetMinutes)
  then Ok ((targetMinutes - currentMinutes) / num 60)
  else
    daysUntil <- skipWeekend 7 1 ((dayOfWeek + 1) mod 7)%Z ;;
    let hoursToMidnight := (num (24 * 60) - currentMinutes) / num 60 in
    let hoursAfterMidnight := targetMinutes / num 60 in
    Ok (hoursToMidnight + num (daysUntil - 1) * num 24 + hoursAfterMidnight).

(** ** Cost model *)

(** The [breakdown] object of [calcTradingCosts]. *)
Record Breakdown : Type := mkBreakdown {
  b_feesPct : Qc;
  b_slippagePct : Qc;
  b_fundingPct : Qc;
  b_fundingPeriods : Z
}.

(** [{ totalCostPct, breakdown }] *)
Record TradingCosts : Type := mkTradingCosts {
  tc_totalCostPct : Qc;
  tc_breakdown : Breakdown
}.

(** The [costs] object of [calcNetPnl] and of a trade:
    [{ ...breakdown, totalCostPct, leveragedCostPct }]. *)
Record CostBreakdown : Type := mkCostBreakdown {
  feesPct : Qc;
  slippagePct : Qc;
  fundingPct : Qc;
  fundingPeriods : Z;
  totalCostPct : Qc;
  leveragedCostPct : Qc
}.

Definition calcTradingCosts
  (notionalValue durationHours : Qc) (side : Side) (costs : Costs)
  : result TradingCosts :=
  let entryFeePct := takerFeeBps costs / num 100 in
  let exitFeePct := takerFeeBps costs / num 100 in
  let totalFeesPct := entryFeePct + exitFeePct in
  let entrySlippagePct := slippageBps costs / num 100 in
  let exitSlippagePct := slippageBps costs / num 100 in
  let totalSlippagePct := entrySlippagePct + exitSlippagePct in
  q <- div durationHours (fundingIntervalHours costs) ;;
  let fundingPeriods_ := floor q in
  let fundingPerPeriodPct := avgFundingRateBps costs / num 100 in
  let fundingMultiplier :=
    match side with long => num 1 | short => num (-1) end in
  let totalFundingPct :=
    num fundingPeriods_ * fundingPerPeriodPct * fundingMultiplier in
  let totalCostPct_ := totalFeesPct + totalSlippagePct + totalFundingPct in
  Ok {| tc_totalCostPct := totalCostPct_;
        tc_breakdown :=
          {| b_feesPct := totalFeesPct;
             b_slippagePct := totalSlippagePct;
             b_fundingPct := totalFundingPct;
             b_fundingPeriods := fundingPeriods_ |} |}.

Definition calcTradePnl (entryPrice exitPrice : Qc) (side : Side)
  (leverage_ : Qc) : result Qc :=
  pricePct <- calcProfitPct entryPrice exitPrice side ;;
  Ok (pricePct * leverage_).

Record NetPnl : Type := mkNetPnl {
  np_grossPnlPct : Qc;
  np_netPnlPct : Qc;
  np_costs : CostBreakdown
}.

Definition calcNetPnl (entryPrice exitPrice : Qc) (side : Side)
  (leverage_ durationHours : Qc) (costs : Costs) : result NetPnl :=
  grossPnlPct_ <- calcTradePnl entryPrice exitPrice side leverage_ ;;
  let notionalValue := num 1 in
  tc <- calcTradingCosts notionalValue durationHours side costs ;;
  let leveragedCostPct_ := tc_totalCostPct tc * leverage_ in
  let netPnlPct_ := grossPnlPct_ - leveragedCostPct_ in
  Ok {| np_grossPnlPct := grossPnlPct_;
        np_netPnlPct := netPnlPct_;
        np_costs :=
          {| feesPct := b_feesPct (tc_breakdown tc);
             slippagePct := b_slippagePct (tc_breakdown tc);
             fundingPct := b_fundingPct (tc_breakdown tc);
             fundingPeriods := b_fundingPeriods (tc_breakdown tc);
             totalCostPct := tc_totalCostPct tc;
             leveragedCostPct := leveragedCostPct_ |} |}.

(** ** Backtester data (lib/backtester.js) *)

(** A price point; [runBacktest] reads [timestamp], [price] (the close),
    [high] and [low]. *)
Record Candle : Type := mkCandle {
  timestamp : Date;
  price : Qc;
  high : Qc;
  low : Qc
}.

Record Position : Type := mkPosition {
  side : Side;
  entryPrice : Qc;
  entryTime : Date;
  inTpZone : bool;
  peakPrice : option Qc     (* [null] until the take-profit zone is entered *)
}.

Record Trade : Type := mkTrade {
  t_entryTime : Date;
  t_exitTime : Date;
  t_entryPrice : Qc;
  t_exitPrice : Qc;
  t_side : Side;
  t_exitReason : string;
  t_grossPnlPct : Qc;
  t_netPnlPct : Qc;
  t_durationHours : Qc;
  t_costs : CostBreakdown
}.

Record TotalCosts : Type := mkTotalCosts {
  fees : Qc;
  slippage : Qc;
  funding : Qc
}.

Definition closeTrade (position : Position) (exitPrice : Qc) (exitTime : Date)
  (reason_ : string) (config : Config) (costs : Costs) : result Trade :=
  let durationHours :=
    num (exitTime - entryTime position) / num (1000 * 60 * 60) in
  np <- calcNetPnl (entryPrice position) exitPrice (side position)
          (leverage config) durationHours costs ;;
  Ok {| t_entryTime := entryTime position;
        t_exitTime := exitTime;
        t_entryPrice := entryPrice position;
        t_exitPrice := exitPrice;
        t_side := side position;
        t_exitReason := reason_;
        t_grossPnlPct := np_grossPnlPct np;
        t_netPnlPct := np_netPnlPct np;
        t_durationHours := durationHours;
        t_costs := np_costs np |}.

(** The local variables of [runBacktest]. *)
Record LoopState : Type := mkLoopState {
  trades : list Trade;
  position : option Position;
  previousZone : option Side;
  equity : Qc;
  peakEquity : Qc;
  maxDrawdown : Qc;
  totalCosts : TotalCosts
}.

Definition initialState : LoopState := {|
  trades := [];
  position := None;
  previousZone := None;
  equity := num 100;
  peakEquity := num 100;
  maxDrawdown := num 0;
  totalCosts := {| fees := num 0; slippage := num 0; funding := num 0 |}
|}.

(** The statements that follow every [closeTrade] call:
    [trades.push(trade); equity += trade.netPnlPct; totalCosts.* += ...]. *)
Definition recordTrade (config : Config) (st : LoopState) (trade : Trade)
  : LoopState :=
  {| trades := trades st ++ [trade];
     position := position st;
     previousZone := previousZone st;
     equity := equity st + t_netPnlPct trade;
     peakEquity := peakEquity st;
     maxDrawdown := maxDrawdown st;
     totalCosts :=
       {| fees := fees (totalCosts st)
                  + feesPct (t_costs trade) * leverage config;
          slippage := slippage (totalCosts st)
                      + slippagePct (t_costs trade) * leverage config;
          funding := funding (totalCosts st)
                     + fundingPct (t_costs trade) * leverage config |} |}.

Definition setPosition (st : LoopState) (p : option Position) : LoopState :=
  {| trades := trades st;
     position := p;
     previousZone := previousZone st;
     equity := equity st;
     peakEquity := peakEquity st;
     maxDrawdown := maxDrawdown st;
     totalCosts := totalCosts st |}.

(** [closeTrade], the bookkeeping, and [position = null]. *)
Definition closePosition (config : Config) (costs : Costs) (st : LoopState)
  (p : Position) (exitPrice : Qc) (exitTime : Date) (reason_ : string)
  : result LoopState :=
  trade <- closeTrade p exitPrice exitTime reason_ config costs ;;
  Ok (setPosition (recordTrade config st trade) None).

(** Lines 520-541: the zone flip. *)
Definition zoneFlip (config : Config) (costs : Costs) (candle : Candle)
  (currentZone : Side) (st : LoopState) : result LoopState :=
  match previousZone st with
  | None => Ok st
  | Some pz =>
      if negb (Side_eqb currentZone pz) then
        st1 <- match position st with
               | Some p =>
                   closePosition config costs st p (price candle)
                     (timestamp candle) "zone-flip"
               | None => Ok st
               end ;;
        Ok (setPosition st1
              (Some {| side := currentZone;
                       entryPrice := price candle;
                       entryTime := timestamp candle;
                       inTpZone := false;
                       peakPrice := None |}))
      else Ok st
  end.

(** A [null] operand of a comparison or of arithmetic converts to [0]. *)
Definition toNumber (v : option Qc) : Qc :=
  match v with Some x => x | None => 0 end.

(** Lines 554-587: one candle of the take-profit zone. *)
Definition tpZoneStep (config : Config) (costs : Costs) (candle : Candle)
  (st : LoopState) (p : Position) : result LoopState :=
  let peak :=
    if high candle >? toNumber (peakPrice p)
    then Some (high candle) else peakPrice p in
  let p := {| side := side p; entryPrice := entryPrice p;
              entryTime := entryTime p; inTpZone := inTpZone p;
              peakPrice := peak |} in
  let st := setPosition st (Some p) in
  hoursUntilShort <- getHoursUntilShortZone (timestamp candle) config ;;
  exitCheck <- checkTpZoneExit (low candle) (entryPrice p)
                 (toNumber (peakPrice p)) (tpZoneTrailingStopPct config)
                 hoursUntilShort (tpZoneHoursThreshold config) ;;
  if shouldExit exitCheck then
    let exitPrice :=
      match reason exitCheck with
      | Some "trailing-stop"%string =>
          toNumber (peakPrice p)
          * (num 1 - tpZoneTrailingStopPct config / num 100)
      | Some "below-entry"%string => entryPrice p * dec 999 1000
      | _ => price candle
      end in
    let reason_ :=
      match reason exitCheck with
      | Some r => ("tp-" ++ r)%string
      | None => "tp-null"%string
      end in
    closePosition config costs st p exitPrice (timestamp candle) reason_
  else Ok st.

(** Lines 588-620: the regular profit target. *)
Definition profitTargetStep (config : Config) (costs : Costs)
  (candle : Candle) (st : LoopState) (p : Position) (bestPrice : Qc)
  : result LoopState :=
  let targetPrice :=
    match side p with
    | long => entryPrice p * (num 1 + profitTargetPct config / num 100)
    | short => entryPrice p * (num 1 - profitTargetPct config / num 100)
    end in
  match side p with
  | long =>
      hoursUntilShort <- getHoursUntilShortZone (timestamp candle) config ;;
      if shouldEnterTpZone (side p) hoursUntilShort
           (tpZoneHoursThreshold config)
      then
        Ok (setPosition st
              (Some {| side := side p; entryPrice := entryPrice p;
                       entryTime := entryTime p; inTpZone := true;
                       peakPrice := Some bestPrice |}))
      else
        closePosition config costs st p targetPrice (timestamp candle)
          "profit-target"
  | short =>
      closePosition config costs st p targetPrice (timestamp candle)
        "profit-target"
  end.

(** Lines 543-621: [if (position) { ... }].  [profitPct] and
    [worstProfitPct] are evaluated, as in the source, and not used. *)
Definition checkPosition (config : Config) (costs : Costs) (candle : Candle)
  (st : LoopState) : result LoopState :=
  match position st with
  | None => Ok st
  | Some p =>
      profitPct <- calcProfitPct (entryPrice p) (price candle) (side p) ;;
      let worstPrice :=
        match side p with long => low candle | short => high candle end in
      let bestPrice :=
        match side p with long => high candle | short => low candle end in
      worstProfitPct <- calcProfitPct (entryPrice p) worstPrice (side p) ;;
      bestProfitPct <- calcProfitPct (entryPrice p) bestPrice (side p) ;;
      if Side_eqb (side p) long && inTpZone p then
        tpZoneStep config costs candle st p
      else if bestProfitPct >=? profitTargetPct config then
        profitTargetStep config costs candle st p bestPrice
      else Ok st
  end.

(** Lines 623-630: [// Track drawdown]. *)
Definition trackDrawdown (st : LoopState) : result LoopState :=
  let peakEquity_ :=
    if equity st >? peakEquity st then equity st else peakEquity st in
  q <- div (peakEquity_ - equity st) peakEquity_ ;;
  let drawdown := q * num 100 in
  let maxDrawdown_ :=
    if drawdown >? maxDrawdown st then drawdown else maxDrawdown st in
  Ok {| trades := trades st;
        position := position st;
        previousZone := previousZone st;
        equity := equity st;
        peakEquity := peakEquity_;
        maxDrawdown := maxDrawdown_;
        totalCosts := totalCosts st |}.

Definition setPreviousZone (st : LoopState) (z : Side) : LoopState :=
  {| trades := trades st;
     position := position st;
     previousZone := Some z;
     equity := equity st;
     peakEquity := peakEquity st;
     maxDrawdown := maxDrawdown st;
     totalCosts := totalCosts st |}.

(** The body of the [for] loop, lines 516-632. *)
Definition step (config : Config) (costs : Costs) (st : LoopState)
  (candle : Candle) : result LoopState :=
  let currentZone := getZone (timestamp candle) config in
  st1 <- zoneFlip config costs candle currentZone st ;;
  st2 <- checkPosition config costs candle st1 ;;
  st3 <- trackDrawdown st2 ;;
  Ok (setPreviousZone st3 currentZone).

(** The [for] loop, lines 515-633. *)
Fixpoint runLoop (config : Config) (costs : Costs) (priceData : list Candle)
  (st : LoopState) : result LoopState :=
  match priceData with
  | [] => Ok st
  | candle :: rest =>
      st' <- step config costs st candle ;;
      runLoop config costs rest st'
  end.

(** Lines 635-644: [// Close any remaining position at end]. *)
Definition closeRemaining (config : Config) (costs : Costs)
  (priceData : list Candle) (st : LoopState) : result LoopState :=
  match position st, rev priceData with
  | Some p, lastCandle :: _ =>
      trade <- closeTrade p (price lastCandle) (timestamp lastCandle)
                 "backtest-end" config costs ;;
      Ok (recordTrade config st trade)
  | _, _ => Ok st
  end.

(** ** Stats aggregator *)

Record ReasonStats : Type := mkReasonStats {
  rs_count : Z;
  rs_grossPnl : Qc;
  rs_netPnl : Qc
}.

Record SideStats : Type := mkSideStats {
  ss_count : nat;
  ss_winRate : Qc;
  ss_grossPnl : Qc;
  ss_netPnl : Qc
}.

Record Stats : Type := mkStats {
  totalTrades : nat;
  winningTrades : nat;
  losingTrades : nat;
  avgWin : Qc;
  avgLoss : Qc;
  avgTradeDuration : Qc;
  longStats : SideStats;
  shortStats : SideStats;
  byExitReason : list (string * ReasonStats);  (* keys in insertion order *)
  st_totalCosts : TotalCosts;
  st_costs : Costs;
  st_config : Config
}.

Record BacktestResult : Type := mkBacktestResult {
  r_trades : list Trade;
  grossPnlPct : Qc;
  netPnlPct : Qc;
  totalPnlPct : Qc;
  winRate : Qc;
  maxDrawdownPct : Qc;
  sharpeRatio : Qc;
  stats : Stats
}.

(** [xs.length] as a number. *)
Definition len {A : Type} (l : list A) : Qc := num (Z.of_nat (List.length l)).

(** [xs.reduce((a, t) => a + f(t), 0)] *)
Definition sumOf {A : Type} (f : A -> Qc) (l : list A) : Qc :=
  fold_left (fun a t => a + f t) l (num 0).

(** [n > 0 ? total / n : 0] and its variants: the guarded mean. *)
Definition guardedDiv (guard : bool) (x y : Qc) : result Qc :=
  if guard then div x y else Ok (num 0).

(** One turn of the [for (const trade of trades)] loop over [byReason]. *)
Fixpoint tally (trade : Trade) (byReason : list (string * ReasonStats))
  : list (string * ReasonStats) :=
  let add (v : ReasonStats) : ReasonStats :=
    {| rs_count := (rs_count v + 1)%Z;
       rs_grossPnl := rs_grossPnl v + t_grossPnlPct trade;
       rs_netPnl := rs_netPnl v + t_netPnlPct trade |} in
  match byReason with
  | [] =>
      [(t_exitReason trade,
        add {| rs_count := 0%Z; rs_grossPnl := num 0; rs_netPnl := num 0 |})]
  | (k, v) :: rest =>
      if String.eqb k (t_exitReason trade) then (k, add v) :: rest
      else (k, v) :: tally trade rest
  end.

Section Backtester.

(** [Math.sqrt].  Rationals are not closed under square roots, so the
    function is a parameter of the development. *)
Variable sqrt : Qc -> Qc.

Definition sideStats (sideTrades : list Trade) : result SideStats :=
  wr <- (if len sideTrades >? num 0 then
           q <- div (len (filter (fun t => t_netPnlPct t >? num 0)
                            sideTrades))
                    (len sideTrades) ;;
           Ok (q * num 100)
         else Ok (num 0)) ;;
  Ok {| ss_count := List.length sideTrades;
        ss_winRate := wr;
        ss_grossPnl := sumOf t_grossPnlPct sideTrades;
        ss_netPnl := sumOf t_netPnlPct sideTrades |}.

(** Lines 705-711. *)
Definition sharpeOf (returns : list Qc) : result Qc :=
  avgReturn <- guardedDiv (len returns >? num 0)
                 (fold_left (fun a b => a + b) returns (num 0))
                 (len returns) ;;
  stdDev <- (if len returns >? num 1 then
               v <- div (fold_left
                           (fun sum r => sum + (r - avgReturn) ^ 2)
                           returns (num 0))
                        (len returns - num 1) ;;
               Ok (sqrt v)
             else Ok (num 0)) ;;
  if stdDev >? num 0 then
    q <- div avgReturn stdDev ;;
    Ok (q * sqrt (num 252))
  else Ok (num 0).

Definition calculateStats (trades_ : list Trade)
  (finalEquity maxDrawdown_ : Qc) (config : Config) (costs : Costs)
  (totalCosts_ : TotalCosts) : result BacktestResult :=
  let winning := filter (fun t => t_netPnlPct t >? num 0) trades_ in
  let losing := filter (fun t => t_netPnlPct t <=? num 0) trades_ in
  let longTrades := filter (fun t => Side_eqb (t_side t) long) trades_ in
  let shortTrades := filter (fun t => Side_eqb (t_side t) short) trades_ in
  let netPnlPct_ := finalEquity - num 100 in
  let grossPnlPct_ := sumOf t_grossPnlPct trades_ in
  let returns := map t_netPnlPct trades_ in
  sharpeRatio_ <- sharpeOf returns ;;
  let byReason := fold_left (fun m t => tally t m) trades_ [] in
  winRate_ <- (if len trades_ >? num 0 then
                 q <- div (len winning) (len trades_) ;; Ok (q * num 100)
               else Ok (num 0)) ;;
  avgWin_ <- guardedDiv (len winning >? num 0)
               (sumOf t_netPnlPct winning) (len winning) ;;
  avgLoss_ <- guardedDiv (len losing >? num 0)
                (sumOf t_netPnlPct losing) (len losing) ;;
  avgTradeDuration_ <- guardedDiv (len trades_ >? num 0)
                         (sumOf t_durationHours trades_) (len trades_) ;;
  longStats_ <- sideStats longTrades ;;
  shortStats_ <- sideStats shortTrades ;;
  Ok {| r_trades := trades_;
        grossPnlPct := grossPnlPct_;
        netPnlPct := netPnlPct_;
        totalPnlPct := netPnlPct_;
        winRate := winRate_;
        maxDrawdownPct := maxDrawdown_;
        sharpeRatio := sharpeRatio_;
        stats :=
          {| totalTrades := List.length trades_;
             winningTrades := List.length winning;
             losingTrades := List.length losing;
             avgWin := avgWin_;
             avgLoss := avgLoss_;
             avgTradeDuration := avgTradeDuration_;
             longStats := longStats_;
             shortStats := shortStats_;
             byExitReason := byReason;
             st_totalCosts := totalCosts_;
             st_costs := costs;
             st_config := config |} |}.

Definition runBacktest (priceData : list Candle) (config : Config)
  (costs : Costs) : result BacktestResult :=
  st <- runLoop config costs priceData initialState ;;
  st' <- closeRemaining config costs priceData st ;;
  calculateStats (trades st') (equity st') (maxDrawdown st') config costs
    (totalCosts st').

End Backtester.

(** * Specification-side definitions

    What the specification's sentences denote, stated independently of the
    code above, to compare the code with. *)

(** ** Local time *)

(** The instant whose UTC fields are the local (UTC - 5 h) fields of [t]. *)
Definition localTime (t : Date) : Date := (t - 5 * 3600000)%Z.

(** ** Hours until the short zone *)

Definition isWeekend (d : Z) : bool := ((d =? 0) || (d =? 6))%Z.

(** [d] is the number of days from day-of-week [dow] to the next weekday:
    the first day after [dow] that is neither Saturday nor Sunday. *)
Definition nextWeekdayIn (dow d : Z) : Prop :=
  (1 <= d)%Z
  /\ isWeekend ((dow + d) mod 7)%Z = false
  /\ forall k : Z, (1 <= k < d)%Z -> isWeekend ((dow + k) mod 7)%Z = true.

(** ** Sharpe ratio *)

Fixpoint total (xs : list Qc) : Qc :=
  match xs with
  | [] => 0
  | x :: rest => x + total rest
  end.


Section SharpeSpec.

Variable sqrt : Qc -> Qc.



End SharpeSpec.

(** ** Cost identity *)

(** Signed percentage move of the price in the trade's favour. *)
Definition pricePctOf (t : Trade) : Qc :=
  match t_side t with
  | long => (t_exitPrice t - t_entryPrice t) / t_entryPrice t * num 100
  | short => (t_entryPrice t - t_exitPrice t) / t_entryPrice t * num 100
  end.

(** Round-trip fee and slippage plus signed funding, in per cent of
    notional. *)
Definition totalCostPctOf (costs : Costs) (t : Trade) : Qc :=
  num 2 * takerFeeBps costs / num 100
  + num 2 * slippageBps costs / num 100
  + num (floor (t_durationHours t / fundingIntervalHours costs))
    * (avgFundingRateBps costs / num 100)
    * match t_side t with long => num 1 | short => num (-1) end.

(** The identity, and that the two divisors in it are not zero. *)
Definition costIdentity (config : Config) (costs : Costs) (t : Trade)
  : Prop :=
  t_netPnlPct t
  = t_grossPnlPct t - leverage config * totalCostPctOf costs t
  /\ t_grossPnlPct t = pricePctOf t * leverage config
  /\ totalCostPct (t_costs t) = totalCostPctOf costs t
  /\ t_entryPrice t <> 0
  /\ fundingIntervalHours costs <> 0.

(** ** Position state machine *)

(** Best-case favourable move of the candle, in per cent of the entry
    price: the high for a long, the low for a short. *)
Definition bestMovePct (p : Position) (candle : Candle) : Qc :=
  match side p with
  | long => (high candle - entryPrice p) / entryPrice p * num 100
  | short => (entryPrice p - low candle) / entryPrice p * num 100
  end.

Definition enterTpZone (p : Position) (peak : Qc) : Position :=
  {| side := side p; entryPrice := entryPrice p; entryTime := entryTime p;
     inTpZone := true; peakPrice := Some peak |}.




(** The position a zone flip opens. *)
Definition newPosition (zone : Side) (candle : Candle) : Position :=
  {| side := zone; entryPrice := price candle;
     entryTime := timestamp candle; inTpZone := false; peakPrice := None |}.

(** The in-place peak update of the take-profit zone. *)
Definition raisePeak (p : Position) (candle : Candle) : Position :=
  {| side := side p; entryPrice := entryPrice p; entryTime := entryTime p;
     inTpZone := inTpZone p;
     peakPrice := if high candle >? toNumber (peakPrice p)
                  then Some (high candle) else peakPrice p |}.

(** ** Trade log and equity *)

(** From [st] to [st'] exactly the trades [closed] were closed, in order:
    they are appended to the log and their net PnL is added to equity. *)
Definition extends (config : Config) (costs : Costs) (st st' : LoopState)
  (closed : list Trade) : Prop :=
  trades st' = trades st ++ closed
  /\ equity st' = equity st + total (map t_netPnlPct closed)
  /\ Forall (costIdentity config costs) closed.

(** ** Loop invariants *)

(** Nothing has happened yet: no position, no trade, equity untouched. *)
Definition flat (zone : Side) (st : LoopState) : Prop :=
  position st = None
  /\ trades st = []
  /\ equity st = num 100
  /\ peakEquity st = num 100
  /\ (previousZone st = None \/ previousZone st = Some zone).

(** Every entry time, of the open position and of the logged trades,
    satisfies [P]. *)
Definition entriesSatisfy (P : Date -> Prop) (st : LoopState) : Prop :=
  (forall p, position st = Some p -> P (entryTime p))
  /\ Forall (fun t => P (t_entryTime t)) (trades st).

(** [t] is the timestamp of a candle of [priceData] that has a predecessor
    in the sequence, and that predecessor classifies to the other zone. *)
Definition atZoneChange (config : Config) (priceData : list Candle)
  (t : Date) : Prop :=
  exists (before : list Candle) (prev c : Candle) (after : list Candle),
    priceData = before ++ prev :: c :: after
    /\ t = timestamp c
    /\ getZone (timestamp prev) config <> getZone (timestamp c) config.

(** ** Drawdown *)

(** The values of the loop's variables at the end of each iteration, first
    candle first. *)
Fixpoint runTrace (config : Config) (costs : Costs)
  (priceData : list Candle) (st : LoopState) : result (list LoopState) :=
  match priceData with
  | [] => Ok []
  | candle :: rest =>
      st' <- step config costs st candle ;;
      tr <- runTrace config costs rest st' ;;
      Ok (st' :: tr)
  end.

(** Drawdown samples of a sequence of equity values: each sample is
    (peak - equity) / peak * 100 against the running maximum of the equity
    so far, the maximum starting at [peak]. *)
Fixpoint drawdowns (peak : Qc) (equities : list Qc) : list Qc :=
  match equities with
  | [] => []
  | e :: rest =>
      let pk := Qcmax peak e in
      ((pk - e) / pk * num 100) :: drawdowns pk rest
  end.

(** [m] is the maximum of the values [l] and of [low_]. *)
Definition isMaxOf (m low_ : Qc) (l : list Qc) : Prop :=
  (m = low_ \/ In m l)
  /\ low_ <= m
  /\ Forall (fun x => x <= m) l.

(** Equity after each trade closure, starting from [equity]. *)
Fixpoint runningEquity (equity_ : Qc) (nets : list Qc) : list Qc :=
  match nets with
  | [] => []
  | n :: rest => (equity_ + n) :: runningEquity (equity_ + n) rest
  end.

(** The drawdown samples if the drawdown were recomputed after every trade
    closure of the log, the final one included. *)
Definition perClosureDrawdowns (log : list Trade) : list Qc :=
  drawdowns (num 100) (runningEquity (num 100) (map t_netPnlPct log)).

(** ** Well-formed input *)

(** A candle the loop can process without dividing by zero: the close is
    not zero and the high is positive. *)
Definition wellFormedCandle (candle : Candle) : Prop :=
  price candle <> 0 /\ 0 < high candle.

(** The open position, if any, has a non-zero entry price and, in the
    take-profit zone, a positive peak; the equity peak is positive. *)
Definition healthy (st : LoopState) : Prop :=
  (forall p, position st = Some p ->
             entryPrice p <> 0
             /\ (inTpZone p = true ->
                 exists pk, peakPrice p = Some pk /\ 0 < pk))
  /\ 0 < peakEquity st.

(** * Sample data *)

(** An integer square root, used where a concrete [Math.sqrt] is needed. *)
Definition isqrt (x : Qc) : Qc := num (Z.sqrt (floor x)).

Definition sampleCandle (t : Date) (close_ high_ low_ : Z) : Candle :=
  {| timestamp := t; price := num close_; high := num high_;
     low := num low_ |}.

(** Monday 2025-12-01, 15:00 UTC = 10:00 local: inside the short zone. *)
Definition monday10 : Date := 1764601200000%Z.
(** Monday 2025-12-01, 22:00 UTC = 17:00 local: long zone. *)
Definition monday17 : Date := (monday10 + 7 * 3600000)%Z.
(** Tuesday 2025-12-02, 15:00 UTC = 10:00 local: short zone again. *)
Definition tuesday10 : Date := (monday10 + 24 * 3600000)%Z.

(** A long is opened at 100 on Monday evening.  On Tuesday morning the zone
    flips: the long is closed at 98 and a short is opened at 98; the same
    candle's low of 97 is 1.02 % below 98, so the short is closed in that
    candle at its profit target.  Two closures share the last candle, and no
    position is left open. *)
Definition flipAndTarget : list Candle :=
  [ sampleCandle monday10 100 100 100;
    sampleCandle monday17 100 100 100;
    sampleCandle tuesday10 98 98 97 ].

(** A long is opened at 100 on Monday evening and is still open, at 90,
    when the data ends five minutes later. *)
Definition openAtEnd : list Candle :=
  [ sampleCandle monday10 100 100 100;
    sampleCandle monday17 100 100 100;
    sampleCandle (monday17 + 300000)%Z 90 100 90 ].

(** A long is opened at 100000 on Monday evening; five minutes later the
    high of 101500 is past the 1 % target with more than six hours to the
    short zone; five minutes after that the low of 100900 is 0.59 % below
    the peak. *)
Definition trailingStop : list Candle :=
  [ sampleCandle monday10 100000 100000 100000;
    sampleCandle monday17 100000 100000 100000;
    sampleCandle (monday17 + 300000)%Z 101000 101500 100500;
    sampleCandle (monday17 + 600000)%Z 101000 101200 100900 ].

(** Three candles inside Monday's short zone. *)
Definition oneZone : list Candle :=
  [ sampleCandle monday10 100 101 99;
    sampleCandle (monday10 + 300000)%Z 100 102 98;
    sampleCandle (monday10 + 600000)%Z 101 103 100 ].

(** Equality of computed rationals, and of lists of them. *)
Ltac qc_eq := apply Qc_is_canon; vm_compute; reflexivity.
Ltac qc_list_eq :=
  vm_compute; repeat (apply f_equal2; [qc_eq|]); reflexivity.

(** * Further functions of the strategy and backtester modules *)


(** The exit price of a [profit-target] closure ([targetPrice] in
    [runBacktest]). *)
Definition targetPrice (config : Config) (p : Position) : Qc :=
  match side p with
  | long => entryPrice p * (num 1 + profitTargetPct config / num 100)
  | short => entryPrice p * (num 1 - profitTargetPct config / num 100)
  end.

(** Minutes since local midnight of the UTC day, as
    [getHoursUntilShortZone] computes them ([currentMinutes]); and the
    minute of the day of a configured time. *)
Definition currentMinutes (date : Date) : Qc :=
  num ((getUTCHours date - 5) * 60 + getUTCMinutes date).

Definition minuteOfDay (t : TimeOfDay) : Qc := hour t * num 60 + minute t.

(** A time of day with a whole hour and a minute in [0, 60). *)
Definition wholeHour (t : TimeOfDay) : Prop :=
  (exists h : Z, hour t = num h) /\ 0 <= minute t /\ minute t < num 60.

(** ** One iteration of the loop, as the events it produces *)

(** The zone-flip block at a candle classified [zone]: from the previous
    zone and the open position to the trades it logs and the position it
    leaves. *)
Inductive flipped (config : Config) (costs : Costs) (candle : Candle)
  (zone : Side)
  : option Side -> option Position -> list Trade -> option Position -> Prop :=
| flip_first (pos : option Position) :
    flipped config costs candle zone None pos [] pos
| flip_same (pos : option Position) :
    flipped config costs candle zone (Some zone) pos [] pos
| flip_open (pz : Side) :
    pz <> zone ->
    flipped config costs candle zone (Some pz) None []
      (Some (newPosition zone candle))
| flip_close (pz : Side) (p : Position) (t : Trade) :
    pz <> zone ->
    closeTrade p (price candle) (timestamp candle) "zone-flip" config costs
    = Ok t ->
    flipped config costs candle zone (Some pz) (Some p) [t]
      (Some (newPosition zone candle)).

(** The ways the [if (position)] block closes the position [p] at a candle:
    the exit reason and the exit price, with the conditions under which the
    code takes that branch. *)
Inductive exitOf (config : Config) (candle : Candle) (p : Position)
  : string -> Qc -> Prop :=
| exit_target :
    (side p = long -> inTpZone p = false) ->
    profitTargetPct config <= bestMovePct p candle ->
    exitOf config candle p "profit-target" (targetPrice config p)
| exit_below :
    side p = long -> inTpZone p = true ->
    low candle < entryPrice p ->
    exitOf config candle p "tp-below-entry" (entryPrice p * dec 999 1000)
| exit_trailing :
    side p = long -> inTpZone p = true ->
    entryPrice p <= low candle ->
    exitOf config candle p "tp-trailing-stop"
      (toNumber (peakPrice (raisePeak p candle))
       * (num 1 - tpZoneTrailingStopPct config / num 100))
| exit_time :
    side p = long -> inTpZone p = true ->
    entryPrice p <= low candle ->
    exitOf config candle p "tp-time-exit" (price candle).

(** The [if (position)] block: from the open position to the trades it logs
    and the position it leaves. *)
Inductive checked (config : Config) (costs : Costs) (candle : Candle)
  : option Position -> list Trade -> option Position -> Prop :=
| check_keep (pos : option Position) :
    checked config costs candle pos [] pos
| check_enter (p : Position) :
    side p = long -> inTpZone p = false ->
    profitTargetPct config <= bestMovePct p candle ->
    checked config costs candle (Some p) []
      (Some (enterTpZone p (high candle)))
| check_raise (p : Position) :
    side p = long -> inTpZone p = true ->
    checked config costs candle (Some p) [] (Some (raisePeak p candle))
| check_close (p : Position) (t : Trade) (reason_ : string) (x : Qc) :
    exitOf config candle p reason_ x ->
    closeTrade p x (timestamp candle) reason_ config costs = Ok t ->
    checked config costs candle (Some p) [t] None.

(** [t] is the trade of closing position [p] at [candle] inside the loop:
    by the zone-flip block, at the candle's close, or by the position
    block. *)
Definition closedInLoop (config : Config) (costs : Costs) (candle : Candle)
  (p : Position) (t : Trade) : Prop :=
  exists (reason_ : string) (x : Qc),
    closeTrade p x (timestamp candle) reason_ config costs = Ok t
    /\ ((reason_ = "zone-flip"%string /\ x = price candle)
        \/ exitOf config candle p reason_ x).

(** [t] is the trade of closing position [p] at [candle], inside the loop
    or after it, at the end of the data. *)
Definition closedAt (config : Config) (costs : Costs) (candle : Candle)
  (p : Position) (t : Trade) : Prop :=
  exists (reason_ : string) (x : Qc),
    closeTrade p x (timestamp candle) reason_ config costs = Ok t
    /\ ((reason_ = "zone-flip"%string /\ x = price candle)
        \/ (reason_ = "backtest-end"%string /\ x = price candle)
        \/ exitOf config candle p reason_ x).

(** [st'] carries the log, the equity and the cost totals of [st] after the
    trades [closed] were booked, in order. *)
Definition booked (config : Config) (st st' : LoopState)
  (closed : list Trade) : Prop :=
  let b := fold_left (recordTrade config) closed st in
  trades st' = trades b
  /\ equity st' = equity b
  /\ totalCosts st' = totalCosts b.

(** One iteration at [candle], from [st] to [st'], books the trades
    [closed]: those of the zone-flip block, then those of the position
    block. *)
Definition iteration (config : Config) (costs : Costs) (candle : Candle)
  (st st' : LoopState) (closed : list Trade) : Prop :=
  exists (ts1 ts2 : list Trade) (pos1 : option Position),
    closed = ts1 ++ ts2
    /\ flipped config costs candle (getZone (timestamp candle) config)
         (previousZone st) (position st) ts1 pos1
    /\ checked config costs candle pos1 ts2 (position st')
    /\ previousZone st' = Some (getZone (timestamp candle) config)
    /\ booked config st st' closed.

(** The side, entry time and entry price of the open position satisfy
    [Pos]; every logged trade satisfies [P]. *)
Definition logInv (Pos : Side -> Date -> Qc -> Prop) (P : Trade -> Prop)
  (st : LoopState) : Prop :=
  (forall p, position st = Some p ->
             Pos (side p) (entryTime p) (entryPrice p))
  /\ Forall P (trades st).

(** The exit reasons of the take-profit zone. *)
Definition tpReasons : list string :=
  ["tp-below-entry"; "tp-trailing-stop"; "tp-time-exit"]%string.

(** [t] was entered at the close of the candle [c], on the side of the zone
    the candle falls in. *)
Definition enteredAt (config : Config) (c : Candle) (side_ : Side)
  (time : Date) (x : Qc) : Prop :=
  time = timestamp c /\ x = price c
  /\ side_ = getZone (timestamp c) config.

(** ** The order of the log *)

(** The entry and exit times of the log, in the order they are logged. *)
Definition timesOf (l : list Trade) : list Date :=
  flat_map (fun t => [t_entryTime t; t_exitTime t]) l.

(** The log [l] is in time order and lies before [now]; the open position,
    entered at [oe], was entered after everything in the log. *)
Definition chronInv (now : Date) (l : list Trade) (oe : option Date)
  : Prop :=
  StronglySorted Z.le (timesOf l)
  /\ Forall (fun x => (x <= now)%Z) (timesOf l)
  /\ (forall e, oe = Some e ->
        (e <= now)%Z /\ Forall (fun x => (x <= e)%Z) (timesOf l)).

(** The side, time and price of an entry. *)
Definition Entry : Type := (Side * Date * Qc)%type.

Definition entryOf (p : Position) : Entry :=
  (side p, entryTime p, entryPrice p).

(** The entry [e] takes over where the trade [t] ended: at its exit time
    and exit price, on the other side. *)
Definition follows (t : Trade) (e : Entry) : Prop :=
  let '(s, time, x) := e in
  time = t_exitTime t /\ x = t_exitPrice t /\ s <> t_side t.

(** The entry that comes after the head of a log: of the next trade, or of
    the open position when the log ends there. *)
Definition nextEntry (rest : list Trade) (oe : option Entry)
  : option Entry :=
  match rest with
  | t' :: _ => Some (t_side t', t_entryTime t', t_entryPrice t')
  | [] => oe
  end.

(** Every [zone-flip] trade of the log is followed by an entry that takes
    over from it. *)
Fixpoint flipsFollowed (l : list Trade) (oe : option Entry) : Prop :=
  match l with
  | [] => True
  | t :: rest =>
      (t_exitReason t = "zone-flip"%string ->
       exists e, nextEntry rest oe = Some e /\ follows t e)
      /\ flipsFollowed rest oe
  end.

(** At the end of an iteration the open position is on the side of the
    zone just seen, and every zone flip of the log has its successor. *)
Definition flipInv (st : LoopState) : Prop :=
  (forall p, position st = Some p -> previousZone st = Some (side p))
  /\ flipsFollowed (trades st) (option_map entryOf (position st)).

(** ** Reading the report *)

(** [byReason[k]] for an own key [k]. *)
Fixpoint lookupReason (k : string) (m : list (string * ReasonStats))
  : option ReasonStats :=
  match m with
  | [] => None
  | (k', v) :: rest => if String.eqb k' k then Some v else lookupReason k rest
  end.

(** The trades of the log closed for the reason [k]. *)
Definition withReason (k : string) (l : list Trade) : list Trade :=
  filter (fun t => String.eqb (t_exitReason t) k) l.

(** The count and the sums that the trades [sel] add to an entry [v]. *)
Definition tallied (v : ReasonStats) (sel : list Trade) : ReasonStats :=
  {| rs_count := (rs_count v + Z.of_nat (List.length sel))%Z;
     rs_grossPnl := rs_grossPnl v + total (map t_grossPnlPct sel);
     rs_netPnl := rs_netPnl v + total (map t_netPnlPct sel) |}.

Definition emptyReason : ReasonStats :=
  {| rs_count := 0%Z; rs_grossPnl := num 0; rs_netPnl := num 0 |}.

(** ** The command line (backtest/run.js) *)

(** The [costs] object that [main] builds under [--no-costs]. *)
Definition NO_COSTS : Costs := {|
  takerFeeBps := num 0;
  makerRebateBps := num 0;
  slippageBps := num 0;
  avgFundingRateBps := num 0;
  fundingIntervalHours := num 8
|}.

(** ** The parameter sweep (backtest/optimize.js) *)

(** Truncation towards zero, and [v % 1]: the remainder of the truncating
    division, which has the sign of [v]. *)
Definition trunc (x : Qc) : Z := Z.quot (Qnum x) (Z.pos (Qden x)).

Definition rem1 (v : Qc) : Qc := v - num (trunc v).

Module Optimize.

(** The names of [PARAM_DEFS]. *)
Inductive Param : Type :=
| profitTarget | shortStart | shortEnd | tpThreshold | trailingStop
| leverageParam.

(** The configuration that [runSingleParamOptimization] tests for one value
    of the parameter: a copy of [DEFAULT_CONFIG] with the parameter's key
    set and, for an [.hour] key, the [.minute] beside it set to 30 for a
    half hour and to 0 otherwise. *)
Definition paramConfig (param : Param) (value : Qc) : Config :=
  let minuteOf := if rem1 value =? dec 5 10 then num 30 else num 0 in
  match param with
  | profitTarget =>
      {| profitTargetPct := value;
         tpZoneTrailingStopPct := tpZoneTrailingStopPct DEFAULT_CONFIG;
         tpZoneHoursThreshold := tpZoneHoursThreshold DEFAULT_CONFIG;
         leverage := leverage DEFAULT_CONFIG;
         shortZoneStart := shortZoneStart DEFAULT_CONFIG;
         shortZoneEnd := shortZoneEnd DEFAULT_CONFIG |}
  | shortStart =>
      {| profitTargetPct := profitTargetPct DEFAULT_CONFIG;
         tpZoneTrailingStopPct := tpZoneTrailingStopPct DEFAULT_CONFIG;
         tpZoneHoursThreshold := tpZoneHoursThreshold DEFAULT_CONFIG;
         leverage := leverage DEFAULT_CONFIG;
         shortZoneStart := {| hour := value; minute := minuteOf |};
         shortZoneEnd := shortZoneEnd DEFAULT_CONFIG |}
  | shortEnd =>
      {| profitTargetPct := profitTargetPct DEFAULT_CONFIG;
         tpZoneTrailingStopPct := tpZoneTrailingStopPct DEFAULT_CONFIG;
         tpZoneHoursThreshold := tpZoneHoursThreshold DEFAULT_CONFIG;
         leverage := leverage DEFAULT_CONFIG;
         shortZoneStart := shortZoneStart DEFAULT_CONFIG;
         shortZoneEnd := {| hour := value; minute := minuteOf |} |}
  | tpThreshold =>
      {| profitTargetPct := profitTargetPct DEFAULT_CONFIG;
         tpZoneTrailingStopPct := tpZoneTrailingStopPct DEFAULT_CONFIG;
         tpZoneHoursThreshold := value;
         leverage := leverage DEFAULT_CONFIG;
         shortZoneStart := shortZoneStart DEFAULT_CONFIG;
         shortZoneEnd := shortZoneEnd DEFAULT_CONFIG |}
  | trailingStop =>
      {| profitTargetPct := profitTargetPct DEFAULT_CONFIG;
         tpZoneTrailingStopPct := value;
         tpZoneHoursThreshold := tpZoneHoursThreshold DEFAULT_CONFIG;
         leverage := leverage DEFAULT_CONFIG;
         shortZoneStart := shortZoneStart DEFAULT_CONFIG;
         shortZoneEnd := shortZoneEnd DEFAULT_CONFIG |}
  | leverageParam =>
      {| profitTargetPct := profitTargetPct DEFAULT_CONFIG;
         tpZoneTrailingStopPct := tpZoneTrailingStopPct DEFAULT_CONFIG;
         tpZoneHoursThreshold := tpZoneHoursThreshold DEFAULT_CONFIG;
         leverage := value;
         shortZoneStart := shortZoneStart DEFAULT_CONFIG;
         shortZoneEnd := shortZoneEnd DEFAULT_CONFIG |}
  end.

(** [Math.round]: the nearest integer, a half going up. *)
Definition round (x : Qc) : Z := floor (x + dec 5 10).

(** The [for] loop of [generateRange]; [fuel] bounds the number of
    tests of the loop condition. *)
Fixpoint rangeLoop (fuel : nat) (v max step : Qc) (values : list Qc)
  : result (list Qc) :=
  match fuel with
  | O => Err OutOfFuel
  | S fuel' =>
      if v <=? max + dec 1 10000 then
        rangeLoop fuel' (v + step) max step
          (values ++ [num (round (v * num 1000)) / num 1000])
      else Ok values
  end.

Definition generateRange (fuel : nat) (min max step : Qc)
  : result (list Qc) :=
  rangeLoop fuel min max step [].

(** The [i]-th value of a range: [min + i * step], rounded to three
    decimals. *)
Definition rangeValue (min step : Qc) (i : nat) : Qc :=
  num (round ((min + num (Z.of_nat i) * step) * num 1000)) / num 1000.

(** What the sweep keeps of one backtest, beside the value tested and its
    label: [netPnl], [grossPnl], [sharpe], [winRate], [maxDrawdown] and
    [trades]. *)
Record Row : Type := mkRow {
  row_netPnl : Qc;
  row_grossPnl : Qc;
  row_sharpe : Qc;
  row_winRate : Qc;
  row_maxDrawdown : Qc;
  row_trades : nat
}.

Definition rowOf (r : BacktestResult) : Row :=
  {| row_netPnl := netPnlPct r;
     row_grossPnl := grossPnlPct r;
     row_sharpe := sharpeRatio r;
     row_winRate := winRate r;
     row_maxDrawdown := maxDrawdownPct r;
     row_trades := totalTrades (stats r) |}.

(** Two runs agree: both fail alike, or both return the same trade log and
    the same row. *)
Definition sameRun (a b : result BacktestResult) : Prop :=
  match a, b with
  | Ok r1, Ok r2 => r_trades r1 = r_trades r2 /\ rowOf r1 = rowOf r2
  | Err e1, Err e2 => e1 = e2
  | _, _ => False
  end.

End Optimize.

(** ** Two runs on the same candles *)

(** Two trades are the same decision: same entry, same exit, same side and
    reason; their gross PnL differ by the leverage only. *)
Definition sameDecision (c1 c2 : Config) (t1 t2 : Trade) : Prop :=
  t_entryTime t1 = t_entryTime t2
  /\ t_exitTime t1 = t_exitTime t2
  /\ t_entryPrice t1 = t_entryPrice t2
  /\ t_exitPrice t1 = t_exitPrice t2
  /\ t_side t1 = t_side t2
  /\ t_exitReason t1 = t_exitReason t2
  /\ t_durationHours t1 = t_durationHours t2
  /\ t_grossPnlPct t1 * leverage c2 = t_grossPnlPct t2 * leverage c1.

(** Two loop states that hold the same position after the same
    decisions. *)
Definition simState (c1 c2 : Config) (st1 st2 : LoopState) : Prop :=
  position st1 = position st2
  /\ previousZone st1 = previousZone st2
  /\ Forall2 (sameDecision c1 c2) (trades st1) (trades st2)
  /\ 0 < peakEquity st2.

(** Two configurations that differ in the leverage only. *)
Definition sameButLeverage (c1 c2 : Config) : Prop :=
  profitTargetPct c1 = profitTargetPct c2
  /\ tpZoneTrailingStopPct c1 = tpZoneTrailingStopPct c2
  /\ tpZoneHoursThreshold c1 = tpZoneHoursThreshold c2
  /\ shortZoneStart c1 = shortZoneStart c2
  /\ shortZoneEnd c1 = shortZoneEnd c2.

(** Every open position satisfies [Pos]; every logged trade satisfies
    [P]. *)
Definition positionInv (Pos : Position -> Prop) (P : Trade -> Prop)
  (st : LoopState) : Prop :=
  (forall p, position st = Some p -> Pos p) /\ Forall P (trades st).

(** In the take-profit zone the peak is set, and it is at or above the
    target price; the entry price is positive. *)
Definition peakAboveTarget (config : Config) (p : Position) : Prop :=
  0 < entryPrice p
  /\ (inTpZone p = true ->
      exists pk, peakPrice p = Some pk /\ targetPrice config p <= pk).


(** ** Zone changes *)

(** The candles of [l] that fall in another zone than the candle before
    them; [prev] is the zone of the candle before [l], if there is one. *)
Fixpoint zoneChangeCandles (config : Config) (prev : option Side)
  (l : list Candle) : list Candle :=
  match l with
  | [] => []
  | c :: rest =>
      let zone := getZone (timestamp c) config in
      let later := zoneChangeCandles config (Some zone) rest in
      match prev with
      | Some pz => if Side_eqb zone pz then later else c :: later
      | None => later
      end
  end.

(** The entry that a zone change at [c] opens, and the entries of a log
    followed by that of the open position. *)
Definition entryAt (config : Config) (c : Candle) : Entry :=
  (getZone (timestamp c) config, timestamp c, price c).

Definition entryOfTrade (t : Trade) : Entry :=
  (t_side t, t_entryTime t, t_entryPrice t).

Definition entriesOf (l : list Trade) (pos : option Position)
  : list Entry :=
  map entryOfTrade l
  ++ match pos with Some p => [entryOf p] | None => [] end.

(** The sides [l] alternate, starting on another side than [prev]. *)
Fixpoint sidesAlternate (prev : option Side) (l : list Side) : Prop :=
  match l with
  | [] => True
  | s :: rest =>
      match prev with Some pz => s <> pz | None => True end
      /\ sidesAlternate (Some s) rest
  end.
(** * Properties *)

(** ** The outcome monad *)

Lemma bind_Ok {A B : Type} (m : result A) (k : A -> result B) (b : B) :
  bind m k = Ok b -> exists a, m = Ok a /\ k a = Ok b.
Proof.
  destruct m as [a|e]; simpl; intros H; [exists a; auto | discriminate].
Qed.

(** ** Comparisons and arithmetic on [Qc] *)

Lemma Qc_ltb_lt (x y : Qc) : (x <? y) = true <-> x < y.
Proof.
  unfold Qc_ltb. rewrite Qclt_alt.
  destruct (x ?= y); split; intros H; congruence.
Qed.

Lemma Qc_ltb_ge (x y : Qc) : (x <? y) = false <-> y <= x.
Proof.
  unfold Qc_ltb. rewrite Qcle_alt.
  unfold Qccompare. rewrite <- (Qcompare_antisym x y).
  destruct (x ?= y)%Q; simpl; split; intros H; congruence.
Qed.

Lemma Qc_leb_le (x y : Qc) : (x <=? y) = true <-> x <= y.
Proof.
  unfold Qc_leb. rewrite Qcle_alt.
  destruct (x ?= y); split; intros H; congruence.
Qed.

Lemma Qc_leb_gt (x y : Qc) : (x <=? y) = false <-> y < x.
Proof.
  unfold Qc_leb. rewrite Qclt_alt.
  unfold Qccompare. rewrite <- (Qcompare_antisym x y).
  destruct (x ?= y)%Q; simpl; split; intros H; congruence.
Qed.

Lemma Qc_eqb_eq (x y : Qc) : (x =? y) = true <-> x = y.
Proof.
  unfold Qc_eqb. rewrite Qceq_alt.
  destruct (x ?= y); split; intros H; congruence.
Qed.

Lemma Qc_eqb_neq (x y : Qc) : (x =? y) = false <-> x <> y.
Proof.
  rewrite <- Qc_eqb_eq. destruct (x =? y); split; congruence.
Qed.

Lemma div_Ok (x y : Qc) : y <> 0 -> div x y = Ok (x / y).
Proof.
  intros H. unfold div. apply Qc_eqb_neq in H. now rewrite H.
Qed.

Lemma div_inv (x y q : Qc) : div x y = Ok q -> y <> 0 /\ q = x / y.
Proof.
  unfold div. destruct (y =? 0) eqn:E; intros H; [discriminate|].
  apply Qc_eqb_neq in E. split; congruence.
Qed.

Lemma num_0 : num 0 = 0.
Proof. reflexivity. Qed.

Lemma num_1 : num 1 = 1.
Proof. reflexivity. Qed.

Lemma num_lt (a b : Z) : (a < b)%Z -> num a < num b.
Proof.
  intros H. unfold num, Qclt, Q2Qc, this. rewrite !Qred_correct.
  now rewrite <- Zlt_Qlt.
Qed.

Lemma num_le (a b : Z) : (a <= b)%Z -> num a <= num b.
Proof.
  intros H. unfold num, Qcle, Q2Qc, this. rewrite !Qred_correct.
  now rewrite <- Zle_Qle.
Qed.

Lemma num_inj (a b : Z) : num a = num b -> a = b.
Proof.
  intros H. apply (f_equal this) in H. unfold num, Q2Qc, this in H.
  assert (E : (inject_Z a == inject_Z b)%Q).
  { rewrite <- (Qred_correct (inject_Z a)), <- (Qred_correct (inject_Z b)).
    rewrite H. reflexivity. }
  apply inject_Z_injective. exact E.
Qed.

Lemma Qcmax_l (a b : Qc) : a <= Qcmax a b.
Proof.
  unfold Qcmax. destruct (a <? b) eqn:E.
  - apply Qc_ltb_lt in E. now apply Qclt_le_weak.
  - apply Qcle_refl.
Qed.

Lemma Qcmax_r (a b : Qc) : b <= Qcmax a b.
Proof.
  unfold Qcmax. destruct (a <? b) eqn:E.
  - apply Qcle_refl.
  - now apply Qc_ltb_ge in E.
Qed.

Lemma Qcmax_cases (a b : Qc) : Qcmax a b = a \/ Qcmax a b = b.
Proof. unfold Qcmax. destruct (a <? b); auto. Qed.

(** ** Zone classifier *)

Lemma getUTCDay_range (t : Date) : (0 <= getUTCDay t <= 6)%Z.
Proof.
  unfold getUTCDay.
  pose proof (Z.mod_pos_bound (t / msPerDay + 4) 7 ltac:(lia)). lia.
Qed.

Lemma isHoliday_In (s : string) : isHoliday s = true <-> In s HOLIDAYS.
Proof.
  unfold isHoliday. rewrite existsb_exists. split.
  - intros (x & Hx & E). apply String.eqb_eq in E. now subst.
  - intros H. exists s. split; [assumption | apply String.eqb_refl].
Qed.

Lemma getZone_early_return (date : Date) (config : Config) :
  ((getUTCDay date =? 0) || (getUTCDay date =? 6))%Z
  || isHoliday (isoDate date) = true ->
  getZone date config = long.
Proof.
  intros H. unfold getZone.
  destruct ((getUTCDay date =? 0) || (getUTCDay date =? 6))%Z;
    [reflexivity|].
  cbn [orb] in H. now rewrite H.
Qed.

Lemma weekend_or_holiday (date : Date) :
  getUTCDay date = 0%Z \/ getUTCDay date = 6%Z \/ In (isoDate date) HOLIDAYS ->
  ((getUTCDay date =? 0) || (getUTCDay date =? 6))%Z
  || isHoliday (isoDate date) = true.
Proof.
  intros [H | [H | H]].
  - rewrite H. reflexivity.
  - rewrite H. reflexivity.
  - apply isHoliday_In in H. rewrite H. apply orb_true_r.
Qed.

(** C5.  A timestamp whose (UTC) day of the week is Saturday or Sunday, or
    whose (UTC) calendar date is one of the holidays, is classified [long],
    whatever the time of day and whatever the configured short-zone
    window. *)
Theorem getZone_weekend_holiday_long (date : Date) (config : Config) :
  getUTCDay date = 0%Z \/ getUTCDay date = 6%Z \/ In (isoDate date) HOLIDAYS ->
  getZone date config = long.
Proof.
  intros H. apply getZone_early_return. now apply weekend_or_holiday.
Qed.

(** Saturday 2025-12-06 at 15:00 UTC, Sunday 2025-12-07 at 14:30 UTC and
    Thursday 2025-12-25 (Christmas) at 15:00 UTC, a time inside the default
    short-zone window. *)
Lemma getZone_weekend_holiday_long_witness :
  getZone 1765033200000%Z DEFAULT_CONFIG = long
  /\ getZone 1765117800000%Z DEFAULT_CONFIG = long
  /\ getZone 1766674800000%Z DEFAULT_CONFIG = long.
Proof.
  split; [|split].
  - apply getZone_weekend_holiday_long. right; left. reflexivity.
  - apply getZone_weekend_holiday_long. left. reflexivity.
  - apply getZone_weekend_holiday_long. right; right.
    vm_compute. tauto.
Defined.

(** The code reads the day of the week and the calendar date in UTC and
    only the hour in local time.  Reading all three in local time gives the
    same answer as long as the short zone does not start before midnight:
    between 00:00 and 05:00 UTC, where the two days differ, the local hour
    is negative and so before any such start. *)
Lemma localTime_same_day_or_early (t : Date) :
  (localTime t / msPerDay = t / msPerDay)%Z \/ (getUTCHours t < 5)%Z.
Proof.
  unfold localTime, getUTCHours, msPerDay.
  Z.to_euclidean_division_equations. lia.
Qed.

Lemma getZone_local_weekend_holiday_long (date : Date) (config : Config) :
  0 <= hour (shortZoneStart config) ->
  getUTCDay (localTime date) = 0%Z \/ getUTCDay (localTime date) = 6%Z
  \/ In (isoDate (localTime date)) HOLIDAYS ->
  getZone date config = long.
Proof.
  intros S H.
  destruct (localTime_same_day_or_early date) as [E | E].
  - apply getZone_early_return, weekend_or_holiday.
    unfold getUTCDay, isoDate in *. rewrite E in H. exact H.
  - unfold getZone.
    destruct ((getUTCDay date =? 0) || (getUTCDay date =? 6))%Z;
      [reflexivity|].
    destruct (isHoliday (isoDate date)); [reflexivity|].
    assert (L : num (getUTCHours date - 5) < hour (shortZoneStart config)).
    { eapply Qclt_le_trans; [|exact S].
      change 0 with (num 0). apply num_lt. lia. }
    assert (A : (num (getUTCHours date - 5) >? hour (shortZoneStart config))
                = false)
      by (apply Qc_ltb_ge; now apply Qclt_le_weak).
    assert (B : (num (getUTCHours date - 5) =? hour (shortZoneStart config))
                = false)
      by (apply Qc_eqb_neq; now apply Qclt_not_eq).
    rewrite A, B. reflexivity.
Qed.

(** ** Hours until the short zone *)

Lemma skipWeekend_next (dow : Z) :
  (0 <= dow <= 6)%Z ->
  exists d : Z,
    skipWeekend 7 1 ((dow + 1) mod 7)%Z = Ok d /\ nextWeekdayIn dow d.
Proof.
  intros R.
  assert (C : (dow = 0 \/ dow = 1 \/ dow = 2 \/ dow = 3 \/ dow = 4
               \/ dow = 5 \/ dow = 6)%Z) by lia.
  unfold nextWeekdayIn.
  destruct C as [C|[C|[C|[C|[C|[C|C]]]]]]; subst dow;
    eexists; (split; [reflexivity|]);
    (split; [lia|]); (split; [reflexivity|]);
    intros k Hk;
    try (exfalso; lia);
    assert (K : (k = 1 \/ k = 2)%Z) by lia;
    destruct K; subst k; (reflexivity || (exfalso; lia)).
Qed.

Lemma getHoursUntilShortZone_total (date : Date) (config : Config) :
  exists h : Qc, getHoursUntilShortZone date config = Ok h.
Proof.
  unfold getHoursUntilShortZone.
  destruct (_ && _); [eexists; reflexivity|].
  destruct (skipWeekend_next (getUTCDay date) (getUTCDay_range date))
    as (d & E & _).
  rewrite E. simpl. eexists; reflexivity.
Qed.

(** C6.  On a weekday before [shortZoneStart] (local time = UTC - 5 h) the
    result is the gap to [shortZoneStart] in hours; otherwise it is the hours
    to midnight, plus 24 hours for each full day skipped on the way to the
    next weekday (Saturday and Sunday are passed over), plus the hours from
    midnight to [shortZoneStart]. *)
Theorem getHoursUntilShortZone_spec (date : Date) (config : Config) :
  let dow := getUTCDay date in
  let current := num ((getUTCHours date - 5) * 60 + getUTCMinutes date) in
  let target :=
    hour (shortZoneStart config) * num 60 + minute (shortZoneStart config) in
  exists d : Z,
    nextWeekdayIn dow d
    /\ getHoursUntilShortZone date config =
       Ok (if ((1 <=? dow) && (dow <=? 5))%Z && (current <? target)
           then (target - current) / num 60
           else (num (24 * 60) - current) / num 60
                + num (d - 1) * num 24
                + target / num 60).
Proof.
  intros dow current target.
  destruct (skipWeekend_next dow (getUTCDay_range date)) as (d & E & N).
  exists d. split; [exact N|].
  unfold getHoursUntilShortZone. fold dow current target.
  destruct (((1 <=? dow) && (dow <=? 5))%Z && (current <? target));
    [reflexivity|].
  rewrite E. reflexivity.
Qed.

(** ** Stats aggregator: every ratio is guarded *)

Lemma gt_0_neq (x : Qc) : (x >? num 0) = true -> x <> 0.
Proof.
  intros H E. apply Qc_ltb_lt in H. rewrite num_0 in H.
  apply Qclt_not_eq in H. congruence.
Qed.

Lemma gt_1_pred_neq (x : Qc) : (x >? num 1) = true -> x - num 1 <> 0.
Proof.
  intros H E. apply Qc_ltb_lt in H.
  assert (X : x = num 1) by (replace x with (x - num 1 + num 1) by ring;
                             rewrite E; ring).
  rewrite X in H. exact (Qclt_not_eq _ _ H eq_refl).
Qed.

Lemma guardedDiv_gt_0 (x y : Qc) :
  exists q, guardedDiv (y >? num 0) x y = Ok q.
Proof.
  unfold guardedDiv. destruct (y >? num 0) eqn:G.
  - rewrite (div_Ok _ _ (gt_0_neq _ G)). eexists; reflexivity.
  - eexists; reflexivity.
Qed.

Lemma len_length (A : Type) (l : list A) (n : Z) :
  (len l >? num n) = (n <? Z.of_nat (List.length l))%Z.
Proof.
  unfold len. destruct (n <? Z.of_nat (List.length l))%Z eqn:E.
  - apply Qc_ltb_lt, num_lt. lia.
  - apply Qc_ltb_ge, num_le. lia.
Qed.

Section StatsProperties.

Variable sqrt : Qc -> Qc.

Lemma sideStats_total (l : list Trade) :
  exists s, sideStats l = Ok s.
Proof.
  unfold sideStats. destruct (len l >? num 0) eqn:G.
  - rewrite (div_Ok _ _ (gt_0_neq _ G)). simpl. eexists; reflexivity.
  - simpl. eexists; reflexivity.
Qed.

Lemma sharpeOf_total (returns : list Qc) :
  exists s, sharpeOf sqrt returns = Ok s.
Proof.
  unfold sharpeOf.
  destruct (guardedDiv_gt_0
              (fold_left (fun a b => a + b) returns (num 0)) (len returns))
    as (avg & ->). simpl.
  destruct (len returns >? num 1) eqn:G1.
  - rewrite (div_Ok _ _ (gt_1_pred_neq _ G1)). simpl.
    destruct (sqrt _ >? num 0) eqn:G2.
    + rewrite (div_Ok _ _ (gt_0_neq _ G2)). simpl. eexists; reflexivity.
    + eexists; reflexivity.
  - cbn [bind]. replace (num 0 >? num 0) with false by reflexivity.
    eexists; reflexivity.
Qed.

(** No trade log makes [calculateStats] divide by zero. *)
Lemma calculateStats_total (trades_ : list Trade) (finalEquity dd : Qc)
  (config : Config) (costs : Costs) (tc : TotalCosts) :
  exists r s,
    calculateStats sqrt trades_ finalEquity dd config costs tc = Ok r
    /\ sharpeOf sqrt (map t_netPnlPct trades_) = Ok s
    /\ r_trades r = trades_
    /\ netPnlPct r = finalEquity - num 100
    /\ grossPnlPct r = sumOf t_grossPnlPct trades_
    /\ maxDrawdownPct r = dd
    /\ sharpeRatio r = s.
Proof.
  unfold calculateStats.
  destruct (sharpeOf_total (map t_netPnlPct trades_)) as (s & ->).
  cbn [bind].
  destruct (len trades_ >? num 0) eqn:G.
  - rewrite (div_Ok _ _ (gt_0_neq _ G)). cbn [bind].
    destruct (guardedDiv_gt_0
                (sumOf t_netPnlPct
                   (filter (fun t => t_netPnlPct t >? num 0) trades_))
                (len (filter (fun t => t_netPnlPct t >? num 0) trades_)))
      as (w & ->).
    destruct (guardedDiv_gt_0
                (sumOf t_netPnlPct
                   (filter (fun t => t_netPnlPct t <=? num 0) trades_))
                (len (filter (fun t => t_netPnlPct t <=? num 0) trades_)))
      as (l & ->).
    cbn [bind]. unfold guardedDiv.
    rewrite (div_Ok _ _ (gt_0_neq _ G)). cbn [bind].
    destruct (sideStats_total
                (filter (fun t => Side_eqb (t_side t) long) trades_))
      as (ls & ->).
    destruct (sideStats_total
                (filter (fun t => Side_eqb (t_side t) short) trades_))
      as (ss & ->).
    cbn [bind]. do 2 eexists. repeat split; reflexivity.
  - cbn [bind].
    destruct (guardedDiv_gt_0
                (sumOf t_netPnlPct
                   (filter (fun t => t_netPnlPct t >? num 0) trades_))
                (len (filter (fun t => t_netPnlPct t >? num 0) trades_)))
      as (w & ->).
    destruct (guardedDiv_gt_0
                (sumOf t_netPnlPct
                   (filter (fun t => t_netPnlPct t <=? num 0) trades_))
                (len (filter (fun t => t_netPnlPct t <=? num 0) trades_)))
      as (l & ->).
    cbn [bind]. unfold guardedDiv. cbn [bind].
    destruct (sideStats_total
                (filter (fun t => Side_eqb (t_side t) long) trades_))
      as (ls & ->).
    destruct (sideStats_total
                (filter (fun t => Side_eqb (t_side t) short) trades_))
      as (ss & ->).
    cbn [bind]. do 2 eexists. repeat split; reflexivity.
Qed.

End StatsProperties.

(** ** Sharpe ratio *)



Section SharpeProperties.

Variable sqrt : Qc -> Qc.
Hypothesis sqrt_nonneg : forall x : Qc, 0 <= sqrt x.


End SharpeProperties.

(** ** The empty candle sequence *)

(** C8.  On the empty candle sequence [runBacktest] evaluates no division by
    zero and returns an empty trade log with zero aggregates: net and gross
    PnL, win rate, maximum drawdown, average win, average loss, average
    duration, per-side win rates and Sharpe ratio are all 0. *)
Theorem runBacktest_empty (sqrt : Qc -> Qc) (config : Config)
  (costs : Costs) :
  exists r : BacktestResult,
    runBacktest sqrt [] config costs = Ok r
    /\ r_trades r = []
    /\ netPnlPct r = 0
    /\ grossPnlPct r = 0
    /\ winRate r = 0
    /\ maxDrawdownPct r = 0
    /\ avgWin (stats r) = 0
    /\ avgLoss (stats r) = 0
    /\ avgTradeDuration (stats r) = 0
    /\ ss_winRate (longStats (stats r)) = 0
    /\ ss_winRate (shortStats (stats r)) = 0
    /\ totalTrades (stats r) = 0%nat
    /\ sharpeRatio r = 0.
Proof.
  eexists. split; [reflexivity|].
  repeat split; reflexivity.
Qed.

(** ** Closing a trade *)

Lemma num_2_mul (x : Qc) : num 2 * x = x + x.
Proof.
  replace (num 2) with (1 + 1) by (apply Qc_is_canon; reflexivity). ring.
Qed.

Lemma double_div (x y : Qc) : num 2 * x / y = x / y + x / y.
Proof. unfold Qcdiv. rewrite <- Qcmult_assoc, num_2_mul. reflexivity. Qed.

Lemma calcProfitPct_inv (entry current : Qc) (s : Side) (q : Qc) :
  calcProfitPct entry current s = Ok q ->
  entry <> 0
  /\ q = match s with
         | long => (current - entry) / entry * num 100
         | short => (entry - current) / entry * num 100
         end.
Proof.
  unfold calcProfitPct. intros H.
  apply bind_Ok in H. destruct H as (d & D & H).
  apply div_inv in D. destruct D as (N & ->).
  injection H as <-. split; [exact N|]. destruct s; reflexivity.
Qed.

Lemma calcTradingCosts_inv (n duration : Qc) (s : Side) (costs : Costs)
  (tc : TradingCosts) :
  calcTradingCosts n duration s costs = Ok tc ->
  fundingIntervalHours costs <> 0
  /\ tc_totalCostPct tc
     = num 2 * takerFeeBps costs / num 100
       + num 2 * slippageBps costs / num 100
       + num (floor (duration / fundingIntervalHours costs))
         * (avgFundingRateBps costs / num 100)
         * match s with long => num 1 | short => num (-1) end.
Proof.
  unfold calcTradingCosts. intros H.
  apply bind_Ok in H. destruct H as (d & D & H).
  apply div_inv in D. destruct D as (N & ->).
  injection H as <-. split; [exact N|].
  cbn [tc_totalCostPct]. rewrite !double_div. reflexivity.
Qed.

Lemma calcNetPnl_inv (entry exit_ : Qc) (s : Side) (lev duration : Qc)
  (costs : Costs) (np : NetPnl) :
  calcNetPnl entry exit_ s lev duration costs = Ok np ->
  entry <> 0
  /\ fundingIntervalHours costs <> 0
  /\ np_grossPnlPct np
     = match s with
       | long => (exit_ - entry) / entry * num 100
       | short => (entry - exit_) / entry * num 100
       end * lev
  /\ np_netPnlPct np
     = np_grossPnlPct np - lev * totalCostPct (np_costs np)
  /\ totalCostPct (np_costs np)
     = num 2 * takerFeeBps costs / num 100
       + num 2 * slippageBps costs / num 100
       + num (floor (duration / fundingIntervalHours costs))
         * (avgFundingRateBps costs / num 100)
         * match s with long => num 1 | short => num (-1) end.
Proof.
  unfold calcNetPnl, calcTradePnl. intros H.
  apply bind_Ok in H. destruct H as (g & G & H).
  apply bind_Ok in G. destruct G as (pp & P & G).
  apply calcProfitPct_inv in P. destruct P as (N1 & ->).
  injection G as <-.
  apply bind_Ok in H. destruct H as (tc & T & H).
  apply calcTradingCosts_inv in T. destruct T as (N2 & T).
  injection H as <-.
  cbn [np_grossPnlPct np_netPnlPct np_costs totalCostPct].
  repeat (split; [assumption || reflexivity|]).
  split; [ring | exact T].
Qed.

Lemma closeTrade_inv (p : Position) (exitPrice : Qc) (exitTime : Date)
  (reason_ : string) (config : Config) (costs : Costs) (t : Trade) :
  closeTrade p exitPrice exitTime reason_ config costs = Ok t ->
  entryPrice p <> 0
  /\ fundingIntervalHours costs <> 0
  /\ t_entryTime t = entryTime p
  /\ t_exitTime t = exitTime
  /\ t_entryPrice t = entryPrice p
  /\ t_exitPrice t = exitPrice
  /\ t_side t = side p
  /\ t_exitReason t = reason_
  /\ t_durationHours t
     = num (exitTime - entryTime p) / num (1000 * 60 * 60)
  /\ costIdentity config costs t.
Proof.
  unfold closeTrade. intros H.
  apply bind_Ok in H. destruct H as (np & NP & H).
  apply calcNetPnl_inv in NP. destruct NP as (N1 & N2 & G & N & T).
  rewrite T in N. injection H as <-.
  cbn [t_entryTime t_exitTime t_entryPrice t_exitPrice t_side t_exitReason
       t_durationHours].
  repeat (split; [assumption || reflexivity|]).
  unfold costIdentity, pricePctOf, totalCostPctOf.
  cbn [t_netPnlPct t_grossPnlPct t_costs t_side t_entryPrice t_exitPrice
       t_durationHours].
  repeat split; assumption.
Qed.

Lemma closeTrade_Ok (p : Position) (exitPrice : Qc) (exitTime : Date)
  (reason_ : string) (config : Config) (costs : Costs) :
  entryPrice p <> 0 ->
  fundingIntervalHours costs <> 0 ->
  exists t, closeTrade p exitPrice exitTime reason_ config costs = Ok t.
Proof.
  intros N1 N2.
  unfold closeTrade, calcNetPnl, calcTradePnl, calcProfitPct,
    calcTradingCosts.
  rewrite (div_Ok _ _ N1). cbn [bind].
  rewrite (div_Ok _ _ N2). cbn [bind].
  eexists; reflexivity.
Qed.

Lemma closePosition_Ok (config : Config) (costs : Costs) (st : LoopState)
  (p : Position) (exitPrice : Qc) (exitTime : Date) (reason_ : string) :
  entryPrice p <> 0 ->
  fundingIntervalHours costs <> 0 ->
  exists t,
    closeTrade p exitPrice exitTime reason_ config costs = Ok t
    /\ closePosition config costs st p exitPrice exitTime reason_
       = Ok (setPosition (recordTrade config st t) None).
Proof.
  intros N1 N2.
  destruct (closeTrade_Ok p exitPrice exitTime reason_ config costs N1 N2)
    as (t & E).
  exists t. split; [exact E|].
  unfold closePosition. rewrite E. reflexivity.
Qed.

Lemma closePosition_inv (config : Config) (costs : Costs) (st st' : LoopState)
  (p : Position) (exitPrice : Qc) (exitTime : Date) (reason_ : string) :
  closePosition config costs st p exitPrice exitTime reason_ = Ok st' ->
  exists t,
    closeTrade p exitPrice exitTime reason_ config costs = Ok t
    /\ st' = setPosition (recordTrade config st t) None.
Proof.
  unfold closePosition. intros H.
  apply bind_Ok in H. destruct H as (t & C & H).
  exists t. split; [assumption | congruence].
Qed.

Lemma calcProfitPct_Ok (entry current : Qc) (s : Side) :
  entry <> 0 ->
  calcProfitPct entry current s
  = Ok (match s with
        | long => (current - entry) / entry * num 100
        | short => (entry - current) / entry * num 100
        end).
Proof.
  intros N. unfold calcProfitPct. rewrite (div_Ok _ _ N).
  destruct s; reflexivity.
Qed.

(** ** Position state machine: one candle *)





(** ** The shape of one loop iteration *)

Lemma setPosition_same (st : LoopState) :
  setPosition st (position st) = st.
Proof. destruct st; reflexivity. Qed.

(** What the zone-flip block can do. *)
Lemma zoneFlip_shape (config : Config) (costs : Costs) (candle : Candle)
  (zone : Side) (st st1 : LoopState) :
  zoneFlip config costs candle zone st = Ok st1 ->
  (st1 = st /\ (previousZone st = None \/ previousZone st = Some zone))
  \/ (exists pz, previousZone st = Some pz /\ pz <> zone
        /\ position st = None
        /\ st1 = setPosition st (Some (newPosition zone candle)))
  \/ (exists pz p t, previousZone st = Some pz /\ pz <> zone
        /\ position st = Some p
        /\ closeTrade p (price candle) (timestamp candle) "zone-flip"
             config costs = Ok t
        /\ st1 = setPosition (recordTrade config st t)
                   (Some (newPosition zone candle))).
Proof.
  unfold zoneFlip. intros H.
  destruct (previousZone st) as [pz|] eqn:PZ.
  2:{ injection H as <-. left. auto. }
  destruct (Side_eqb zone pz) eqn:E; cbn [negb] in H.
  { injection H as <-. left. split; [reflexivity|]. right.
    destruct zone, pz; try discriminate; reflexivity. }
  assert (NE : pz <> zone) by (intros ->; destruct zone; discriminate).
  right. destruct (position st) as [p|] eqn:P.
  - right. apply bind_Ok in H. destruct H as (s & C & H).
    apply closePosition_inv in C. destruct C as (t & C & ->).
    injection H as <-. exists pz, p, t. repeat split; assumption.
  - left. cbn [bind] in H. injection H as <-.
    exists pz. repeat split; assumption.
Qed.

(** What the position block can do: leave the position as it is, move it
    into the take-profit zone, raise its peak, or close it. *)
Lemma checkPosition_shape (config : Config) (costs : Costs)
  (candle : Candle) (st1 st2 : LoopState) :
  checkPosition config costs candle st1 = Ok st2 ->
  st2 = st1
  \/ (exists p p', position st1 = Some p
        /\ entryPrice p <> 0
        /\ st2 = setPosition st1 (Some p')
        /\ ((side p = long /\ inTpZone p = false
             /\ p' = enterTpZone p (high candle))
            \/ (side p = long /\ inTpZone p = true
                /\ p' = raisePeak p candle)))
  \/ (exists p t reason_ exitPrice, position st1 = Some p
        /\ closeTrade p exitPrice (timestamp candle) reason_ config costs
           = Ok t
        /\ st2 = setPosition (recordTrade config st1 t) None).
Proof.
  unfold checkPosition. intros H.
  destruct (position st1) as [p|] eqn:P.
  2:{ injection H as <-. left. reflexivity. }
  apply bind_Ok in H. destruct H as (q1 & Q1 & H).
  apply bind_Ok in H. destruct H as (q2 & Q2 & H).
  apply bind_Ok in H. destruct H as (q3 & Q3 & H).
  apply calcProfitPct_inv in Q1. destruct Q1 as (N & _).
  destruct (Side_eqb (side p) long && inTpZone p) eqn:TP.
  - apply andb_prop in TP. destruct TP as (S & T).
    assert (S' : side p = long)
      by (destruct (side p); [reflexivity|discriminate]).
    unfold tpZoneStep in H. fold (raisePeak p candle) in H.
    apply bind_Ok in H. destruct H as (h & Hh & H).
    apply bind_Ok in H. destruct H as (ec & EC & H).
    destruct (shouldExit ec).
    + right; right. apply closePosition_inv in H. destruct H as (t & C & ->).
      exists p, t. do 2 eexists. split; [reflexivity|].
      split; [exact C | reflexivity].
    + injection H as <-. right; left. exists p, (raisePeak p candle).
      repeat split; auto.
  - destruct (q3 >=? profitTargetPct config).
    2:{ injection H as <-. left. reflexivity. }
    unfold profitTargetStep in H.
    destruct (side p) eqn:S.
    + apply bind_Ok in H. destruct H as (h & Hh & H).
      destruct (shouldEnterTpZone long h (tpZoneHoursThreshold config)).
      * injection H as <-. right; left.
        cbn [Side_eqb andb] in TP.
        exists p, (enterTpZone p (high candle)).
        split; [reflexivity|]. split; [exact N|].
        split; [unfold enterTpZone; rewrite S; reflexivity|].
        left. auto.
      * right; right. apply closePosition_inv in H.
        destruct H as (t & C & ->).
        exists p, t. do 2 eexists. split; [reflexivity|].
        split; [exact C | reflexivity].
    + right; right. apply closePosition_inv in H.
      destruct H as (t & C & ->).
      exists p, t. do 2 eexists. split; [reflexivity|].
      split; [exact C | reflexivity].
Qed.

Lemma trackDrawdown_inv (st st' : LoopState) :
  trackDrawdown st = Ok st' ->
  let peak := Qcmax (peakEquity st) (equity st) in
  peak <> 0
  /\ trades st' = trades st
  /\ position st' = position st
  /\ previousZone st' = previousZone st
  /\ equity st' = equity st
  /\ totalCosts st' = totalCosts st
  /\ peakEquity st' = peak
  /\ maxDrawdown st'
     = Qcmax (maxDrawdown st) ((peak - equity st) / peak * num 100).
Proof.
  intros H peak. unfold trackDrawdown in H.
  fold (Qcmax (peakEquity st) (equity st)) in H. fold peak in H.
  apply bind_Ok in H. destruct H as (q & Q & H).
  apply div_inv in Q. destruct Q as (N & ->).
  injection H as <-. cbn. repeat split; auto.
Qed.

Lemma step_inv (config : Config) (costs : Costs) (st st' : LoopState)
  (candle : Candle) :
  step config costs st candle = Ok st' ->
  exists st1 st2 st3,
    zoneFlip config costs candle (getZone (timestamp candle) config) st
    = Ok st1
    /\ checkPosition config costs candle st1 = Ok st2
    /\ trackDrawdown st2 = Ok st3
    /\ st' = setPreviousZone st3 (getZone (timestamp candle) config).
Proof.
  unfold step. intros H.
  apply bind_Ok in H. destruct H as (st1 & H1 & H).
  apply bind_Ok in H. destruct H as (st2 & H2 & H).
  apply bind_Ok in H. destruct H as (st3 & H3 & H).
  injection H as <-. exists st1, st2, st3. auto.
Qed.

(** ** Trades closed by the loop *)

Lemma total_app (xs ys : list Qc) : total (xs ++ ys) = total xs + total ys.
Proof.
  induction xs as [|x xs IH]; simpl.
  - ring.
  - rewrite IH. ring.
Qed.

Lemma sumOf_total {A : Type} (f : A -> Qc) (l : list A) :
  sumOf f l = total (map f l).
Proof.
  unfold sumOf.
  assert (G : forall a, fold_left (fun a t => a + f t) l a
                        = a + total (map f l)).
  { induction l as [|x l IH]; intros a; simpl.
    - ring.
    - rewrite IH. ring. }
  rewrite G, num_0. ring.
Qed.

Section Extends.

Variable config : Config.
Variable costs : Costs.

Lemma extends_refl (st : LoopState) : extends config costs st st [].
Proof.
  unfold extends. rewrite app_nil_r. simpl.
  repeat split; [ring | constructor].
Qed.

Lemma extends_trans (st st1 st2 : LoopState) (c1 c2 : list Trade) :
  extends config costs st st1 c1 ->
  extends config costs st1 st2 c2 ->
  extends config costs st st2 (c1 ++ c2).
Proof.
  intros (T1 & E1 & F1) (T2 & E2 & F2). unfold extends.
  rewrite T2, T1, E2, E1, app_assoc, map_app, total_app.
  repeat split; [ring | apply Forall_app; auto].
Qed.

Lemma extends_close (st : LoopState) (p : Position) (exitPrice : Qc)
  (exitTime : Date) (reason_ : string) (t : Trade)
  (pos : option Position) :
  closeTrade p exitPrice exitTime reason_ config costs = Ok t ->
  extends config costs st (setPosition (recordTrade config st t) pos) [t].
Proof.
  intros C. apply closeTrade_inv in C.
  destruct C as (_ & _ & _ & _ & _ & _ & _ & _ & _ & CI).
  unfold extends. cbn. repeat split; [ring | auto].
Qed.

Lemma extends_same (st st' : LoopState) :
  trades st' = trades st -> equity st' = equity st ->
  extends config costs st st' [].
Proof.
  intros T E. unfold extends. rewrite T, E, app_nil_r. simpl.
  repeat split; [ring | constructor].
Qed.

Lemma zoneFlip_extends (candle : Candle) (zone : Side)
  (st st1 : LoopState) :
  zoneFlip config costs candle zone st = Ok st1 ->
  exists closed, extends config costs st st1 closed.
Proof.
  intros H. apply zoneFlip_shape in H.
  destruct H as [(-> & _) | [(pz & _ & _ & _ & ->)
                            | (pz & p & t & _ & _ & _ & C & ->)]].
  - exists []. apply extends_refl.
  - exists []. now apply extends_same.
  - exists [t]. eapply extends_close; eassumption.
Qed.

Lemma checkPosition_extends (candle : Candle) (st1 st2 : LoopState) :
  checkPosition config costs candle st1 = Ok st2 ->
  exists closed, extends config costs st1 st2 closed.
Proof.
  intros H. apply checkPosition_shape in H.
  destruct H as [-> | [(p & p' & _ & _ & -> & _)
                      | (p & t & r & x & _ & C & ->)]].
  - exists []. apply extends_refl.
  - exists []. now apply extends_same.
  - exists [t]. eapply extends_close; eassumption.
Qed.

Lemma step_extends (st st' : LoopState) (candle : Candle) :
  step config costs st candle = Ok st' ->
  exists closed, extends config costs st st' closed.
Proof.
  intros H. apply step_inv in H.
  destruct H as (st1 & st2 & st3 & H1 & H2 & H3 & ->).
  apply zoneFlip_extends in H1. destruct H1 as (c1 & X1).
  apply checkPosition_extends in H2. destruct H2 as (c2 & X2).
  apply trackDrawdown_inv in H3.
  destruct H3 as (_ & T & _ & _ & E & _).
  exists (c1 ++ c2).
  replace (c1 ++ c2) with ((c1 ++ c2) ++ []) by apply app_nil_r.
  eapply extends_trans; [eapply extends_trans; eassumption|].
  apply extends_same; cbn; assumption.
Qed.

Lemma runLoop_extends (priceData : list Candle) (st st' : LoopState) :
  runLoop config costs priceData st = Ok st' ->
  exists closed, extends config costs st st' closed.
Proof.
  revert st. induction priceData as [|candle rest IH]; intros st H.
  - injection H as <-. exists []. apply extends_refl.
  - cbn [runLoop] in H. apply bind_Ok in H. destruct H as (s & S & H).
    apply step_extends in S. destruct S as (c1 & X1).
    apply IH in H. destruct H as (c2 & X2).
    exists (c1 ++ c2). eapply extends_trans; eassumption.
Qed.

Lemma closeRemaining_extends (priceData : list Candle)
  (st st' : LoopState) :
  closeRemaining config costs priceData st = Ok st' ->
  exists closed, extends config costs st st' closed.
Proof.
  unfold closeRemaining. intros H.
  destruct (position st) as [p|] eqn:P.
  2:{ injection H as <-. exists []. apply extends_refl. }
  destruct (rev priceData) as [|lastCandle l].
  { injection H as <-. exists []. apply extends_refl. }
  apply bind_Ok in H. destruct H as (t & C & H). injection H as <-.
  exists [t].
  rewrite <- (setPosition_same (recordTrade config st t)).
  eapply extends_close; eassumption.
Qed.

Variable sqrt : Qc -> Qc.

Lemma runBacktest_inv (priceData : list Candle) (r : BacktestResult) :
  runBacktest sqrt priceData config costs = Ok r ->
  exists st st',
    runLoop config costs priceData initialState = Ok st
    /\ closeRemaining config costs priceData st = Ok st'
    /\ r_trades r = trades st'
    /\ netPnlPct r = equity st' - num 100
    /\ maxDrawdownPct r = maxDrawdown st'
    /\ sharpeOf sqrt (map t_netPnlPct (r_trades r)) = Ok (sharpeRatio r).
Proof.
  unfold runBacktest. intros H.
  apply bind_Ok in H. destruct H as (st & L & H).
  apply bind_Ok in H. destruct H as (st' & C & H).
  destruct (calculateStats_total sqrt (trades st') (equity st')
              (maxDrawdown st') config costs (totalCosts st'))
    as (r' & s & E & S & R1 & R2 & _ & R3 & R4).
  rewrite E in H. injection H as <-.
  exists st, st'. rewrite R1, R4. auto 10.
Qed.

Lemma runBacktest_extends (priceData : list Candle) (r : BacktestResult) :
  runBacktest sqrt priceData config costs = Ok r ->
  netPnlPct r = total (map t_netPnlPct (r_trades r))
  /\ Forall (costIdentity config costs) (r_trades r).
Proof.
  intros H. apply runBacktest_inv in H.
  destruct H as (st & st' & L & C & R1 & R2 & _ & _).
  apply runLoop_extends in L. destruct L as (c1 & X1).
  apply closeRemaining_extends in C. destruct C as (c2 & X2).
  destruct (extends_trans _ _ _ _ _ X1 X2) as (T & E & F).
  cbn in T, E. rewrite R1, R2, T, E. split; [ring | exact F].
Qed.

End Extends.

(** C10.  The reported net PnL, [finalEquity - 100], is the sum of the net
    PnL of the trades in the returned log. *)
Theorem netPnl_is_sum_of_trades (sqrt : Qc -> Qc)
  (priceData : list Candle) (config : Config) (costs : Costs)
  (r : BacktestResult) :
  runBacktest sqrt priceData config costs = Ok r ->
  netPnlPct r = sumOf t_netPnlPct (r_trades r).
Proof.
  intros H. rewrite sumOf_total.
  exact (proj1 (runBacktest_extends config costs sqrt priceData r H)).
Qed.

(** C3.  Every trade of the returned log satisfies the cost identity:
    [netPnlPct = grossPnlPct - leverage * totalCostPct], with
    [grossPnlPct = pricePct * leverage] for the signed price move in the
    trade's favour, and [totalCostPct] = 2 * takerFeeBps / 100
    + 2 * slippageBps / 100
    + floor (durationHours / fundingIntervalHours) * (avgFundingRateBps / 100)
      * (+1 for a long, -1 for a short). *)
Theorem trades_cost_identity (sqrt : Qc -> Qc)
  (priceData : list Candle) (config : Config) (costs : Costs)
  (r : BacktestResult) :
  runBacktest sqrt priceData config costs = Ok r ->
  Forall (costIdentity config costs) (r_trades r).
Proof.
  intros H.
  exact (proj2 (runBacktest_extends config costs sqrt priceData r H)).
Qed.


(** ** No position before the first zone change *)

Section FirstZoneChange.

Variable config : Config.
Variable costs : Costs.

Lemma step_flat (zone : Side) (st : LoopState) (candle : Candle) :
  flat zone st ->
  getZone (timestamp candle) config = zone ->
  exists st', step config costs st candle = Ok st' /\ flat zone st'.
Proof.
  intros (P & T & E & K & Z) G.
  unfold step. rewrite G.
  assert (F : zoneFlip config costs candle zone st = Ok st).
  { unfold zoneFlip. destruct Z as [-> | ->]; [reflexivity|].
    now destruct zone. }
  rewrite F. cbn [bind].
  unfold checkPosition. rewrite P. cbn [bind].
  unfold trackDrawdown. rewrite E, K.
  replace (num 100 >? num 100) with false by reflexivity.
  rewrite div_Ok by (apply gt_0_neq; reflexivity). cbn [bind].
  eexists. split; [reflexivity|].
  unfold flat. cbn. repeat split; auto.
Qed.

Lemma runLoop_flat (zone : Side) (priceData : list Candle)
  (st : LoopState) :
  flat zone st ->
  Forall (fun c => getZone (timestamp c) config = zone) priceData ->
  exists st', runLoop config costs priceData st = Ok st' /\ flat zone st'.
Proof.
  revert st. induction priceData as [|c rest IH]; intros st F A.
  - exists st. split; [reflexivity | exact F].
  - apply Forall_cons_iff in A. destruct A as (Hc & Hrest).
    destruct (step_flat zone st c F Hc) as (s & S & Fs).
    destruct (IH s Fs Hrest) as (st' & L & F').
    exists st'. split; [|exact F']. cbn [runLoop]. now rewrite S.
Qed.

Lemma entriesSatisfy_close (P : Date -> Prop) (st : LoopState)
  (p : Position) (exitPrice : Qc) (exitTime : Date) (reason_ : string)
  (t : Trade) (pos : option Position) :
  entriesSatisfy P st ->
  position st = Some p ->
  closeTrade p exitPrice exitTime reason_ config costs = Ok t ->
  (forall p', pos = Some p' -> P (entryTime p')) ->
  entriesSatisfy P (setPosition (recordTrade config st t) pos).
Proof.
  intros (A1 & A2) Pp C N. apply closeTrade_inv in C.
  destruct C as (_ & _ & ET & _).
  split; cbn.
  - exact N.
  - apply Forall_app. split; [exact A2|].
    constructor; [|constructor]. rewrite ET. now apply A1.
Qed.

(** An iteration keeps [P] on the entry times if [P] holds of the candle's
    timestamp whenever the zone differs from the previous candle's. *)
Lemma step_entriesSatisfy (P : Date -> Prop) (st st' : LoopState)
  (candle : Candle) :
  entriesSatisfy P st ->
  (forall pz, previousZone st = Some pz ->
              pz <> getZone (timestamp candle) config ->
              P (timestamp candle)) ->
  step config costs st candle = Ok st' ->
  entriesSatisfy P st'.
Proof.
  intros A N H. apply step_inv in H.
  destruct H as (st1 & st2 & st3 & H1 & H2 & H3 & ->).
  assert (A1 : entriesSatisfy P st1).
  { apply zoneFlip_shape in H1.
    destruct H1 as [(-> & _) | [(pz & PZ & NE & Pn & ->)
                               | (pz & p & t & PZ & NE & Pp & C & ->)]].
    - exact A.
    - destruct A as (_ & A2). split; cbn; [|exact A2].
      intros p' E. injection E as <-. cbn. now apply (N pz).
    - eapply entriesSatisfy_close; try eassumption.
      intros p' E. injection E as <-. cbn. now apply (N pz). }
  assert (A2 : entriesSatisfy P st2).
  { apply checkPosition_shape in H2.
    destruct H2 as [-> | [(p & p' & Pp & _ & -> & U)
                         | (p & t & r & x & Pp & C & ->)]].
    - exact A1.
    - destruct A1 as (B1 & B2). split; cbn; [|exact B2].
      intros q E. injection E as <-.
      destruct U as [(_ & _ & ->) | (_ & _ & ->)]; cbn; now apply B1.
    - eapply entriesSatisfy_close; try eassumption. discriminate. }
  apply trackDrawdown_inv in H3.
  destruct H3 as (_ & T & Pp & _).
  destruct A2 as (B1 & B2). split; cbn.
  + rewrite Pp. exact B1.
  + rewrite T. exact B2.
Qed.

Lemma closeRemaining_entriesSatisfy (P : Date -> Prop)
  (priceData : list Candle) (st st' : LoopState) :
  entriesSatisfy P st ->
  closeRemaining config costs priceData st = Ok st' ->
  Forall (fun t => P (t_entryTime t)) (trades st').
Proof.
  intros A C. unfold closeRemaining in C.
  destruct (position st) as [p|] eqn:Pp.
  2:{ injection C as <-. apply A. }
  destruct (rev priceData) as [|lastCandle l].
  { injection C as <-. apply A. }
  apply bind_Ok in C. destruct C as (t & CT & C). injection C as <-.
  rewrite <- (setPosition_same (recordTrade config st t)).
  eapply entriesSatisfy_close; try eassumption.
  cbn. intros p' E. rewrite Pp in E. injection E as <-. now apply A.
Qed.

Lemma step_previousZone (st st' : LoopState) (candle : Candle) :
  step config costs st candle = Ok st' ->
  previousZone st' = Some (getZone (timestamp candle) config).
Proof.
  intros H. apply step_inv in H.
  destruct H as (st1 & st2 & st3 & _ & _ & _ & ->). reflexivity.
Qed.

(** Sorted input: no entry at the first timestamp [t0]. *)
Lemma runLoop_entries_sorted (t0 tprev : Date) (priceData : list Candle)
  (st st' : LoopState) :
  entriesSatisfy (fun t => t <> t0) st ->
  previousZone st = Some (getZone tprev config) ->
  (t0 <= tprev)%Z ->
  Sorted Z.le (tprev :: map timestamp priceData) ->
  runLoop config costs priceData st = Ok st' ->
  entriesSatisfy (fun t => t <> t0) st'.
Proof.
  revert tprev st.
  induction priceData as [|c rest IH]; intros tprev st A PZ L S H.
  - injection H as <-. exact A.
  - cbn [runLoop] in H. apply bind_Ok in H. destruct H as (s & St & H).
    cbn [map] in S. apply Sorted_inv in S. destruct S as (S & HR).
    apply HdRel_inv in HR.
    apply (IH (timestamp c) s); try assumption.
    + eapply step_entriesSatisfy; [exact A | | exact St].
      intros pz E NE T0. rewrite PZ in E. injection E as <-.
      apply NE. f_equal. lia.
    + eapply step_previousZone; eassumption.
    + lia.
Qed.

(** Any input: every entry is at a candle whose predecessor is in the other
    zone.  [seen] are the candles already processed, [prev] the last of
    them. *)
Lemma runLoop_entries_atZoneChange (seen : list Candle) (prev : Candle)
  (rest : list Candle) (st st' : LoopState) :
  entriesSatisfy (atZoneChange config (seen ++ prev :: rest)) st ->
  previousZone st = Some (getZone (timestamp prev) config) ->
  runLoop config costs rest st = Ok st' ->
  entriesSatisfy (atZoneChange config (seen ++ prev :: rest)) st'.
Proof.
  revert seen prev st.
  induction rest as [|c rest IH]; intros seen prev st A PZ H.
  - injection H as <-. exact A.
  - cbn [runLoop] in H. apply bind_Ok in H. destruct H as (s & St & H).
    assert (E : seen ++ prev :: c :: rest = (seen ++ [prev]) ++ c :: rest)
      by (rewrite <- app_assoc; reflexivity).
    rewrite E. apply (IH (seen ++ [prev]) c s).
    + rewrite <- E.
      eapply step_entriesSatisfy; [exact A | | exact St].
      intros pz Ez NE. rewrite PZ in Ez. injection Ez as <-.
      exists seen, prev, c, rest. auto.
    + eapply step_previousZone; eassumption.
    + exact H.
Qed.

End FirstZoneChange.

(** C9.  No position is opened before the first zone change.  While all
    candles seen so far classify to one zone the loop holds no position and
    has closed no trade; so a candle sequence that stays in one zone yields
    an empty trade log.  Every trade was entered at a candle that has a
    predecessor, one classified to the other zone.  On candles in ascending
    timestamp order (the input contract) no trade's [entryTime] is the first
    candle's timestamp. *)
Theorem no_entry_before_first_zone_change (sqrt : Qc -> Qc)
  (config : Config) (costs : Costs) :
  (forall (priceData : list Candle) (zone : Side),
      Forall (fun c => getZone (timestamp c) config = zone) priceData ->
      exists st,
        runLoop config costs priceData initialState = Ok st
        /\ position st = None /\ trades st = [])
  /\ (forall (priceData : list Candle) (zone : Side),
         priceData <> [] ->
         Forall (fun c => getZone (timestamp c) config = zone) priceData ->
         exists r,
           runBacktest sqrt priceData config costs = Ok r
           /\ r_trades r = [])
  /\ (forall (priceData : list Candle) (r : BacktestResult),
         runBacktest sqrt priceData config costs = Ok r ->
         Forall (fun t => atZoneChange config priceData (t_entryTime t))
           (r_trades r))
  /\ (forall (first : Candle) (rest : list Candle) (r : BacktestResult),
         Sorted Z.le (map timestamp (first :: rest)) ->
         runBacktest sqrt (first :: rest) config costs = Ok r ->
         Forall (fun t => t_entryTime t <> timestamp first) (r_trades r)).
Proof.
  assert (F0 : forall zone, flat zone initialState)
    by (intros zone; unfold flat; cbn; repeat split; auto).
  assert (S1 : forall (P : Date -> Prop) first s1,
             step config costs initialState first = Ok s1 ->
             entriesSatisfy P s1).
  { intros P first s1 St.
    eapply step_entriesSatisfy; [ | | exact St].
    - split; cbn; [discriminate | constructor].
    - cbn. discriminate. }
  split; [|split; [|split]].
  - intros priceData zone A.
    destruct (runLoop_flat config costs zone priceData initialState
                (F0 zone) A) as (st & L & P & T & _).
    exists st. auto.
  - intros priceData zone _ A.
    destruct (runLoop_flat config costs zone priceData initialState
                (F0 zone) A) as (st & L & P & T & _).
    unfold runBacktest. rewrite L. cbn [bind].
    unfold closeRemaining. rewrite P. cbn [bind].
    destruct (calculateStats_total sqrt (trades st) (equity st)
                (maxDrawdown st) config costs (totalCosts st))
      as (r & s & E & _ & R & _).
    exists r. split; [exact E|]. now rewrite R.
  - intros priceData r H.
    apply runBacktest_inv in H.
    destruct H as (st & st' & L & C & R & _).
    rewrite R. clear R.
    destruct priceData as [|first rest].
    { injection L as <-. injection C as <-. constructor. }
    cbn [runLoop] in L. apply bind_Ok in L. destruct L as (s1 & St & L).
    eapply closeRemaining_entriesSatisfy; [|exact C].
    apply (runLoop_entries_atZoneChange config costs [] first rest s1 st).
    + apply (S1 _ first s1 St).
    + eapply step_previousZone; eassumption.
    + exact L.
  - intros first rest r S H.
    apply runBacktest_inv in H.
    destruct H as (st & st' & L & C & R & _).
    rewrite R. clear R.
    cbn [runLoop] in L. apply bind_Ok in L. destruct L as (s1 & St & L).
    apply (closeRemaining_entriesSatisfy config costs
             (fun t => t <> timestamp first) (first :: rest) st st');
      [|exact C].
    eapply (runLoop_entries_sorted config costs (timestamp first)
              (timestamp first)); try eassumption.
    + apply (S1 _ first s1 St).
    + eapply step_previousZone; eassumption.
    + lia.
Qed.

(** ** Drawdown *)

Lemma isMaxOf_cons (m a d : Qc) (l : list Qc) :
  isMaxOf m (Qcmax a d) l -> isMaxOf m a (d :: l).
Proof.
  intros (I & L & F). unfold isMaxOf.
  pose proof (Qcmax_l a d) as La. pose proof (Qcmax_r a d) as Ld.
  repeat split.
  - destruct I as [-> | I]; [|right; right; exact I].
    destruct (Qcmax_cases a d) as [-> | ->]; [left | right; left]; reflexivity.
  - eapply Qcle_trans; eassumption.
  - constructor; [eapply Qcle_trans; eassumption | exact F].
Qed.

Lemma last_default {A : Type} (x : A) (l : list A) (d d' : A) :
  last (x :: l) d = last (x :: l) d'.
Proof.
  revert x. induction l as [|y l IH]; intros x; [reflexivity|].
  change (last (y :: l) d = last (y :: l) d'). apply IH.
Qed.

Lemma last_cons {A : Type} (x : A) (l : list A) (d : A) :
  last (x :: l) d = last l x.
Proof.
  destruct l as [|y l]; [reflexivity|].
  change (last (y :: l) d = last (y :: l) x). apply last_default.
Qed.

Lemma isMaxOf_nil (a : Qc) : isMaxOf a a [].
Proof.
  unfold isMaxOf. repeat split; [now left | apply Qcle_refl | constructor].
Qed.

Section Drawdown.

Variable config : Config.
Variable costs : Costs.

Lemma zoneFlip_keeps (candle : Candle) (zone : Side)
  (st st1 : LoopState) :
  zoneFlip config costs candle zone st = Ok st1 ->
  peakEquity st1 = peakEquity st /\ maxDrawdown st1 = maxDrawdown st.
Proof.
  intros H. apply zoneFlip_shape in H.
  destruct H as [(-> & _) | [(pz & _ & _ & _ & ->)
                            | (pz & p & t & _ & _ & _ & _ & ->)]];
    split; reflexivity.
Qed.

Lemma checkPosition_keeps (candle : Candle) (st1 st2 : LoopState) :
  checkPosition config costs candle st1 = Ok st2 ->
  peakEquity st2 = peakEquity st1 /\ maxDrawdown st2 = maxDrawdown st1.
Proof.
  intros H. apply checkPosition_shape in H.
  destruct H as [-> | [(p & p' & _ & _ & -> & _)
                      | (p & t & r & x & _ & _ & ->)]];
    split; reflexivity.
Qed.

(** One iteration samples the drawdown once, on the equity it ends
    with. *)
Lemma step_drawdown (st st' : LoopState) (candle : Candle) :
  step config costs st candle = Ok st' ->
  peakEquity st' = Qcmax (peakEquity st) (equity st')
  /\ maxDrawdown st'
     = Qcmax (maxDrawdown st)
         ((peakEquity st' - equity st') / peakEquity st' * num 100).
Proof.
  intros H. apply step_inv in H.
  destruct H as (st1 & st2 & st3 & H1 & H2 & H3 & ->).
  apply zoneFlip_keeps in H1. destruct H1 as (P1 & M1).
  apply checkPosition_keeps in H2. destruct H2 as (P2 & M2).
  apply trackDrawdown_inv in H3.
  destruct H3 as (_ & _ & _ & _ & E & _ & P3 & M3).
  cbn. rewrite M3, P3, E, P2, P1, M2, M1. split; reflexivity.
Qed.

Lemma runTrace_runLoop (priceData : list Candle) (st st' : LoopState) :
  runLoop config costs priceData st = Ok st' ->
  exists tr,
    runTrace config costs priceData st = Ok tr
    /\ st' = last tr st
    /\ List.length tr = List.length priceData.
Proof.
  revert st. induction priceData as [|c rest IH]; intros st H.
  - injection H as <-. exists []. auto.
  - cbn [runLoop] in H. apply bind_Ok in H. destruct H as (s & S & H).
    destruct (IH s H) as (tr & T & L & N).
    exists (s :: tr). cbn [runTrace]. rewrite S. cbn [bind]. rewrite T.
    cbn [bind].
    repeat split.
    + rewrite L. symmetry. apply last_cons.
    + cbn. now rewrite N.
Qed.

Lemma runTrace_drawdown (priceData : list Candle) (st : LoopState)
  (tr : list LoopState) :
  runTrace config costs priceData st = Ok tr ->
  isMaxOf (maxDrawdown (last tr st)) (maxDrawdown st)
    (drawdowns (peakEquity st) (map equity tr)).
Proof.
  revert st tr. induction priceData as [|c rest IH]; intros st tr H.
  - injection H as <-. apply isMaxOf_nil.
  - cbn [runTrace] in H. apply bind_Ok in H. destruct H as (s & S & H).
    apply bind_Ok in H. destruct H as (tr' & T & H). injection H as <-.
    apply step_drawdown in S. destruct S as (P & M).
    specialize (IH s tr' T). rewrite M, P in IH.
    cbn [map drawdowns]. apply isMaxOf_cons.
    replace (last (s :: tr') st) with (last tr' s)
      by (symmetry; apply last_cons).
    rewrite <- P. rewrite <- P in IH. exact IH.
Qed.

Lemma runTrace_extends (priceData : list Candle) (st : LoopState)
  (tr : list LoopState) :
  runTrace config costs priceData st = Ok tr ->
  Forall (fun s =>
            (exists closed, extends config costs st s closed)
            /\ exists later, trades (last tr st) = trades s ++ later) tr.
Proof.
  revert st tr. induction priceData as [|c rest IH]; intros st tr H.
  - injection H as <-. constructor.
  - cbn [runTrace] in H. apply bind_Ok in H. destruct H as (s & S & H).
    apply bind_Ok in H. destruct H as (tr' & T & H). injection H as <-.
    replace (last (s :: tr') st) with (last tr' s)
      by (symmetry; apply last_cons).
    pose proof (step_extends config costs st s c S) as (c1 & X1).
    constructor.
    + split; [exists c1; exact X1|].
      assert (L : runLoop config costs rest s = Ok (last tr' s)).
      { clear - T. revert s tr' T.
        induction rest as [|c rest IH]; intros s tr' T.
        - injection T as <-. reflexivity.
        - cbn [runTrace] in T. apply bind_Ok in T.
          destruct T as (s' & S & T).
          apply bind_Ok in T. destruct T as (tr'' & T & E).
          injection E as <-. cbn [runLoop]. rewrite S. cbn [bind].
          replace (last (s' :: tr'') s) with (last tr'' s')
            by (symmetry; apply last_cons).
          now apply IH. }
      apply runLoop_extends in L. destruct L as (c2 & (T2 & _)).
      exists c2. exact T2.
    + specialize (IH s tr' T).
      eapply Forall_impl; [|exact IH].
      intros s' ((c2 & X2) & Lt). split; [|exact Lt].
      exists (c1 ++ c2). eapply extends_trans; eassumption.
Qed.

Lemma closeRemaining_shape (priceData : list Candle)
  (st st' : LoopState) :
  closeRemaining config costs priceData st = Ok st' ->
  st' = st
  \/ exists t, trades st' = trades st ++ [t]
               /\ t_exitReason t = "backtest-end"%string.
Proof.
  unfold closeRemaining. intros H.
  destruct (position st) as [p|]; [|injection H as <-; now left].
  destruct (rev priceData) as [|lastCandle l];
    [injection H as <-; now left|].
  apply bind_Ok in H. destruct H as (t & C & H). injection H as <-.
  right. exists t. split; [reflexivity|].
  apply closeTrade_inv in C. tauto.
Qed.

End Drawdown.

(** C4 (amended).  [maxDrawdownPct] is never negative.  The drawdown is
    sampled once per candle, at the end of the iteration and so after all of
    that candle's closures (a zone-flip close and a profit-target close can
    share a candle): each closure adds the trade's net PnL to equity, the
    peak is the running maximum, from 100, of the per-candle equity, and in a
    run that ends with no position open (no [backtest-end] closure) the
    samples cover the whole trade log and [maxDrawdownPct] is the maximum of
    (peak - equity) / peak * 100 over all candles. *)
Theorem maxDrawdown_per_candle (sqrt : Qc -> Qc)
  (priceData : list Candle) (config : Config) (costs : Costs)
  (r : BacktestResult) :
  runBacktest sqrt priceData config costs = Ok r ->
  0 <= maxDrawdownPct r
  /\ (Forall (fun t => t_exitReason t <> "backtest-end"%string) (r_trades r) ->
      exists states : list LoopState,
        runTrace config costs priceData initialState = Ok states
        /\ List.length states = List.length priceData
        /\ Forall (fun s =>
                     equity s = num 100 + total (map t_netPnlPct (trades s))
                     /\ exists later, r_trades r = trades s ++ later)
             states
        /\ trades (last states initialState) = r_trades r
        /\ isMaxOf (maxDrawdownPct r) 0
             (drawdowns (num 100) (map equity states))).
Proof.
  intros H. apply runBacktest_inv in H.
  destruct H as (st & st' & L & C & R1 & _ & R3 & _).
  destruct (runTrace_runLoop config costs priceData initialState st L)
    as (tr & T & E & N).
  pose proof (runTrace_drawdown config costs priceData initialState tr T)
    as D.
  cbn [maxDrawdown peakEquity initialState] in D. rewrite <- E in D.
  assert (M : maxDrawdown st' = maxDrawdown st).
  { unfold closeRemaining in C.
    destruct (position st) as [p|]; [|now injection C as <-].
    destruct (rev priceData) as [|lastCandle l]; [now injection C as <-|].
    apply bind_Ok in C. destruct C as (t & _ & C). now injection C as <-. }
  rewrite R3, M. split.
  - destruct D as (_ & D & _). exact D.
  - intros NB. exists tr.
    assert (S : st' = st).
    { apply closeRemaining_shape in C. destruct C as [C | (t & C & B)];
        [exact C|].
      exfalso. rewrite R1, C in NB. apply Forall_app in NB.
      destruct NB as (_ & NB). inversion NB as [|? ? NB' _]; subst.
      now apply NB'. }
    subst st'. rewrite R1.
    split; [exact T|]. split; [exact N|].
    split; [|split; [now rewrite <- E | exact D]].
    pose proof (runTrace_extends config costs priceData initialState tr T)
        as X.
    eapply Forall_impl; [|exact X].
    intros s ((c & (T1 & E1 & _)) & Lt). cbn in T1, E1.
    rewrite T1, E1. split; [reflexivity|]. rewrite <- E in Lt.
    rewrite <- T1. exact Lt.
Qed.

(** ** Totality on well-formed input *)

Lemma pos_neq_0 (x : Qc) : 0 < x -> x <> 0.
Proof. intros H E. rewrite E in H. exact (Qclt_not_eq _ _ H eq_refl). Qed.

Lemma Qcmax_pos_l (a b : Qc) : 0 < a -> 0 < Qcmax a b.
Proof. intros H. eapply Qclt_le_trans; [exact H | apply Qcmax_l]. Qed.

Section Totality.

Variable config : Config.
Variable costs : Costs.
Hypothesis interval_nonzero : fundingIntervalHours costs <> 0.

Lemma zoneFlip_total (candle : Candle) (zone : Side) (st : LoopState) :
  healthy st ->
  exists st1, zoneFlip config costs candle zone st = Ok st1.
Proof.
  intros (HP & _). unfold zoneFlip.
  destruct (previousZone st) as [pz|]; [|eexists; reflexivity].
  destruct (negb (Side_eqb zone pz)); [|eexists; reflexivity].
  destruct (position st) as [p|] eqn:P.
  - destruct (HP p eq_refl) as (N & _).
    destruct (closePosition_Ok config costs st p (price candle)
                (timestamp candle) "zone-flip" N interval_nonzero)
      as (t & _ & ->).
    cbn [bind]. eexists; reflexivity.
  - cbn [bind]. eexists; reflexivity.
Qed.

Lemma zoneFlip_healthy (candle : Candle) (zone : Side)
  (st st1 : LoopState) :
  healthy st ->
  wellFormedCandle candle ->
  zoneFlip config costs candle zone st = Ok st1 ->
  healthy st1.
Proof.
  intros (HP & HE) (WP & _) H. apply zoneFlip_shape in H.
  destruct H as [(-> & _) | [(pz & _ & _ & _ & ->)
                            | (pz & p & t & _ & _ & _ & _ & ->)]].
  - split; assumption.
  - split; cbn; [|exact HE].
    intros q E. injection E as <-. cbn. split; [exact WP | discriminate].
  - split; cbn; [|exact HE].
    intros q E. injection E as <-. cbn. split; [exact WP | discriminate].
Qed.

Lemma checkTpZoneExit_total (low_ entry peak trail h threshold : Qc) :
  peak <> 0 ->
  exists ec, checkTpZoneExit low_ entry peak trail h threshold = Ok ec.
Proof.
  intros N. unfold checkTpZoneExit.
  destruct (low_ <? entry); [eexists; reflexivity|].
  rewrite (div_Ok _ _ N). cbn [bind].
  destruct (_ >=? trail); [eexists; reflexivity|].
  destruct (h <=? threshold); eexists; reflexivity.
Qed.

Lemma checkPosition_total (candle : Candle) (st : LoopState) :
  healthy st ->
  exists st2, checkPosition config costs candle st = Ok st2.
Proof.
  intros (HP & _). unfold checkPosition.
  destruct (position st) as [p|] eqn:P; [|eexists; reflexivity].
  destruct (HP p eq_refl) as (N & TP).
  rewrite !(calcProfitPct_Ok _ _ _ N). cbn [bind].
  destruct (Side_eqb (side p) long && inTpZone p) eqn:Z.
  - apply andb_prop in Z. destruct Z as (_ & Z).
    destruct (TP Z) as (pk & K & PK).
    unfold tpZoneStep. rewrite K. cbn [toNumber].
    destruct (getHoursUntilShortZone_total (timestamp candle) config)
      as (h & ->).
    cbn [bind peakPrice entryPrice].
    replace (toNumber (if high candle >? pk then Some (high candle)
                       else Some pk))
      with (Qcmax pk (high candle))
      by (unfold Qcmax; now destruct (high candle >? pk)).
    destruct (checkTpZoneExit_total (low candle) (entryPrice p)
                (Qcmax pk (high candle)) (tpZoneTrailingStopPct config) h
                (tpZoneHoursThreshold config)
                (pos_neq_0 _ (Qcmax_pos_l _ _ PK))) as (ec & ->).
    cbn [bind].
    destruct (shouldExit ec); [|eexists; reflexivity].
    match goal with
    | |- exists _, closePosition _ _ ?s ?q ?x ?t ?r = _ =>
        destruct (closePosition_Ok config costs s q x t r N
                    interval_nonzero) as (t' & _ & ->)
    end.
    eexists; reflexivity.
  - destruct (_ >=? profitTargetPct config); [|eexists; reflexivity].
    unfold profitTargetStep.
    assert (CL : forall x,
               exists st2,
                 closePosition config costs st p x (timestamp candle)
                   "profit-target" = Ok st2).
    { intros x.
      destruct (closePosition_Ok config costs st p x (timestamp candle)
                  "profit-target" N interval_nonzero) as (t & _ & ->).
      eexists; reflexivity. }
    destruct (side p); [|apply CL].
    destruct (getHoursUntilShortZone_total (timestamp candle) config)
      as (h & ->).
    cbn [bind].
    destruct (shouldEnterTpZone long h (tpZoneHoursThreshold config));
      [eexists; reflexivity | apply CL].
Qed.

Lemma checkPosition_healthy (candle : Candle) (st1 st2 : LoopState) :
  healthy st1 ->
  wellFormedCandle candle ->
  checkPosition config costs candle st1 = Ok st2 ->
  healthy st2.
Proof.
  intros (HP & HE) (_ & WH) H. apply checkPosition_shape in H.
  destruct H as [-> | [(p & p' & P & N & -> & U)
                      | (p & t & r & x & _ & _ & ->)]].
  - split; assumption.
  - split; cbn; [|exact HE].
    intros q E. injection E as <-.
    destruct U as [(_ & _ & ->) | (_ & T & ->)]; cbn.
    + split; [exact N|]. intros _. exists (high candle). auto.
    + split; [exact N|]. intros _.
      destruct (HP p P) as (_ & TP). destruct (TP T) as (pk & -> & PK).
      cbn [toNumber]. destruct (high candle >? pk); eauto.
  - split; cbn; [discriminate | exact HE].
Qed.

Lemma trackDrawdown_total (st : LoopState) :
  0 < peakEquity st ->
  exists st', trackDrawdown st = Ok st' /\ 0 < peakEquity st'
              /\ position st' = position st.
Proof.
  intros HE. unfold trackDrawdown.
  fold (Qcmax (peakEquity st) (equity st)).
  rewrite (div_Ok _ _ (pos_neq_0 _ (Qcmax_pos_l _ (equity st) HE))).
  cbn [bind]. eexists. split; [reflexivity|]. cbn.
  split; [now apply Qcmax_pos_l | reflexivity].
Qed.

Lemma step_total (st : LoopState) (candle : Candle) :
  healthy st ->
  wellFormedCandle candle ->
  exists st', step config costs st candle = Ok st' /\ healthy st'.
Proof.
  intros HS W. unfold step.
  destruct (zoneFlip_total candle (getZone (timestamp candle) config) st HS)
    as (st1 & H1).
  pose proof (zoneFlip_healthy _ _ _ _ HS W H1) as HS1.
  rewrite H1. cbn [bind].
  destruct (checkPosition_total candle st1 HS1) as (st2 & H2).
  pose proof (checkPosition_healthy _ _ _ HS1 W H2) as (HP2 & HE2).
  rewrite H2. cbn [bind].
  destruct (trackDrawdown_total st2 HE2) as (st3 & -> & HE3 & P3).
  cbn [bind]. eexists. split; [reflexivity|].
  split; cbn; [rewrite P3; exact HP2 | exact HE3].
Qed.

Lemma runLoop_total (priceData : list Candle) (st : LoopState) :
  healthy st ->
  Forall wellFormedCandle priceData ->
  exists st', runLoop config costs priceData st = Ok st' /\ healthy st'.
Proof.
  revert st. induction priceData as [|c rest IH]; intros st HS W.
  - exists st. split; [reflexivity | exact HS].
  - apply Forall_cons_iff in W. destruct W as (Wc & Wr).
    destruct (step_total st c HS Wc) as (s & S & HS').
    destruct (IH s HS' Wr) as (st' & L & HS'').
    exists st'. split; [|exact HS'']. cbn [runLoop]. now rewrite S.
Qed.

(** On candles with a non-zero close and a positive high, and a non-zero
    funding interval, [runBacktest] evaluates no division by zero. *)
Lemma runBacktest_total (sqrt : Qc -> Qc) (priceData : list Candle) :
  Forall wellFormedCandle priceData ->
  exists r, runBacktest sqrt priceData config costs = Ok r.
Proof.
  intros W.
  assert (H0 : healthy initialState).
  { split; cbn; [discriminate | apply num_lt; lia]. }
  destruct (runLoop_total priceData initialState H0 W) as (st & L & HS).
  unfold runBacktest. rewrite L. cbn [bind].
  assert (C : exists st', closeRemaining config costs priceData st = Ok st').
  { unfold closeRemaining.
    destruct (position st) as [p|] eqn:P; [|eexists; reflexivity].
    destruct (rev priceData) as [|lastCandle l]; [eexists; reflexivity|].
    destruct HS as (HP & _). destruct (HP p P) as (N & _).
    destruct (closeTrade_Ok p (price lastCandle) (timestamp lastCandle)
                "backtest-end" config costs N interval_nonzero)
      as (t & ->).
    eexists; reflexivity. }
  destruct C as (st' & ->). cbn [bind].
  destruct (calculateStats_total sqrt (trades st') (equity st')
              (maxDrawdown st') config costs (totalCosts st'))
    as (r & _ & E & _).
  exists r. exact E.
Qed.

End Totality.

(** * Sample runs *)

(** The checks of [backtest/test-local.js]. *)
Example test_getZone :
  getZone monday10 DEFAULT_CONFIG = short
  /\ getZone monday17 DEFAULT_CONFIG = long
  /\ getZone 1765033200000%Z DEFAULT_CONFIG = long.
Proof. repeat split; reflexivity. Qed.

Example test_calcProfitPct :
  calcProfitPct (num 100000) (num 101000) long = Ok (num 1)
  /\ calcProfitPct (num 100000) (num 99000) short = Ok (num 1)
  /\ calcProfitPct (num 100000) (num 99000) long = Ok (num (-1)).
Proof.
  repeat split; vm_compute; apply f_equal; qc_eq.
Qed.

(** The two scenarios of the specification's section 8: a zone flip before
    the target closes the long with [zone-flip]; a long past its target far
    from the short zone enters the take-profit zone, and a 0.5 % drop from
    the peak closes it with [tp-trailing-stop] at peak * 0.995. *)
Example scenario_zone_flip :
  exists r : BacktestResult,
    runBacktest isqrt flipAndTarget DEFAULT_CONFIG DEFAULT_COSTS = Ok r
    /\ map (fun t => (t_side t, t_exitReason t)) (r_trades r)
       = [(long, "zone-flip"%string); (short, "profit-target"%string)].
Proof.
  eexists. split; [vm_compute; reflexivity | reflexivity].
Qed.

Example scenario_trailing_stop :
  exists r : BacktestResult,
    runBacktest isqrt trailingStop DEFAULT_CONFIG DEFAULT_COSTS = Ok r
    /\ map t_exitReason (r_trades r) = ["tp-trailing-stop"%string]
    /\ map t_exitPrice (r_trades r) = [num 101500 * dec 995 1000].
Proof.
  eexists. split; [vm_compute; reflexivity|].
  split; [reflexivity | qc_list_eq].
Qed.




Lemma trades_cost_identity_witness :
  exists r : BacktestResult,
    runBacktest isqrt flipAndTarget DEFAULT_CONFIG DEFAULT_COSTS = Ok r
    /\ List.length (r_trades r) = 2%nat
    /\ Forall (costIdentity DEFAULT_CONFIG DEFAULT_COSTS) (r_trades r).
Proof.
  eexists. split; [vm_compute; reflexivity|].
  split; [reflexivity|].
  apply (trades_cost_identity isqrt flipAndTarget DEFAULT_CONFIG
           DEFAULT_COSTS).
  vm_compute. reflexivity.
Defined.

Lemma netPnl_is_sum_of_trades_witness :
  exists r : BacktestResult,
    runBacktest isqrt flipAndTarget DEFAULT_CONFIG DEFAULT_COSTS = Ok r
    /\ netPnlPct r = sumOf t_netPnlPct (r_trades r).
Proof.
  eexists. split; [vm_compute; reflexivity|].
  apply (netPnl_is_sum_of_trades isqrt flipAndTarget DEFAULT_CONFIG
           DEFAULT_COSTS).
  vm_compute. reflexivity.
Defined.

(** The claim C4 as stated, with a sample after every closure, fails on
    [flipAndTarget]: the zone-flip closure takes equity from 100 to 77.8
    (a drawdown of 22.2 %), the profit-target closure of the same candle
    brings it to 85.8, and the one sample of that candle gives 14.2 %. *)
Lemma maxDrawdown_per_closure_counterexample :
  exists r : BacktestResult,
    runBacktest isqrt flipAndTarget DEFAULT_CONFIG DEFAULT_COSTS = Ok r
    /\ Forall (fun t => t_exitReason t <> "backtest-end"%string) (r_trades r)
    /\ map t_netPnlPct (r_trades r) = [dec (-222) 10; num 8]
    /\ perClosureDrawdowns (r_trades r) = [dec 222 10; dec 142 10]
    /\ maxDrawdownPct r = dec 142 10
    /\ ~ isMaxOf (maxDrawdownPct r) 0 (perClosureDrawdowns (r_trades r)).
Proof.
  eexists. split; [vm_compute; reflexivity|].
  split; [repeat constructor; discriminate|].
  split; [qc_list_eq|].
  split; [qc_list_eq|].
  split; [qc_eq|].
  intros (_ & _ & F).
  apply Forall_inv in F. apply Qc_leb_le in F.
  vm_compute in F. discriminate F.
Qed.

Lemma maxDrawdown_per_candle_witness :
  exists r : BacktestResult,
    runBacktest isqrt flipAndTarget DEFAULT_CONFIG DEFAULT_COSTS = Ok r
    /\ 0 <= maxDrawdownPct r
    /\ exists states : list LoopState,
         runTrace DEFAULT_CONFIG DEFAULT_COSTS flipAndTarget initialState
         = Ok states
         /\ List.length states = List.length flipAndTarget
         /\ Forall (fun s =>
                      equity s = num 100 + total (map t_netPnlPct (trades s))
                      /\ exists later, r_trades r = trades s ++ later)
              states
         /\ trades (last states initialState) = r_trades r
         /\ isMaxOf (maxDrawdownPct r) 0
              (drawdowns (num 100) (map equity states)).
Proof.
  eexists. split; [vm_compute; reflexivity|].
  match goal with
  | |- 0 <= maxDrawdownPct ?r /\ _ =>
      destruct (maxDrawdown_per_candle isqrt flipAndTarget DEFAULT_CONFIG
                  DEFAULT_COSTS r) as (P & T)
  end.
  - vm_compute. reflexivity.
  - split; [exact P|]. apply T.
    repeat constructor; discriminate.
Defined.

(** The same run, seen by the loop: the three per-candle equity values are
    100, 100 and 85.8, and the reported maximum drawdown is 14.2 %. *)
Example flipAndTarget_samples :
  exists states : list LoopState,
    runTrace DEFAULT_CONFIG DEFAULT_COSTS flipAndTarget initialState
    = Ok states
    /\ map equity states = [num 100; num 100; dec 858 10]
    /\ drawdowns (num 100) (map equity states) = [num 0; num 0; dec 142 10].
Proof.
  eexists. split; [vm_compute; reflexivity|].
  split; qc_list_eq.
Qed.

(** On [openAtEnd] the only closure is the [backtest-end] one, after the
    loop: the reported net PnL is -102 % while the reported maximum
    drawdown is 0, the loss never having been sampled. *)
Example openAtEnd_drawdown :
  exists r : BacktestResult,
    runBacktest isqrt openAtEnd DEFAULT_CONFIG DEFAULT_COSTS = Ok r
    /\ map t_exitReason (r_trades r) = ["backtest-end"%string]
    /\ netPnlPct r = num (-102)
    /\ maxDrawdownPct r = 0
    /\ perClosureDrawdowns (r_trades r) = [num 102].
Proof.
  eexists. split; [vm_compute; reflexivity|].
  split; [reflexivity|].
  split; [qc_eq|]. split; [qc_eq | qc_list_eq].
Qed.


Lemma no_entry_before_first_zone_change_witness :
  (exists st,
      runLoop DEFAULT_CONFIG DEFAULT_COSTS oneZone initialState = Ok st
      /\ position st = None /\ trades st = [])
  /\ (exists r,
         runBacktest isqrt oneZone DEFAULT_CONFIG DEFAULT_COSTS = Ok r
         /\ r_trades r = [])
  /\ (exists r,
         runBacktest isqrt flipAndTarget DEFAULT_CONFIG DEFAULT_COSTS = Ok r
         /\ Forall (fun t => atZoneChange DEFAULT_CONFIG flipAndTarget
                               (t_entryTime t)) (r_trades r)
         /\ Forall (fun t => t_entryTime t <> monday10) (r_trades r)).
Proof.
  destruct (no_entry_before_first_zone_change isqrt DEFAULT_CONFIG
              DEFAULT_COSTS) as (A & B & C & D).
  split; [|split].
  - apply (A oneZone short). repeat constructor.
  - apply (B oneZone short); [discriminate | repeat constructor].
  - eexists. split; [vm_compute; reflexivity|]. split.
    + apply (C flipAndTarget). vm_compute. reflexivity.
    + apply (D (sampleCandle monday10 100 100 100)
               [sampleCandle monday17 100 100 100;
                sampleCandle tuesday10 98 98 97]).
      * repeat constructor; vm_compute; discriminate.
      * vm_compute. reflexivity.
Defined.

(** * Further properties *)

(** ** Rational arithmetic through [Q] *)

Lemma this_plus (x y : Qc) : (this (x + y) == this x + this y)%Q.
Proof. unfold Qcplus, Q2Qc, this. apply Qred_correct. Qed.

Lemma this_mult (x y : Qc) : (this (x * y) == this x * this y)%Q.
Proof. unfold Qcmult, Q2Qc, this. apply Qred_correct. Qed.

Lemma this_opp (x : Qc) : (this (- x) == - this x)%Q.
Proof. unfold Qcopp, Q2Qc, this. apply Qred_correct. Qed.

Lemma this_minus (x y : Qc) : (this (x - y) == this x - this y)%Q.
Proof. unfold Qcminus. rewrite this_plus, this_opp. reflexivity. Qed.

Lemma this_inv (x : Qc) : (this (/ x) == / this x)%Q.
Proof. unfold Qcinv, Q2Qc, this. apply Qred_correct. Qed.

Lemma this_div (x y : Qc) : (this (x / y) == this x / this y)%Q.
Proof. unfold Qcdiv. rewrite this_mult, this_inv. reflexivity. Qed.

Lemma this_num (z : Z) : (this (num z) == inject_Z z)%Q.
Proof. unfold num, Q2Qc, this. apply Qred_correct. Qed.

Lemma this_0 : (this 0 == 0)%Q.
Proof. reflexivity. Qed.

Lemma this_1 : (this 1 == 1)%Q.
Proof. reflexivity. Qed.

(** Moves a goal or the hypotheses about [Qc] to [Q]. *)
Lemma Qinv_const (p : positive) : (/ (Z.pos p # 1) == 1 # p)%Q.
Proof. reflexivity. Qed.

Lemma Qc_eq_Qeq (x y : Qc) : x = y -> (this x == this y)%Q.
Proof. intros ->. reflexivity. Qed.

Ltac to_Q :=
  unfold Qcle, Qclt, dec in *;
  repeat match goal with
         | H : @eq Qc _ _ |- _ => apply Qc_eq_Qeq in H
         | H : ~ @eq Qc _ _ |- _ =>
             let H' := fresh in
             assert (H' := fun E => H (Qc_is_canon _ _ E)); clear H
         | |- @eq Qc _ _ => apply Qc_is_canon
         | |- ~ @eq Qc _ _ =>
             let E := fresh in intros E; apply (f_equal this) in E
         end;
  repeat first
    [ rewrite this_plus in * | rewrite this_minus in *
    | rewrite this_mult in * | rewrite this_opp in *
    | rewrite this_div in * | rewrite this_inv in *
    | rewrite this_num in * ];
  change (this 0) with 0%Q in *; change (this 1) with 1%Q in *;
  unfold inject_Z, Qdiv in *;
  repeat rewrite Qinv_const in *.

(** ** Profit target and target price *)

Lemma Qcdiv_mult_cancel (a e : Qc) : e <> 0 -> a / e * e = a.
Proof. intros N. field. exact N. Qed.

Lemma Qcle_div_r (t a e : Qc) : 0 < e -> (t <= a / e <-> t * e <= a).
Proof.
  intros P. pose proof (pos_neq_0 e P) as N. split; intros H.
  - rewrite <- (Qcdiv_mult_cancel a e N).
    apply Qcmult_le_compat_r; [exact H | now apply Qclt_le_weak].
  - apply (Qcmult_lt_0_le_reg_r _ _ e P).
    now rewrite (Qcdiv_mult_cancel a e N).
Qed.


(** ** Funding is charged per completed interval *)


Lemma floor_spec (x : Qc) : num (floor x) <= x /\ x < num (floor x + 1).
Proof.
  unfold floor, Qcle, Qclt. rewrite !this_num. split.
  - apply Qfloor_le.
  - apply Qlt_floor.
Qed.

Lemma floor_unique (x : Qc) (k : Z) :
  num k <= x -> x < num (k + 1) -> floor x = k.
Proof.
  intros L U. destruct (floor_spec x) as (L' & U').
  assert (A : (k < floor x + 1)%Z).
  { destruct (Z_lt_le_dec k (floor x + 1)) as [H|H]; [exact H|exfalso].
    apply num_le in H. apply (Qclt_not_le _ _ U').
    eapply Qcle_trans; eassumption. }
  assert (B : (floor x < k + 1)%Z).
  { destruct (Z_lt_le_dec (floor x) (k + 1)) as [H|H]; [exact H|exfalso].
    apply num_le in H. apply (Qclt_not_le _ _ U).
    eapply Qcle_trans; eassumption. }
  lia.
Qed.

Lemma Qclt_div_r (t a e : Qc) : 0 < e -> (a / e < t <-> a < t * e).
Proof.
  intros P. split; intros H.
  - apply Qcnot_le_lt. intros C. apply (Qclt_not_le _ _ H).
    now apply Qcle_div_r.
  - apply Qcnot_le_lt. intros C. apply Qcle_div_r in C; [|exact P].
    exact (Qclt_not_le _ _ H C).
Qed.

(** X2.  With a positive funding interval, [calcTradingCosts] charges funding
    for the completed intervals only: the number of periods [k] satisfies [k *
    interval <= duration < (k + 1) * interval]. Fees and slippage are each
    charged twice whatever the duration and the side; the funding of [k]
    periods is paid by a long and received by a short. A position held for
    less than one interval pays no funding. *)
Theorem calcTradingCosts_funding (notional duration : Qc) (s : Side)
  (costs : Costs) :
  0 < fundingIntervalHours costs ->
  exists tc : TradingCosts,
    calcTradingCosts notional duration s costs = Ok tc
    /\ let k := b_fundingPeriods (tc_breakdown tc) in
       num k * fundingIntervalHours costs <= duration
       /\ duration < num (k + 1) * fundingIntervalHours costs
       /\ b_feesPct (tc_breakdown tc) = num 2 * takerFeeBps costs / num 100
       /\ b_slippagePct (tc_breakdown tc)
          = num 2 * slippageBps costs / num 100
       /\ b_fundingPct (tc_breakdown tc)
          = match s with
            | long => num k * (avgFundingRateBps costs / num 100)
            | short => - (num k * (avgFundingRateBps costs / num 100))
            end
       /\ tc_totalCostPct tc
          = b_feesPct (tc_breakdown tc) + b_slippagePct (tc_breakdown tc)
            + b_fundingPct (tc_breakdown tc)
       /\ (0 <= duration -> duration < fundingIntervalHours costs ->
           k = 0%Z
           /\ tc_totalCostPct tc
              = num 2 * takerFeeBps costs / num 100
                + num 2 * slippageBps costs / num 100).
Proof.
  intros P. pose proof (pos_neq_0 _ P) as N.
  unfold calcTradingCosts. rewrite (div_Ok _ _ N). cbn [bind].
  eexists. split; [reflexivity|].
  cbn [tc_breakdown tc_totalCostPct b_fundingPeriods b_feesPct b_slippagePct
       b_fundingPct].
  set (i := fundingIntervalHours costs) in *.
  destruct (floor_spec (duration / i)) as (L & U).
  rewrite !double_div.
  split; [now apply Qcle_div_r|].
  split; [now apply Qclt_div_r|].
  split; [reflexivity|]. split; [reflexivity|].
  split.
  { destruct s.
    - rewrite num_1. ring.
    - replace (num (-1)) with (- (1)) by (apply Qc_is_canon; reflexivity).
      ring. }
  split; [reflexivity|].
  intros D0 D1.
  assert (K : floor (duration / i) = 0%Z).
  { apply floor_unique.
    - rewrite num_0. apply Qcle_div_r; [exact P|].
      now rewrite Qcmult_0_l.
    - apply Qclt_div_r; [exact P|]. change (num (0 + 1)) with 1.
      now rewrite Qcmult_1_l. }
  split; [exact K|]. rewrite K, num_0. ring.
Qed.

(** A short held for 17 hours under the default costs: two funding periods. *)
Lemma calcTradingCosts_funding_witness :
  0 < fundingIntervalHours DEFAULT_COSTS
  /\ exists tc : TradingCosts,
       calcTradingCosts (num 1000) (num 17) short DEFAULT_COSTS = Ok tc
       /\ b_fundingPeriods (tc_breakdown tc) = 2%Z.
Proof.
  split; [apply Qc_ltb_lt; reflexivity|].
  destruct (calcTradingCosts_funding (num 1000) (num 17) short DEFAULT_COSTS)
    as (tc & E & _); [apply Qc_ltb_lt; reflexivity|].
  exists tc. split; [exact E|].
  revert E. unfold calcTradingCosts. intros E.
  vm_compute in E. injection E as <-. reflexivity.
Defined.

(** ** The next short-zone start *)

Lemma num_plus (a b : Z) : num (a + b) = num a + num b.
Proof.
  apply Qc_is_canon. rewrite this_plus, !this_num.
  rewrite inject_Z_plus. reflexivity.
Qed.

Lemma num_mult (a b : Z) : num (a * b) = num a * num b.
Proof.
  apply Qc_is_canon. rewrite this_mult, !this_num.
  rewrite inject_Z_mult. reflexivity.
Qed.

Lemma num_opp (a : Z) : num (- a) = - num a.
Proof.
  apply Qc_is_canon. rewrite this_opp, !this_num.
  rewrite inject_Z_opp. reflexivity.
Qed.

Lemma num_sub (a b : Z) : num (a - b) = num a - num b.
Proof.
  unfold Z.sub, Qcminus. now rewrite num_plus, num_opp.
Qed.

Lemma localMinutes_range (date : Date) :
  (-300 <= (getUTCHours date - 5) * 60 + getUTCMinutes date <= 1139)%Z.
Proof.
  unfold getUTCHours, getUTCMinutes.
  pose proof (Z.mod_pos_bound (date / 3600000) 24 ltac:(lia)).
  pose proof (Z.mod_pos_bound (date / 60000) 60 ltac:(lia)).
  lia.
Qed.

Lemma getHoursUntilShortZone_days (date : Date)
  (config : Config) :
  let dow := getUTCDay date in
  let current := num ((getUTCHours date - 5) * 60 + getUTCMinutes date) in
  let target :=
    hour (shortZoneStart config) * num 60 + minute (shortZoneStart config) in
  exists (h : Qc) (k : Z),
    getHoursUntilShortZone date config = Ok h
    /\ (0 <= k <= 3)%Z
    /\ current + num 60 * h = target + num (1440 * k)
    /\ isWeekend ((dow + k) mod 7)%Z = false
    /\ (forall j : Z, (0 <= j < k)%Z ->
          isWeekend ((dow + j) mod 7)%Z = true
          \/ (j = 0%Z /\ target <= current))
    /\ (0 <= target -> 0 < h).
Proof.
  intros dow current target.
  pose proof (getUTCDay_range date) as R. fold dow in R.
  pose proof (localMinutes_range date) as M.
  unfold getHoursUntilShortZone. fold dow current target.
  destruct (((1 <=? dow) && (dow <=? 5))%Z && (current <? target)) eqn:B.
  - apply andb_prop in B. destruct B as (W & B).
    apply andb_prop in W. destruct W as (W1 & W2).
    apply Z.leb_le in W1. apply Z.leb_le in W2. apply Qc_ltb_lt in B.
    eexists. exists 0%Z. split; [reflexivity|].
    split; [lia|].
    split; [rewrite Z.mul_0_r, num_0; field; apply gt_0_neq; reflexivity|].
    split.
    { rewrite Z.add_0_r, Z.mod_small by lia. unfold isWeekend.
      apply orb_false_iff. split; apply Z.eqb_neq; lia. }
    split; [intros j Hj; lia|].
    intros _. to_Q. lra.
  - destruct (skipWeekend_next dow R) as (d & E & D1 & D2 & D3).
    rewrite E. cbn [bind]. eexists. exists d. split; [reflexivity|].
    assert (D4 : (d <= 3)%Z).
    { destruct (Z_le_gt_dec d 3) as [H|H]; [exact H|exfalso].
      assert (C : (dow = 0 \/ dow = 1 \/ dow = 2 \/ dow = 3 \/ dow = 4
                   \/ dow = 5 \/ dow = 6)%Z) by lia.
      pose proof (D3 1%Z ltac:(lia)) as X1.
      pose proof (D3 2%Z ltac:(lia)) as X2.
      pose proof (D3 3%Z ltac:(lia)) as X3.
      destruct C as [C|[C|[C|[C|[C|[C|C]]]]]]; rewrite C in *;
        vm_compute in X1, X2, X3; congruence. }
    split; [lia|].
    split.
    { rewrite (num_mult 1440 d), (num_sub d 1).
      change (num (24 * 60)) with (num 1440).
      set (nd := num d). to_Q. lra. }
    split; [exact D2|].
    split.
    { intros j Hj. destruct (Z.eq_dec j 0) as [-> | NZ].
      - rewrite Z.add_0_r, Z.mod_small by lia.
        destruct (isWeekend dow) eqn:WE; [now left|right].
        split; [reflexivity|].
        unfold isWeekend in WE. apply orb_false_iff in WE.
        destruct WE as (W0 & W6).
        apply Z.eqb_neq in W0. apply Z.eqb_neq in W6.
        assert (W : ((1 <=? dow) && (dow <=? 5))%Z = true).
        { apply andb_true_intro. split; apply Z.leb_le; lia. }
        rewrite W in B. cbn [andb] in B. now apply Qc_ltb_ge in B.
      - left. apply D3. lia. }
    intros T.
    assert (C1 : current <= num 1139) by (apply num_le; lia).
    assert (C2 : num 1 <= num d) by (apply num_le; lia).
    rewrite (num_sub d 1). change (num (24 * 60)) with (num 1440).
    set (nd := num d) in *. clearbody current. to_Q. lra.
Qed.

(** X3.  [getHoursUntilShortZone] returns the time from now (minute [current]
    of the UTC day [dow], in local minutes) to the first weekday occurrence of
    [shortZoneStart] after it: [k] days ahead, [k] being 0 on a weekday before
    the start and otherwise the distance to the next day that is not a
    Saturday or Sunday. No earlier day qualifies, and for a start time at or
    after midnight the result is positive. Holidays are not skipped. *)
Theorem getHoursUntilShortZone_lands_on_start (date : Date)
  (config : Config) :
  let dow := getUTCDay date in
  let current := num ((getUTCHours date - 5) * 60 + getUTCMinutes date) in
  let target :=
    hour (shortZoneStart config) * num 60 + minute (shortZoneStart config) in
  exists (h : Qc) (k : Z),
    getHoursUntilShortZone date config = Ok h
    /\ (0 <= k <= 3)%Z
    /\ current + num 60 * h = target + num (1440 * k)
    /\ isWeekend ((dow + k) mod 7)%Z = false
    /\ (forall j : Z, (0 <= j < k)%Z ->
          isWeekend ((dow + j) mod 7)%Z = true
          \/ (j = 0%Z /\ target <= current))
    /\ (0 <= target -> 0 < h).
Proof. exact (getHoursUntilShortZone_days date config). Qed.

(** ** The short zone as a window of minutes *)

Lemma num_integral (a b : Z) :
  (num a + num 1 <= num b) \/ a = b \/ (num b + num 1 <= num a).
Proof.
  destruct (Z.lt_trichotomy a b) as [H | [H | H]].
  - left. rewrite <- num_plus. apply num_le. lia.
  - right; left. exact H.
  - right; right. rewrite <- num_plus. apply num_le. lia.
Qed.

Ltac close_case E :=
  first [ discriminate E | reflexivity | solve [exfalso; congruence]
        | solve [to_Q; lra] | solve [exfalso; to_Q; lra] ].

Ltac bool_to_Prop :=
  repeat match goal with
         | H : (_ <? _) = true |- _ => apply Qc_ltb_lt in H
         | H : (_ <? _) = false |- _ => apply Qc_ltb_ge in H
         | H : (_ <=? _) = true |- _ => apply Qc_leb_le in H
         | H : (_ <=? _) = false |- _ => apply Qc_leb_gt in H
         | H : (_ =? _) = true |- _ => apply Qc_eqb_eq in H
         | H : (_ =? _) = false |- _ => apply Qc_eqb_neq in H
         end.

(** Comparing (hour, minute) pairs as the code does, hour first, is
    comparing minutes of the day, when the hours are whole numbers and the
    minutes lie in [0, 60). *)
Lemma afterOpen_iff (h sh : Z) (m sm : Qc) :
  0 <= m -> m < num 60 -> 0 <= sm -> sm < num 60 ->
  ((num h >? num sh) || ((num h =? num sh) && (m >=? sm)) = true
   <-> num sh * num 60 + sm <= num h * num 60 + m).
Proof.
  intros M0 M1 S0 S1.
  destruct (num h >? num sh) eqn:A; destruct (num h =? num sh) eqn:B;
    destruct (m >=? sm) eqn:C; cbn [orb andb]; bool_to_Prop;
    destruct (num_integral h sh) as [I | [I | I]];
    try (rewrite I in *; clear I);
    set (nh := num h) in *; set (nsh := num sh) in *;
    split; intros E; close_case E.
Qed.

Lemma beforeClose_iff (h eh : Z) (m em : Qc) :
  0 <= m -> m < num 60 -> 0 <= em -> em < num 60 ->
  ((num h <? num eh) || ((num h =? num eh) && (m <? em)) = true
   <-> num h * num 60 + m < num eh * num 60 + em).
Proof.
  intros M0 M1 S0 S1.
  destruct (num h <? num eh) eqn:A; destruct (num h =? num eh) eqn:B;
    destruct (m <? em) eqn:C; cbn [orb andb]; bool_to_Prop;
    destruct (num_integral h eh) as [I | [I | I]];
    try (rewrite I in *; clear I);
    set (nh := num h) in *; set (neh := num eh) in *;
    split; intros E; close_case E.
Qed.

Lemma getZone_window (date : Date) (config : Config) :
  wholeHour (shortZoneStart config) ->
  wholeHour (shortZoneEnd config) ->
  (getZone date config = short
   <-> isWeekend (getUTCDay date) = false
       /\ isHoliday (isoDate date) = false
       /\ minuteOfDay (shortZoneStart config) <= currentMinutes date
       /\ currentMinutes date < minuteOfDay (shortZoneEnd config)).
Proof.
  intros ((sh & Hs) & S0 & S1) ((eh & He) & E0 & E1).
  unfold getZone, isWeekend, minuteOfDay, currentMinutes.
  rewrite Hs, He, num_plus, num_mult.
  assert (M0 : 0 <= num (getUTCMinutes date)).
  { change 0 with (num 0). apply num_le. unfold getUTCMinutes.
    pose proof (Z.mod_pos_bound (date / 60000) 60 ltac:(lia)). lia. }
  assert (M1 : num (getUTCMinutes date) < num 60).
  { apply num_lt. unfold getUTCMinutes.
    pose proof (Z.mod_pos_bound (date / 60000) 60 ltac:(lia)). lia. }
  pose proof (afterOpen_iff (getUTCHours date - 5) sh _ _ M0 M1 S0 S1) as A.
  pose proof (beforeClose_iff (getUTCHours date - 5) eh _ _ M0 M1 E0 E1)
    as B.
  destruct ((getUTCDay date =? 0) || (getUTCDay date =? 6))%Z.
  { split; [discriminate | intros (X & _); discriminate X]. }
  destruct (isHoliday (isoDate date)).
  { split; [discriminate | intros (_ & X & _); discriminate X]. }
  destruct (_ || _ && _) eqn:AO at 1.
  - destruct (_ || _ && _) eqn:BC at 1.
    + cbn [andb]. split; [intros _ | reflexivity].
      split; [reflexivity|]. split; [reflexivity|].
      split; [now apply A | now apply B].
    + cbn [andb]. split; [discriminate|].
      intros (_ & _ & _ & X). apply B in X. congruence.
  - cbn [andb]. split; [discriminate|].
    intros (_ & _ & X & _). apply A in X. congruence.
Qed.

(** X4.  For a window given by whole hours and minutes in [0, 60), [getZone]
    answers [short] exactly on the timestamps that are not on a Saturday or
    Sunday, not on a holiday, and whose minute of the day lies in [start,
    end): the minute arithmetic of [getHoursUntilShortZone]. So the two
    functions agree on where the short zone starts. *)
Theorem getZone_short_iff_in_window (date : Date) (config : Config) :
  wholeHour (shortZoneStart config) ->
  wholeHour (shortZoneEnd config) ->
  (getZone date config = short
   <-> isWeekend (getUTCDay date) = false
       /\ isHoliday (isoDate date) = false
       /\ minuteOfDay (shortZoneStart config) <= currentMinutes date
       /\ currentMinutes date < minuteOfDay (shortZoneEnd config)).
Proof. exact (getZone_window date config). Qed.

(** 2025-12-01 14:29 UTC is 09:29 local, the first minute of the default
    short zone; a minute earlier the zone is still long. *)
Lemma getZone_short_iff_in_window_witness :
  (getZone (monday10 - 31 * 60000)%Z DEFAULT_CONFIG = short
   <-> isWeekend (getUTCDay (monday10 - 31 * 60000)%Z) = false
       /\ isHoliday (isoDate (monday10 - 31 * 60000)%Z) = false
       /\ minuteOfDay (shortZoneStart DEFAULT_CONFIG)
          <= currentMinutes (monday10 - 31 * 60000)%Z
       /\ currentMinutes (monday10 - 31 * 60000)%Z
          < minuteOfDay (shortZoneEnd DEFAULT_CONFIG))
  /\ getZone (monday10 - 31 * 60000)%Z DEFAULT_CONFIG = short
  /\ getZone (monday10 - 32 * 60000)%Z DEFAULT_CONFIG = long.
Proof.
  split; [|split; reflexivity].
  apply (getZone_short_iff_in_window (monday10 - 31 * 60000)%Z
           DEFAULT_CONFIG).
  - split; [exists 9%Z; reflexivity|].
    split; [apply Qc_leb_le | apply Qc_ltb_lt]; reflexivity.
  - split; [exists 16%Z; reflexivity|].
    split; [apply Qc_leb_le | apply Qc_ltb_lt]; reflexivity.
Defined.

(** * The loop as a sequence of events *)

Section Events.

Variable config : Config.
Variable costs : Costs.

Lemma closeTrade_raisePeak (p : Position) (candle : Candle) (x : Qc)
  (time : Date) (r : string) :
  closeTrade (raisePeak p candle) x time r config costs
  = closeTrade p x time r config costs.
Proof. reflexivity. Qed.

Lemma checkTpZoneExit_inv (low_ entry peak trail h threshold : Qc)
  (e : ExitCheck) :
  checkTpZoneExit low_ entry peak trail h threshold = Ok e ->
  (low_ < entry
   /\ e = {| shouldExit := true; reason := Some "below-entry"%string |})
  \/ (entry <= low_
      /\ (e = {| shouldExit := true; reason := Some "trailing-stop"%string |}
          \/ e = {| shouldExit := true; reason := Some "time-exit"%string |}
          \/ e = {| shouldExit := false; reason := None |})).
Proof.
  unfold checkTpZoneExit. intros H.
  destruct (low_ <? entry) eqn:B.
  - left. apply Qc_ltb_lt in B. injection H as <-. auto.
  - right. apply Qc_ltb_ge in B. split; [exact B|].
    apply bind_Ok in H. destruct H as (q & _ & H).
    destruct (_ >=? _); [injection H as <-; auto|].
    destruct (_ <=? _); injection H as <-; auto.
Qed.

Ltac done_booked := split; [reflexivity | repeat split].

Lemma zoneFlip_flipped (candle : Candle) (zone : Side)
  (st st1 : LoopState) :
  zoneFlip config costs candle zone st = Ok st1 ->
  exists ts1,
    flipped config costs candle zone (previousZone st) (position st) ts1
      (position st1)
    /\ previousZone st1 = previousZone st
    /\ booked config st st1 ts1.
Proof.
  intros H. apply zoneFlip_shape in H.
  destruct H as [(-> & [E | E]) | [(pz & E & N & P & ->)
                                  | (pz & p & t & E & N & P & C & ->)]].
  - exists []. rewrite E. split; [constructor | done_booked].
  - exists []. rewrite E. split; [constructor | done_booked].
  - exists []. cbn [previousZone position setPosition]. rewrite E, P.
    split; [now apply flip_open | done_booked].
  - exists [t]. cbn [previousZone position setPosition recordTrade].
    rewrite E, P. split; [now apply flip_close | done_booked].
Qed.

Lemma checkPosition_checked (candle : Candle) (st1 st2 : LoopState) :
  checkPosition config costs candle st1 = Ok st2 ->
  exists ts2,
    checked config costs candle (position st1) ts2 (position st2)
    /\ previousZone st2 = previousZone st1
    /\ booked config st1 st2 ts2.
Proof.
  unfold checkPosition. intros H.
  destruct (position st1) as [p|] eqn:P.
  2:{ injection H as <-. exists []. rewrite P.
      split; [constructor | done_booked]. }
  apply bind_Ok in H. destruct H as (q1 & Q1 & H).
  apply bind_Ok in H. destruct H as (q2 & Q2 & H).
  apply bind_Ok in H. destruct H as (q3 & Q3 & H).
  apply calcProfitPct_inv in Q3. destruct Q3 as (N & Q3).
  destruct (Side_eqb (side p) long && inTpZone p) eqn:TP.
  - apply andb_prop in TP. destruct TP as (S & T).
    assert (S' : side p = long)
      by (destruct (side p); [reflexivity|discriminate]).
    unfold tpZoneStep in H. fold (raisePeak p candle) in H.
    apply bind_Ok in H. destruct H as (h & Hh & H).
    apply bind_Ok in H. destruct H as (ec & EC & H).
    apply checkTpZoneExit_inv in EC.
    destruct EC as [(L & ->) | (L & [-> | [-> | ->]])];
      cbn [shouldExit reason] in H.
    + apply closePosition_inv in H. destruct H as (t & C & ->).
      exists [t].
      split; [eapply check_close; [now apply exit_below | exact C]
             | done_booked].
    + apply closePosition_inv in H. destruct H as (t & C & ->).
      exists [t].
      split; [eapply check_close; [now apply exit_trailing | exact C]
             | done_booked].
    + apply closePosition_inv in H. destruct H as (t & C & ->).
      exists [t].
      split; [eapply check_close; [now apply exit_time | exact C]
             | done_booked].
    + injection H as <-. exists [].
      split; [now apply check_raise | done_booked].
  - assert (B : bestMovePct p candle = q3).
    { unfold bestMovePct. rewrite Q3. destruct (side p); reflexivity. }
    destruct (q3 >=? profitTargetPct config) eqn:G.
    2:{ injection H as <-. exists []. rewrite P.
        split; [constructor | done_booked]. }
    apply Qc_leb_le in G. rewrite <- B in G.
    assert (NT : side p = long -> inTpZone p = false).
    { intros S. rewrite S in TP. exact TP. }
    unfold profitTargetStep in H. fold (targetPrice config p) in H.
    destruct (side p) eqn:S.
    + apply bind_Ok in H. destruct H as (h & Hh & H).
      destruct (shouldEnterTpZone long h (tpZoneHoursThreshold config)).
      * injection H as <-. exists []. split; [|done_booked].
        cbn [position setPosition].
        replace {| side := long; entryPrice := entryPrice p;
                   entryTime := entryTime p; inTpZone := true;
                   peakPrice := Some (high candle) |}
          with (enterTpZone p (high candle))
          by (unfold enterTpZone; rewrite S; reflexivity).
        apply check_enter; auto.
      * apply closePosition_inv in H. destruct H as (t & C & ->).
        exists [t].
        split; [eapply check_close;
                  [apply exit_target; auto; congruence | exact C]
               | done_booked].
    + apply closePosition_inv in H. destruct H as (t & C & ->).
      exists [t].
        split; [eapply check_close;
                  [apply exit_target; auto; congruence | exact C]
               | done_booked].
Qed.

Lemma recordTrade_agree (a b : LoopState) (ts : list Trade) :
  trades a = trades b -> equity a = equity b ->
  totalCosts a = totalCosts b ->
  booked config b (fold_left (recordTrade config) ts a) ts.
Proof.
  revert a b. induction ts as [|t ts IH]; intros a b A B C.
  - unfold booked. cbn. auto.
  - cbn [fold_left]. unfold booked. cbn [fold_left].
    apply (IH (recordTrade config a t) (recordTrade config b t));
      unfold recordTrade; cbn; congruence.
Qed.

Lemma booked_app (st st1 st2 : LoopState) (ts1 ts2 : list Trade) :
  booked config st st1 ts1 -> booked config st1 st2 ts2 ->
  booked config st st2 (ts1 ++ ts2).
Proof.
  intros (A & B & C) (D & E & F).
  unfold booked. rewrite fold_left_app.
  destruct (recordTrade_agree st1
              (fold_left (recordTrade config) ts1 st) ts2 A B C)
    as (X & Y & Z).
  repeat split; congruence.
Qed.

Lemma step_iteration (st st' : LoopState) (candle : Candle) :
  step config costs st candle = Ok st' ->
  exists closed, iteration config costs candle st st' closed.
Proof.
  intros H. apply step_inv in H.
  destruct H as (st1 & st2 & st3 & F & C & D & ->).
  apply zoneFlip_flipped in F. destruct F as (ts1 & F & PZ1 & B1).
  apply checkPosition_checked in C. destruct C as (ts2 & C & PZ2 & B2).
  apply trackDrawdown_inv in D.
  destruct D as (_ & T & P & _ & E & TC & _).
  exists (ts1 ++ ts2), ts1, ts2, (position st1).
  split; [reflexivity|]. split; [exact F|].
  split; [cbn [position setPreviousZone]; rewrite P; exact C|].
  split; [reflexivity|].
  apply (booked_app st st1); [exact B1|].
  destruct B2 as (X & Y & Z). cbn [setPreviousZone]. unfold booked; cbn.
  repeat split; congruence.
Qed.

Lemma fold_recordTrade_trades (closed : list Trade) (st : LoopState) :
  trades (fold_left (recordTrade config) closed st) = trades st ++ closed.
Proof.
  revert st. induction closed as [|t ts IH]; intros st.
  - cbn. now rewrite app_nil_r.
  - cbn [fold_left]. rewrite IH. cbn [trades recordTrade].
    now rewrite <- app_assoc.
Qed.

Lemma fold_recordTrade_equity (closed : list Trade) (st : LoopState) :
  equity (fold_left (recordTrade config) closed st)
  = equity st + total (map t_netPnlPct closed).
Proof.
  revert st. induction closed as [|t ts IH]; intros st.
  - cbn. ring.
  - cbn [fold_left map total]. rewrite IH. cbn [equity recordTrade]. ring.
Qed.

Lemma iteration_trades (candle : Candle) (st st' : LoopState)
  (closed : list Trade) :
  iteration config costs candle st st' closed ->
  trades st' = trades st ++ closed.
Proof.
  intros (ts1 & ts2 & pos1 & -> & _ & _ & _ & T & _).
  rewrite T. apply fold_recordTrade_trades.
Qed.

Lemma closeRemaining_inv (priceData : list Candle) (st st' : LoopState) :
  closeRemaining config costs priceData st = Ok st' ->
  (st' = st /\ (position st = None \/ priceData = []))
  \/ (exists p lastCandle init t,
        position st = Some p
        /\ priceData = init ++ [lastCandle]
        /\ closeTrade p (price lastCandle) (timestamp lastCandle)
             "backtest-end" config costs = Ok t
        /\ st' = recordTrade config st t).
Proof.
  unfold closeRemaining. intros H.
  destruct (position st) as [p|]; [|injection H as <-; auto].
  destruct (rev priceData) as [|c l] eqn:R.
  - injection H as <-. left. split; [reflexivity|]. right.
    apply (f_equal (@rev Candle)) in R. now rewrite rev_involutive in R.
  - apply bind_Ok in H. destruct H as (t & C & H). injection H as <-.
    right. exists p, c, (rev l), t. split; [reflexivity|].
    split; [|auto].
    apply (f_equal (@rev Candle)) in R. now rewrite rev_involutive in R.
Qed.

(** ** Properties of every logged trade *)

Section LogPrinciple.

Variable Pos : Side -> Date -> Qc -> Prop.
Variable P : Trade -> Prop.
Variable priceData : list Candle.

Hypothesis Pos_new : forall c,
  In c priceData ->
  Pos (getZone (timestamp c) config) (timestamp c) (price c).

Hypothesis P_loop : forall c p t,
  In c priceData ->
  Pos (side p) (entryTime p) (entryPrice p) ->
  closedInLoop config costs c p t -> P t.

Lemma iteration_logInv (c : Candle) (st st' : LoopState)
  (closed : list Trade) :
  In c priceData ->
  iteration config costs c st st' closed ->
  logInv Pos P st -> logInv Pos P st'.
Proof.
  intros I It (A & B). pose proof (iteration_trades _ _ _ _ It) as T.
  destruct It as (ts1 & ts2 & pos1 & -> & F & C & _ & _).
  unfold logInv. rewrite T.
  assert (X : (forall p, pos1 = Some p ->
                 Pos (side p) (entryTime p) (entryPrice p))
              /\ Forall P ts1).
  { remember (position st) as pos0 eqn:E0. clear E0.
    inversion F; subst.
    - split; [exact A | constructor].
    - split; [exact A | constructor].
    - split; [|constructor]. intros p E. injection E as <-.
      apply Pos_new, I.
    - split.
      + intros p' E. injection E as <-. apply Pos_new, I.
      + repeat constructor. apply (P_loop c p); auto.
        exists "zone-flip"%string, (price c). auto. }
  destruct X as (A1 & B1).
  assert (Y : (forall p, position st' = Some p ->
                 Pos (side p) (entryTime p) (entryPrice p))
              /\ Forall P ts2).
  { remember (position st') as pos2 eqn:E2. clear E2.
    inversion C; subst.
    - split; [exact A1 | constructor].
    - split; [|constructor]. intros p' E. injection E as <-.
      apply (A1 p). reflexivity.
    - split; [|constructor]. intros p' E. injection E as <-.
      apply (A1 p). reflexivity.
    - split; [discriminate|].
      repeat constructor. apply (P_loop c p); auto.
      exists reason_, x. auto. }
  destruct Y as (A2 & B2).
  split; [exact A2|]. rewrite !Forall_app. auto.
Qed.

Lemma runLoop_logInv (rest : list Candle) (st st' : LoopState) :
  incl rest priceData ->
  runLoop config costs rest st = Ok st' ->
  logInv Pos P st -> logInv Pos P st'.
Proof.
  revert st. induction rest as [|c rest IH]; intros st I H L.
  - injection H as <-. exact L.
  - cbn [runLoop] in H. apply bind_Ok in H. destruct H as (s & St & H).
    apply (IH s); [intros x X; apply I; now right | exact H |].
    apply step_iteration in St. destruct St as (closed & It).
    apply (iteration_logInv c st s closed); auto. apply I. now left.
Qed.

End LogPrinciple.

Lemma closedInLoop_closedAt (c : Candle) (p : Position) (t : Trade) :
  closedInLoop config costs c p t -> closedAt config costs c p t.
Proof.
  intros (reason_ & x & C & [K | K]); exists reason_, x; auto.
Qed.

Lemma runBacktest_log (Pos : Side -> Date -> Qc -> Prop)
  (P : Trade -> Prop) (priceData : list Candle) (sqrt : Qc -> Qc)
  (r : BacktestResult) :
  (forall c, In c priceData ->
             Pos (getZone (timestamp c) config) (timestamp c) (price c)) ->
  (forall c p t, In c priceData ->
                 Pos (side p) (entryTime p) (entryPrice p) ->
                 closedAt config costs c p t -> P t) ->
  runBacktest sqrt priceData config costs = Ok r ->
  Forall P (r_trades r).
Proof.
  intros Pos_new P_closed H. apply runBacktest_inv in H.
  destruct H as (st & st' & L & C & T & _). rewrite T.
  assert (I : logInv Pos P st).
  { apply (runLoop_logInv Pos P priceData Pos_new) with (rest := priceData)
      (st := initialState); auto.
    - intros c p t X Y Z. apply (P_closed c p t X Y).
      now apply closedInLoop_closedAt.
    - apply incl_refl.
    - split; [discriminate | constructor]. }
  destruct I as (A & B). apply closeRemaining_inv in C.
  destruct C as [(-> & _) | (p & c & init & t & E & D & C & ->)];
    [exact B|].
  cbn [trades recordTrade]. rewrite Forall_app. split; [exact B|].
  repeat constructor. apply (P_closed c p).
  - rewrite D. apply in_or_app. right. now left.
  - apply A, E.
  - exists "backtest-end"%string, (price c). auto.
Qed.

End Events.

(** * The trade log *)

Section TradeLog.

Variable sqrt : Qc -> Qc.
Variable config : Config.
Variable costs : Costs.

(** X5.  Every logged trade ends for one of six reasons, and the three reasons
    of the take-profit zone only ever close a long: a short is closed by its
    profit target, by a zone flip or at the end of the data. *)
Theorem trade_exit_reasons (priceData : list Candle) (r : BacktestResult) :
  runBacktest sqrt priceData config costs = Ok r ->
  Forall (fun t =>
            In (t_exitReason t)
              ["zone-flip"; "profit-target"; "backtest-end"]%string
            \/ (t_side t = long /\ In (t_exitReason t) tpReasons))
    (r_trades r).
Proof.
  apply (runBacktest_log config costs (fun _ _ _ => True)); [auto|].
  intros c p t _ _ (reason_ & x & C & K).
  apply closeTrade_inv in C.
  destruct C as (_ & _ & _ & _ & _ & _ & S & R & _). rewrite R, S.
  destruct K as [(-> & _) | [(-> & _) | K]].
  - left. cbn. auto.
  - left. cbn. auto.
  - destruct K as [? ? | S' ? ? | S' ? ? | S' ? ?].
    + left. cbn. auto.
    + right. split; [exact S' | cbn; auto].
    + right. split; [exact S' | cbn; auto].
    + right. split; [exact S' | cbn; auto].
Qed.

(** X6.  Every trade is entered at the close of a candle of the input, on the
    side of the zone that candle falls in, and is closed at the timestamp of a
    candle of the input. A zone flip, the end of the data and the time exit of
    the take-profit zone fill at that candle's close; the other exits fill at
    a price computed from the entry or the peak. *)
Theorem trades_enter_and_exit_at_candles (priceData : list Candle)
  (r : BacktestResult) :
  runBacktest sqrt priceData config costs = Ok r ->
  Forall (fun t =>
            (exists c, In c priceData
               /\ enteredAt config c (t_side t) (t_entryTime t)
                    (t_entryPrice t))
            /\ (exists c, In c priceData
                  /\ t_exitTime t = timestamp c
                  /\ (In (t_exitReason t)
                        ["zone-flip"; "backtest-end"; "tp-time-exit"]%string
                      -> t_exitPrice t = price c)))
    (r_trades r).
Proof.
  apply (runBacktest_log config costs
           (fun s time x =>
              exists c, In c priceData /\ enteredAt config c s time x)).
  - intros c I. exists c. split; [exact I|]. repeat split.
  - intros c p t I E (reason_ & x & C & K).
    apply closeTrade_inv in C.
    destruct C as (_ & _ & T & XT & XP & X & S & R & _).
    rewrite T, XP, S, XT, X, R. split; [exact E|].
    exists c. split; [exact I|]. split; [reflexivity|].
    destruct K as [(-> & ->) | [(-> & ->) | K]]; [reflexivity ..|].
    destruct K; [| |  |reflexivity]; cbn;
      intros [D | [D | [D | []]]]; discriminate D.
Qed.

Lemma pricePct_at_target (entry g : Qc) :
  entry <> 0 ->
  (entry * (num 1 + g / num 100) - entry) / entry * num 100 = g
  /\ (entry - entry * (num 1 - g / num 100)) / entry * num 100 = g.
Proof.
  intros N. rewrite num_1.
  assert (H : num 100 <> 0) by (intros X; discriminate X).
  split; field; auto.
Qed.

(** X7.  A [profit-target] trade is filled at the target price itself, not at
    the candle's price: its exit price is the entry price moved by exactly
    [profitTargetPct] in the trade's favour, and its gross PnL is exactly
    [profitTargetPct * leverage]. A [tp-below-entry] trade is a long filled
    0.1 % under its entry price: its gross PnL is [- leverage / 10]. *)
Theorem target_and_below_entry_fills (priceData : list Candle)
  (r : BacktestResult) :
  runBacktest sqrt priceData config costs = Ok r ->
  Forall (fun t =>
            (t_exitReason t = "profit-target"%string ->
             t_exitPrice t
             = t_entryPrice t
               * match t_side t with
                 | long => num 1 + profitTargetPct config / num 100
                 | short => num 1 - profitTargetPct config / num 100
                 end
             /\ t_grossPnlPct t = profitTargetPct config * leverage config)
            /\ (t_exitReason t = "tp-below-entry"%string ->
                t_side t = long
                /\ t_exitPrice t = t_entryPrice t * dec 999 1000
                /\ t_grossPnlPct t = - (leverage config / num 10)))
    (r_trades r).
Proof.
  apply (runBacktest_log config costs (fun _ _ _ => True)); [auto|].
  intros c p t _ _ (reason_ & x & C & K).
  apply closeTrade_inv in C.
  destruct C as (N & _ & _ & _ & XP & X & S & R & _ & _ & G & _).
  rewrite R, G. unfold pricePctOf. rewrite X, XP, S.
  destruct (pricePct_at_target (entryPrice p) (profitTargetPct config) N)
    as (UL & US).
  destruct K as [(-> & _) | [(-> & _) | K]];
    [split; discriminate ..|].
  destruct K as [? ? | S' ? ? | S' ? ? | S' ? ?];
    try (split; discriminate).
  - split; [intros _ | discriminate]. unfold targetPrice.
    destruct (side p).
    + split; [reflexivity|]. now rewrite UL.
    + split; [reflexivity|]. now rewrite US.
  - split; [discriminate | intros _]. rewrite S'.
    split; [reflexivity|]. split; [reflexivity|].
    unfold dec.
    assert (H2 : num 10 <> 0) by (intros Y; discriminate Y).
    assert (H3 : num 999 = num 10 * num 10 * num 10 - 1) by qc_eq.
    assert (H4 : num 100 = num 10 * num 10) by qc_eq.
    assert (H5 : num 1000 = num 10 * num 10 * num 10) by qc_eq.
    rewrite H3, H5, H4. field. auto.
Qed.

End TradeLog.

(** ** Sample runs *)

Lemma trade_exit_reasons_witness :
  exists r : BacktestResult,
    runBacktest isqrt trailingStop DEFAULT_CONFIG DEFAULT_COSTS = Ok r
    /\ map t_exitReason (r_trades r) = ["tp-trailing-stop"%string]
    /\ Forall (fun t =>
                 In (t_exitReason t)
                   ["zone-flip"; "profit-target"; "backtest-end"]%string
                 \/ (t_side t = long /\ In (t_exitReason t) tpReasons))
         (r_trades r).
Proof.
  eexists. split; [vm_compute; reflexivity|].
  split; [reflexivity|].
  apply (trade_exit_reasons isqrt DEFAULT_CONFIG DEFAULT_COSTS trailingStop).
  vm_compute. reflexivity.
Defined.

Lemma trades_enter_and_exit_at_candles_witness :
  exists r : BacktestResult,
    runBacktest isqrt openAtEnd DEFAULT_CONFIG DEFAULT_COSTS = Ok r
    /\ Forall (fun t =>
                 (exists c, In c openAtEnd
                    /\ enteredAt DEFAULT_CONFIG c (t_side t) (t_entryTime t)
                         (t_entryPrice t))
                 /\ (exists c, In c openAtEnd
                       /\ t_exitTime t = timestamp c
                       /\ (In (t_exitReason t)
                             ["zone-flip"; "backtest-end";
                              "tp-time-exit"]%string
                           -> t_exitPrice t = price c)))
         (r_trades r).
Proof.
  eexists. split; [vm_compute; reflexivity|].
  apply (trades_enter_and_exit_at_candles isqrt DEFAULT_CONFIG
           DEFAULT_COSTS openAtEnd).
  vm_compute. reflexivity.
Defined.

Lemma target_and_below_entry_fills_witness :
  exists r : BacktestResult,
    runBacktest isqrt flipAndTarget DEFAULT_CONFIG DEFAULT_COSTS = Ok r
    /\ map t_exitReason (r_trades r)
       = ["zone-flip"; "profit-target"]%string
    /\ Forall (fun t =>
                 (t_exitReason t = "profit-target"%string ->
                  t_exitPrice t
                  = t_entryPrice t
                    * match t_side t with
                      | long =>
                          num 1 + profitTargetPct DEFAULT_CONFIG / num 100
                      | short =>
                          num 1 - profitTargetPct DEFAULT_CONFIG / num 100
                      end
                  /\ t_grossPnlPct t
                     = profitTargetPct DEFAULT_CONFIG
                       * leverage DEFAULT_CONFIG)
                 /\ (t_exitReason t = "tp-below-entry"%string ->
                     t_side t = long
                     /\ t_exitPrice t = t_entryPrice t * dec 999 1000
                     /\ t_grossPnlPct t
                        = - (leverage DEFAULT_CONFIG / num 10)))
         (r_trades r).
Proof.
  eexists. split; [vm_compute; reflexivity|].
  split; [reflexivity|].
  apply (target_and_below_entry_fills isqrt DEFAULT_CONFIG DEFAULT_COSTS
           flipAndTarget).
  vm_compute. reflexivity.
Defined.

(** * The order of the log *)

Lemma StronglySorted_snoc2 (l : list Z) (a b : Z) :
  StronglySorted Z.le l ->
  Forall (fun x => (x <= a)%Z) l ->
  (a <= b)%Z ->
  StronglySorted Z.le (l ++ [a; b]).
Proof.
  intros S F L. induction l as [|x l IH].
  - cbn. repeat constructor. exact L.
  - cbn. apply StronglySorted_inv in S. destruct S as (S & H).
    apply Forall_cons_iff in F. destruct F as (Xa & F).
    constructor; [now apply IH|].
    rewrite Forall_app. split; [exact H|].
    repeat constructor; lia.
Qed.

Lemma timesOf_snoc (l : list Trade) (t : Trade) :
  timesOf (l ++ [t]) = timesOf l ++ [t_entryTime t; t_exitTime t].
Proof. unfold timesOf. rewrite flat_map_app. reflexivity. Qed.

Lemma Forall_le_trans (l : list Z) (a b : Z) :
  Forall (fun x => (x <= a)%Z) l -> (a <= b)%Z ->
  Forall (fun x => (x <= b)%Z) l.
Proof.
  intros F L. eapply Forall_impl; [|exact F]. cbn. intros; lia.
Qed.

Lemma chronInv_mono (now now' : Date) (l : list Trade) (oe : option Date) :
  chronInv now l oe -> (now <= now')%Z -> chronInv now' l oe.
Proof.
  intros (S & F & E) L. split; [exact S|].
  split; [now apply (Forall_le_trans _ now)|].
  intros e X. destruct (E e X). split; [lia | assumption].
Qed.

Lemma chronInv_open (now : Date) (l : list Trade) (oe : option Date) :
  chronInv now l oe -> chronInv now l (Some now).
Proof.
  intros (S & F & E). split; [exact S|]. split; [exact F|].
  intros e X. injection X as <-. split; [lia | exact F].
Qed.

Section Chronology.

Variable config : Config.
Variable costs : Costs.

Lemma chronInv_close (now time : Date) (l : list Trade) (p : Position)
  (x : Qc) (reason_ : string) (t : Trade) (oe : option Date) :
  chronInv now l (Some (entryTime p)) ->
  (now <= time)%Z ->
  closeTrade p x time reason_ config costs = Ok t ->
  (oe = None \/ oe = Some time) ->
  chronInv time (l ++ [t]) oe.
Proof.
  intros (S & F & E) L C O. apply closeTrade_inv in C.
  destruct C as (_ & _ & T & X & _).
  destruct (E _ eq_refl) as (E1 & E2).
  unfold chronInv. rewrite timesOf_snoc, T, X.
  assert (A : Forall (fun y => (y <= time)%Z)
                (timesOf l ++ [entryTime p; time])).
  { rewrite Forall_app. split; [now apply (Forall_le_trans _ now)|].
    repeat constructor; lia. }
  split; [apply StronglySorted_snoc2; auto; lia|].
  split; [exact A|].
  intros e Y. destruct O as [O | O]; rewrite O in Y; [discriminate|].
  injection Y as <-. split; [lia | exact A].
Qed.

Lemma iteration_chronInv (now : Date) (c : Candle) (st st' : LoopState)
  (closed : list Trade) :
  (now <= timestamp c)%Z ->
  iteration config costs c st st' closed ->
  chronInv now (trades st) (option_map entryTime (position st)) ->
  chronInv (timestamp c) (trades st')
    (option_map entryTime (position st')).
Proof.
  intros L It I. rewrite (iteration_trades _ _ _ _ _ _ It).
  destruct It as (ts1 & ts2 & pos1 & -> & F & C & _ & _).
  rewrite app_assoc.
  remember (position st) as pos0 eqn:E0. clear E0.
  remember (position st') as pos2 eqn:E2. clear E2.
  assert (I1 : chronInv (timestamp c) (trades st ++ ts1)
                 (option_map entryTime pos1)).
  { inversion F; subst; rewrite ?app_nil_r.
    - now apply (chronInv_mono now).
    - now apply (chronInv_mono now).
    - cbn. eapply chronInv_open, chronInv_mono; eauto.
    - cbn. eapply chronInv_close; eauto. }
  inversion C; subst; rewrite ?app_nil_r; auto.
  cbn. eapply chronInv_close; eauto. lia.
Qed.

Lemma runLoop_chronInv (priceData : list Candle) (now : Date)
  (st st' : LoopState) :
  Sorted Z.le (now :: map timestamp priceData) ->
  runLoop config costs priceData st = Ok st' ->
  chronInv now (trades st) (option_map entryTime (position st)) ->
  chronInv (last (map timestamp priceData) now) (trades st')
    (option_map entryTime (position st')).
Proof.
  revert now st. induction priceData as [|c rest IH]; intros now st S H I.
  - injection H as <-. exact I.
  - cbn [runLoop] in H. apply bind_Ok in H. destruct H as (s & St & H).
    cbn [map] in S. apply Sorted_inv in S. destruct S as (S & HR).
    apply HdRel_inv in HR.
    apply step_iteration in St. destruct St as (closed & It).
    pose proof (iteration_chronInv now c st s closed HR It I) as I'.
    cbn [map]. rewrite last_cons. apply (IH (timestamp c) s S H I').
Qed.

Lemma timesOf_entry_le_exit (l : list Trade) :
  StronglySorted Z.le (timesOf l) ->
  Forall (fun t => (t_entryTime t <= t_exitTime t)%Z) l.
Proof.
  induction l as [|t l IH]; intros S; [constructor|].
  cbn in S. apply StronglySorted_inv in S. destruct S as (S & F).
  apply StronglySorted_inv in S. destruct S as (S & _).
  apply Forall_cons_iff in F. destruct F as (L & _).
  constructor; [exact L | now apply IH].
Qed.

Lemma runBacktest_chronInv (sqrt : Qc -> Qc) (priceData : list Candle)
  (r : BacktestResult) :
  Sorted Z.le (map timestamp priceData) ->
  runBacktest sqrt priceData config costs = Ok r ->
  StronglySorted Z.le (timesOf (r_trades r)).
Proof.
  intros S H. apply runBacktest_inv in H.
  destruct H as (st & st' & L & C & T & _). rewrite T.
  destruct priceData as [|c0 rest].
  { injection L as <-. injection C as <-. constructor. }
  assert (I : chronInv (last (map timestamp (c0 :: rest)) (timestamp c0))
                (trades st) (option_map entryTime (position st))).
  { apply (runLoop_chronInv (c0 :: rest) (timestamp c0) initialState);
      [|exact L|].
    - constructor; [exact S|]. constructor. cbn. lia.
    - split; [constructor|]. split; [constructor|]. discriminate. }
  apply closeRemaining_inv in C.
  destruct C as [(-> & _) | (p & c & init & t & E & D & C & ->)];
    [apply I|].
  rewrite D, map_app in I. cbn [map] in I. rewrite last_last, E in I.
  cbn [option_map] in I.
  cbn [trades recordTrade].
  apply (chronInv_close (timestamp c) (timestamp c) (trades st) p
           (price c) "backtest-end" t None I); [lia | exact C | now left].
Qed.

(** X8.  On candles in time order the log is in time order too: read in
    sequence, the entry and exit times of the trades never go back, so no
    trade ends before it starts or overlaps the next one, and every duration
    is non-negative. *)
Theorem trade_log_in_time_order (sqrt : Qc -> Qc)
  (priceData : list Candle) (r : BacktestResult) :
  Sorted Z.le (map timestamp priceData) ->
  runBacktest sqrt priceData config costs = Ok r ->
  StronglySorted Z.le (timesOf (r_trades r))
  /\ Forall (fun t => 0 <= t_durationHours t) (r_trades r).
Proof.
  intros S H. pose proof (runBacktest_chronInv sqrt priceData r S H) as C.
  split; [exact C|].
  apply timesOf_entry_le_exit in C.
  assert (D : Forall (fun t => t_durationHours t
                        = num (t_exitTime t - t_entryTime t)
                          / num (1000 * 60 * 60)) (r_trades r)).
  { revert H.
    apply (runBacktest_log config costs (fun _ _ _ => True)); [auto|].
    intros c p t _ _ (reason_ & x & K & _). apply closeTrade_inv in K.
    destruct K as (_ & _ & T & X & _ & _ & _ & _ & K & _).
    now rewrite T, X. }
  rewrite Forall_forall in *. intros t I. rewrite (D t I).
  apply Qcle_div_r; [apply Qc_ltb_lt; reflexivity|].
  rewrite Qcmult_0_l. change 0 with (num 0). apply num_le.
  specialize (C t I). cbn in C. lia.
Qed.

End Chronology.

Lemma trade_log_in_time_order_witness :
  exists r : BacktestResult,
    Sorted Z.le (map timestamp flipAndTarget)
    /\ runBacktest isqrt flipAndTarget DEFAULT_CONFIG DEFAULT_COSTS = Ok r
    /\ StronglySorted Z.le (timesOf (r_trades r))
    /\ Forall (fun t => 0 <= t_durationHours t) (r_trades r).
Proof.
  assert (S : Sorted Z.le (map timestamp flipAndTarget)).
  { repeat constructor; vm_compute; discriminate. }
  eexists. split; [exact S|].
  split; [vm_compute; reflexivity|].
  apply (trade_log_in_time_order DEFAULT_CONFIG DEFAULT_COSTS isqrt
           flipAndTarget); [exact S|].
  vm_compute. reflexivity.
Defined.

(** ** Zone flips and the end of the data *)

Lemma flipsFollowed_pos (l : list Trade) (oe oe' : option Entry) :
  flipsFollowed l oe -> (oe = None \/ oe' = oe) -> flipsFollowed l oe'.
Proof.
  intros F [-> | ->]; [|exact F].
  induction l as [|t rest IH]; [exact I|].
  destruct F as (A & B). split; [|now apply IH].
  intros R. destruct (A R) as (e & N & K). exists e. split; [|exact K].
  destruct rest; [discriminate N | exact N].
Qed.

Lemma exitOf_not_flip (config : Config) (c : Candle) (p : Position)
  (reason_ : string) (x : Qc) :
  exitOf config c p reason_ x ->
  reason_ <> "zone-flip"%string /\ reason_ <> "backtest-end"%string.
Proof. intros []; split; discriminate. Qed.

Section Flips.

Variable config : Config.
Variable costs : Costs.

Lemma flipsFollowed_snoc (l : list Trade) (p : Position) (x : Qc)
  (time : Date) (reason_ : string) (t : Trade) (oe' : option Entry) :
  flipsFollowed l (Some (entryOf p)) ->
  closeTrade p x time reason_ config costs = Ok t ->
  (reason_ = "zone-flip"%string ->
   exists e, oe' = Some e /\ follows t e) ->
  flipsFollowed (l ++ [t]) oe'.
Proof.
  intros F C N. apply closeTrade_inv in C.
  destruct C as (_ & _ & T & _ & XP & _ & S & R & _).
  induction l as [|h rest IH].
  - cbn. split; [|exact I]. rewrite R. exact N.
  - destruct F as (A & B). cbn [app flipsFollowed].
    split; [|now apply IH].
    intros Z. destruct (A Z) as (e & E & K). exists e. split; [|exact K].
    destruct rest as [|h' rest']; [|exact E].
    cbn in *. rewrite S, T, XP. exact E.
Qed.

Lemma iteration_flipInv (c : Candle) (st st' : LoopState)
  (closed : list Trade) :
  iteration config costs c st st' closed ->
  flipInv st -> flipInv st'.
Proof.
  intros It (SI & FI). unfold flipInv.
  rewrite (iteration_trades _ _ _ _ _ _ It).
  destruct It as (ts1 & ts2 & pos1 & -> & F & C & PZ & _).
  rewrite PZ, app_assoc.
  set (zone := getZone (timestamp c) config) in *.
  remember (position st) as pos0 eqn:E0. clear E0.
  remember (position st') as pos2 eqn:E2. clear E2.
  remember (previousZone st) as pz0 eqn:E1. clear E1.
  assert (I1 : (forall p, pos1 = Some p -> side p = zone)
               /\ flipsFollowed (trades st ++ ts1)
                    (option_map entryOf pos1)).
  { inversion F; subst; rewrite ?app_nil_r.
    - split; [|exact FI]. intros p E. specialize (SI p E). discriminate.
    - split; [|exact FI]. intros p E. specialize (SI p E). congruence.
    - split; [intros p E; now injection E as <-|].
      apply (flipsFollowed_pos _ None); auto.
    - split; [intros p' E; now injection E as <-|].
      eapply flipsFollowed_snoc; [exact FI | eassumption |].
      intros _. eexists. split; [reflexivity|].
      match goal with
      | K : closeTrade _ _ _ _ _ _ = Ok _ |- _ =>
          apply closeTrade_inv in K;
          destruct K as (_ & _ & _ & XT & _ & X & S & _)
      end.
      cbn. rewrite XT, X, S. repeat split.
      specialize (SI p eq_refl). congruence. }
  destruct I1 as (S1 & F1).
  inversion C; subst; rewrite ?app_nil_r.
  - split; [|exact F1]. intros p E. f_equal. symmetry. now apply S1.
  - split; [|exact F1]. intros p' E. injection E as <-. f_equal.
    symmetry. change (side p = zone). now apply S1.
  - split; [|exact F1]. intros p' E. injection E as <-. f_equal.
    symmetry. change (side p = zone). now apply S1.
  - split; [discriminate|].
    eapply flipsFollowed_snoc; [exact F1 | eassumption |].
    intros Z.
    match goal with
    | K : exitOf _ _ _ _ _ |- _ => apply exitOf_not_flip in K; tauto
    end.
Qed.

Lemma runLoop_flipInv (priceData : list Candle) (st st' : LoopState) :
  runLoop config costs priceData st = Ok st' ->
  flipInv st -> flipInv st'.
Proof.
  revert st. induction priceData as [|c rest IH]; intros st H I.
  - injection H as <-. exact I.
  - cbn [runLoop] in H. apply bind_Ok in H. destruct H as (s & St & H).
    apply step_iteration in St. destruct St as (closed & It).
    apply (IH s H). eapply iteration_flipInv; eassumption.
Qed.

Lemma flipsFollowed_split (l1 l2 : list Trade) (t : Trade) :
  flipsFollowed (l1 ++ t :: l2) None ->
  t_exitReason t = "zone-flip"%string ->
  exists t' l3,
    l2 = t' :: l3
    /\ follows t (t_side t', t_entryTime t', t_entryPrice t').
Proof.
  induction l1 as [|h l1 IH]; intros F R.
  - destruct F as (A & _). destruct (A R) as (e & N & K).
    destruct l2 as [|t' l3]; [discriminate N|].
    injection N as <-. exists t', l3. auto.
  - destruct F as (_ & B). now apply IH.
Qed.

(** X9.  A position closed by a zone flip is replaced at once: every
    [zone-flip] trade of the log is followed by a trade entered at the flip's
    exit time and exit price, on the other side. A [zone-flip] trade is never
    the last of the log. *)
Theorem zone_flip_is_followed (sqrt : Qc -> Qc) (priceData : list Candle)
  (r : BacktestResult) (l1 l2 : list Trade) (t : Trade) :
  runBacktest sqrt priceData config costs = Ok r ->
  r_trades r = l1 ++ t :: l2 ->
  t_exitReason t = "zone-flip"%string ->
  exists t' l3,
    l2 = t' :: l3
    /\ t_entryTime t' = t_exitTime t
    /\ t_entryPrice t' = t_exitPrice t
    /\ t_side t' <> t_side t.
Proof.
  intros H E R. apply runBacktest_inv in H.
  destruct H as (st & st' & L & C & T & _).
  assert (I : flipInv st).
  { apply (runLoop_flipInv priceData initialState st L).
    split; [discriminate | exact I]. }
  destruct I as (_ & F).
  assert (F' : flipsFollowed (trades st') None).
  { apply closeRemaining_inv in C.
    destruct C as [(-> & [P | ->]) | (p & c & init & t0 & P & D & C & ->)].
    - now rewrite P in F.
    - injection L as <-. exact I.
    - rewrite P in F. cbn [trades recordTrade].
      eapply flipsFollowed_snoc; [exact F | exact C | discriminate]. }
  rewrite <- T, E in F'.
  destruct (flipsFollowed_split l1 l2 t F' R) as (t' & l3 & -> & K).
  exists t', l3. split; [reflexivity | exact K].
Qed.

(** X10.  A [backtest-end] trade can only be the last of the log, and it is
    filled at the close of the last candle of the input. *)
Theorem backtest_end_is_last (sqrt : Qc -> Qc) (priceData : list Candle)
  (r : BacktestResult) (l1 l2 : list Trade) (t : Trade) :
  runBacktest sqrt priceData config costs = Ok r ->
  r_trades r = l1 ++ t :: l2 ->
  t_exitReason t = "backtest-end"%string ->
  l2 = []
  /\ exists init c,
       priceData = init ++ [c]
       /\ t_exitTime t = timestamp c
       /\ t_exitPrice t = price c.
Proof.
  intros H E R. apply runBacktest_inv in H.
  destruct H as (st & st' & L & C & T & _).
  assert (I : logInv (fun _ _ _ => True)
                (fun t => t_exitReason t <> "backtest-end"%string) st).
  { apply (runLoop_logInv config costs (fun _ _ _ => True)
             (fun t => t_exitReason t <> "backtest-end"%string) priceData)
      with (rest := priceData) (st := initialState); auto.
    - intros c p t0 _ _ (reason_ & x & K & W).
      apply closeTrade_inv in K.
      destruct K as (_ & _ & _ & _ & _ & _ & _ & K & _). rewrite K.
      destruct W as [(-> & _) | W]; [discriminate|].
      now apply exitOf_not_flip in W.
    - apply incl_refl.
    - split; [auto | constructor]. }
  destruct I as (_ & F). rewrite T in E.
  apply closeRemaining_inv in C.
  destruct C as [(-> & _) | (p & c & init & t0 & P & D & C & ->)].
  - rewrite E, Forall_app in F. destruct F as (_ & F).
    apply Forall_cons_iff in F. destruct F as (F & _). contradiction.
  - cbn [trades recordTrade] in E.
    assert (X : l2 = [] /\ t = t0).
    { destruct l2 as [|t2 l2] using rev_ind.
      - apply app_inj_tail in E. destruct E as (_ & <-). auto.
      - clear IHl2. rewrite app_comm_cons, app_assoc in E.
        apply app_inj_tail in E. destruct E as (E & _).
        rewrite E, Forall_app in F. destruct F as (_ & F).
        apply Forall_cons_iff in F. destruct F as (F & _). contradiction. }
    destruct X as (-> & ->). split; [reflexivity|].
    exists init, c. apply closeTrade_inv in C.
    destruct C as (_ & _ & _ & XT & _ & X & _). auto.
Qed.

End Flips.

Lemma zone_flip_is_followed_witness :
  exists (r : BacktestResult) (t t' : Trade),
    runBacktest isqrt flipAndTarget DEFAULT_CONFIG DEFAULT_COSTS = Ok r
    /\ r_trades r = [] ++ t :: [t']
    /\ t_exitReason t = "zone-flip"%string
    /\ exists t'' l3,
         [t'] = t'' :: l3
         /\ t_entryTime t'' = t_exitTime t
         /\ t_entryPrice t'' = t_exitPrice t
         /\ t_side t'' <> t_side t.
Proof.
  do 3 eexists. split; [vm_compute; reflexivity|].
  split; [reflexivity|]. split; [reflexivity|].
  eapply (zone_flip_is_followed DEFAULT_CONFIG DEFAULT_COSTS isqrt
            flipAndTarget _ []).
  - vm_compute. reflexivity.
  - reflexivity.
  - reflexivity.
Defined.

Lemma backtest_end_is_last_witness :
  exists (r : BacktestResult) (t : Trade),
    runBacktest isqrt openAtEnd DEFAULT_CONFIG DEFAULT_COSTS = Ok r
    /\ r_trades r = [] ++ t :: []
    /\ t_exitReason t = "backtest-end"%string
    /\ exists init c,
         openAtEnd = init ++ [c]
         /\ t_exitTime t = timestamp c
         /\ t_exitPrice t = price c.
Proof.
  do 2 eexists. split; [vm_compute; reflexivity|].
  split; [reflexivity|]. split; [reflexivity|].
  eapply (backtest_end_is_last DEFAULT_CONFIG DEFAULT_COSTS isqrt
            openAtEnd _ [] []).
  - vm_compute. reflexivity.
  - reflexivity.
  - reflexivity.
Defined.

(** * The report *)

Lemma closeTrade_costs (p : Position) (x : Qc) (time : Date)
  (reason_ : string) (config : Config) (costs : Costs) (t : Trade) :
  closeTrade p x time reason_ config costs = Ok t ->
  feesPct (t_costs t) = num 2 * takerFeeBps costs / num 100
  /\ slippagePct (t_costs t) = num 2 * slippageBps costs / num 100
  /\ fundingPct (t_costs t)
     = num (fundingPeriods (t_costs t)) * (avgFundingRateBps costs / num 100)
       * match t_side t with long => num 1 | short => num (-1) end
  /\ totalCostPct (t_costs t)
     = feesPct (t_costs t) + slippagePct (t_costs t) + fundingPct (t_costs t)
  /\ leveragedCostPct (t_costs t) = totalCostPct (t_costs t) * leverage config
  /\ t_netPnlPct t = t_grossPnlPct t - leveragedCostPct (t_costs t).
Proof.
  unfold closeTrade, calcNetPnl, calcTradingCosts. intros H.
  apply bind_Ok in H. destruct H as (np & H & E). injection E as <-.
  apply bind_Ok in H. destruct H as (g & _ & H).
  apply bind_Ok in H. destruct H as (tc & H & E). injection E as <-.
  apply bind_Ok in H. destruct H as (q & _ & E). injection E as <-.
  cbn. rewrite !double_div. repeat split.
Qed.

Section Report.

Variable sqrt : Qc -> Qc.
Variable config : Config.
Variable costs : Costs.

Lemma calculateStats_inv (trades_ : list Trade) (finalEquity dd : Qc)
  (tc : TotalCosts) (r : BacktestResult) :
  calculateStats sqrt trades_ finalEquity dd config costs tc = Ok r ->
  let winning := filter (fun t => t_netPnlPct t >? num 0) trades_ in
  let losing := filter (fun t => t_netPnlPct t <=? num 0) trades_ in
  r_trades r = trades_
  /\ netPnlPct r = finalEquity - num 100
  /\ grossPnlPct r = sumOf t_grossPnlPct trades_
  /\ maxDrawdownPct r = dd
  /\ (if len trades_ >? num 0
      then q <- div (len winning) (len trades_) ;; Ok (q * num 100)
      else Ok (num 0)) = Ok (winRate r)
  /\ totalTrades (stats r) = List.length trades_
  /\ winningTrades (stats r) = List.length winning
  /\ losingTrades (stats r) = List.length losing
  /\ guardedDiv (len winning >? num 0) (sumOf t_netPnlPct winning)
       (len winning) = Ok (avgWin (stats r))
  /\ guardedDiv (len losing >? num 0) (sumOf t_netPnlPct losing)
       (len losing) = Ok (avgLoss (stats r))
  /\ sideStats (filter (fun t => Side_eqb (t_side t) long) trades_)
     = Ok (longStats (stats r))
  /\ sideStats (filter (fun t => Side_eqb (t_side t) short) trades_)
     = Ok (shortStats (stats r))
  /\ byExitReason (stats r) = fold_left (fun m t => tally t m) trades_ []
  /\ st_totalCosts (stats r) = tc.
Proof.
  unfold calculateStats. intros H.
  apply bind_Ok in H. destruct H as (s & _ & H).
  apply bind_Ok in H. destruct H as (wr & WR & H).
  apply bind_Ok in H. destruct H as (aw & AW & H).
  apply bind_Ok in H. destruct H as (al & AL & H).
  apply bind_Ok in H. destruct H as (ad & _ & H).
  apply bind_Ok in H. destruct H as (ls & LS & H).
  apply bind_Ok in H. destruct H as (ss & SS & H).
  injection H as <-. cbn. repeat split; assumption.
Qed.

Lemma runBacktest_booked (priceData : list Candle) (r : BacktestResult) :
  runBacktest sqrt priceData config costs = Ok r ->
  exists st',
    calculateStats sqrt (trades st') (equity st') (maxDrawdown st') config
      costs (totalCosts st') = Ok r
    /\ booked config initialState st' (trades st').
Proof.
  unfold runBacktest. intros H.
  apply bind_Ok in H. destruct H as (st & L & H).
  apply bind_Ok in H. destruct H as (st' & C & H).
  exists st'. split; [exact H|]. clear H.
  assert (B : booked config initialState st (trades st)).
  { clear C. 
    assert (G : forall data s s', runLoop config costs data s = Ok s' ->
                  exists closed, booked config s s' closed).
    { induction data as [|c rest IH]; intros s s' R.
      - injection R as <-. exists []. repeat split.
      - cbn [runLoop] in R. apply bind_Ok in R. destruct R as (s1 & St & R).
        apply step_iteration in St. destruct St as (cl1 & It).
        destruct It as (? & ? & ? & _ & _ & _ & _ & B1).
        destruct (IH _ _ R) as (cl2 & B2). exists (cl1 ++ cl2).
        eapply booked_app; eassumption. }
    destruct (G _ _ _ L) as (closed & B).
    assert (T : trades st = closed).
    { destruct B as (T & _). rewrite T, fold_recordTrade_trades.
      reflexivity. }
    now rewrite T. }
  apply closeRemaining_inv in C.
  destruct C as [(-> & _) | (p & c & init & t & _ & _ & _ & ->)];
    [exact B|].
  cbn [trades recordTrade].
  apply (booked_app config initialState st); [exact B|]. repeat split.
Qed.

Lemma fold_recordTrade_costs (closed : list Trade) (st : LoopState) :
  let b := fold_left (recordTrade config) closed st in
  fees (totalCosts b)
  = fees (totalCosts st)
    + total (map (fun t => feesPct (t_costs t) * leverage config) closed)
  /\ slippage (totalCosts b)
     = slippage (totalCosts st)
       + total (map (fun t => slippagePct (t_costs t) * leverage config)
                  closed)
  /\ funding (totalCosts b)
     = funding (totalCosts st)
       + total (map (fun t => fundingPct (t_costs t) * leverage config)
                  closed).
Proof.
  revert st. induction closed as [|t ts IH]; intros st.
  - cbn. repeat split; ring.
  - cbn [fold_left map total]. destruct (IH (recordTrade config st t))
      as (A & B & C).
    cbn zeta. rewrite A, B, C. cbn [totalCosts recordTrade fees slippage
                                    funding].
    repeat split; ring.
Qed.

Lemma total_const (A : Type) (f : A -> Qc) (k : Qc) (l : list A) :
  Forall (fun t => f t = k) l -> total (map f l) = len l * k.
Proof.
  unfold len. induction l as [|x l IH]; intros F.
  - cbn. rewrite num_0. ring.
  - apply Forall_cons_iff in F. destruct F as (X & F).
    cbn [map total List.length]. rewrite (IH F), X, Nat2Z.inj_succ.
    unfold Z.succ. rewrite num_plus, num_1. ring.
Qed.

Lemma total_plus (A : Type) (f g h : A -> Qc) (l : list A) :
  Forall (fun t => f t = g t - h t) l ->
  total (map f l) = total (map g l) - total (map h l).
Proof.
  induction l as [|x l IH]; intros F.
  - cbn. ring.
  - apply Forall_cons_iff in F. destruct F as (X & F).
    cbn [map total]. rewrite (IH F), X. ring.
Qed.

(** X11.  The three totals of the report add up: the net PnL is the gross PnL
    less the fees, the slippage and the funding booked over the run. Fees and
    slippage are the same for every trade, so their totals are the number of
    trades times the round-trip charge at the configured leverage. *)
Theorem report_net_is_gross_less_costs (priceData : list Candle)
  (r : BacktestResult) :
  runBacktest sqrt priceData config costs = Ok r ->
  let tc := st_totalCosts (stats r) in
  netPnlPct r = grossPnlPct r - (fees tc + slippage tc + funding tc)
  /\ fees tc
     = len (r_trades r)
       * (num 2 * takerFeeBps costs / num 100 * leverage config)
  /\ slippage tc
     = len (r_trades r)
       * (num 2 * slippageBps costs / num 100 * leverage config).
Proof.
  intros H.
  assert (F : Forall (fun t =>
                feesPct (t_costs t) = num 2 * takerFeeBps costs / num 100
                /\ slippagePct (t_costs t)
                   = num 2 * slippageBps costs / num 100
                /\ t_netPnlPct t
                   = t_grossPnlPct t
                     - (feesPct (t_costs t) * leverage config
                        + slippagePct (t_costs t) * leverage config
                        + fundingPct (t_costs t) * leverage config))
               (r_trades r)).
  { revert H.
    apply (runBacktest_log config costs (fun _ _ _ => True)); [auto|].
    intros c p t _ _ (reason_ & x & K & _). apply closeTrade_costs in K.
    destruct K as (A & B & _ & D & E & G).
    split; [exact A|]. split; [exact B|]. rewrite G, E, D. ring. }
  pose proof (runBacktest_extends config costs sqrt priceData r H)
    as (N & _).
  apply runBacktest_booked in H. destruct H as (st' & H & (_ & _ & TC)).
  apply calculateStats_inv in H. cbn zeta in H.
  destruct H as (T & _ & G & _ & _ & _ & _ & _ & _ & _ & _ & _ & _ & S).
  cbn zeta. rewrite S, TC.
  destruct (fold_recordTrade_costs (trades st') initialState)
    as (A & B & C). cbn zeta in A, B, C.
  rewrite A, B, C, N, G, sumOf_total, T.
  cbn [totalCosts initialState fees slippage funding].
  rewrite T in F. split; [|split].
  - rewrite (total_plus _ t_netPnlPct t_grossPnlPct
               (fun t => feesPct (t_costs t) * leverage config
                         + slippagePct (t_costs t) * leverage config
                         + fundingPct (t_costs t) * leverage config)).
    2:{ eapply Forall_impl; [|exact F]. cbn. tauto. }
    assert (X : forall l : list Trade,
              total (map (fun t => feesPct (t_costs t) * leverage config
                         + slippagePct (t_costs t) * leverage config
                         + fundingPct (t_costs t) * leverage config) l)
              = total (map (fun t => feesPct (t_costs t) * leverage config)
                         l)
                + total (map (fun t => slippagePct (t_costs t)
                                       * leverage config) l)
                + total (map (fun t => fundingPct (t_costs t)
                                       * leverage config) l)).
    { induction l as [|y l IH]; cbn [map total]; [ring|].
      rewrite IH. ring. }
    rewrite X, num_0. ring.
  - rewrite num_0, Qcplus_0_l. apply total_const.
    eapply Forall_impl; [|exact F]. cbn. intros t (-> & _). reflexivity.
  - rewrite num_0, Qcplus_0_l. apply total_const.
    eapply Forall_impl; [|exact F]. cbn. intros t (_ & -> & _).
    reflexivity.
Qed.

End Report.

Lemma report_net_is_gross_less_costs_witness :
  exists r : BacktestResult,
    runBacktest isqrt flipAndTarget DEFAULT_CONFIG DEFAULT_COSTS = Ok r
    /\ netPnlPct r
       = grossPnlPct r
         - (fees (st_totalCosts (stats r))
            + slippage (st_totalCosts (stats r))
            + funding (st_totalCosts (stats r))).
Proof.
  eexists. split; [vm_compute; reflexivity|].
  apply (report_net_is_gross_less_costs isqrt DEFAULT_CONFIG DEFAULT_COSTS
           flipAndTarget).
  vm_compute. reflexivity.
Defined.

(** ** The statistics *)

Lemma Qc_leb_negb (x y : Qc) : (x <=? y) = negb (y <? x).
Proof.
  destruct (y <? x) eqn:E.
  - apply Qc_ltb_lt in E. now apply Qc_leb_gt.
  - apply Qc_ltb_ge in E. now apply Qc_leb_le.
Qed.

Lemma Side_eqb_short (s : Side) : Side_eqb s short = negb (Side_eqb s long).
Proof. now destruct s. Qed.

Lemma filter_split_length (A : Type) (f g : A -> bool) (l : list A) :
  (forall x, g x = negb (f x)) ->
  (List.length (filter f l) + List.length (filter g l))%nat = List.length l.
Proof.
  intros E. induction l as [|x l IH]; [reflexivity|].
  cbn [filter]. rewrite (E x). destruct (f x); cbn [negb List.length]; lia.
Qed.

Lemma filter_split_total (A : Type) (f g : A -> bool) (h : A -> Qc)
  (l : list A) :
  (forall x, g x = negb (f x)) ->
  total (map h (filter f l)) + total (map h (filter g l)) = total (map h l).
Proof.
  intros E. induction l as [|x l IH]; [cbn; ring|].
  cbn [filter]. rewrite (E x).
  destruct (f x); cbn [negb map total]; rewrite <- IH; ring.
Qed.

Lemma Qcdiv_le_l (t a e : Qc) : 0 < e -> (a / e <= t <-> a <= t * e).
Proof.
  intros P. pose proof (pos_neq_0 _ P) as N. split; intros H.
  - rewrite <- (Qcdiv_mult_cancel a e N).
    apply Qcmult_le_compat_r; [exact H | now apply Qclt_le_weak].
  - apply (Qcmult_lt_0_le_reg_r _ _ e P).
    now rewrite (Qcdiv_mult_cancel a e N).
Qed.

Lemma len_pos (A : Type) (l : list A) :
  (len l >? num 0) = true -> 0 < len l.
Proof. intros H. apply Qc_ltb_lt in H. now rewrite num_0 in H. Qed.

Lemma len_zero (A : Type) (l : list A) :
  (len l >? num 0) = false -> l = [].
Proof.
  rewrite len_length. intros H. apply Z.ltb_ge in H.
  destruct l; [reflexivity | cbn in H; lia].
Qed.

Lemma len_filter_le (A : Type) (f : A -> bool) (l : list A) :
  len (filter f l) <= len l.
Proof.
  unfold len. apply num_le. pose proof (filter_length_le f l). lia.
Qed.

Lemma len_nonneg (A : Type) (l : list A) : 0 <= len l.
Proof. unfold len. change 0 with (num 0). apply num_le. lia. Qed.

Lemma total_filter_sign (l : list Trade) :
  0 <= total (map t_netPnlPct (filter (fun t => t_netPnlPct t >? num 0) l))
  /\ total (map t_netPnlPct (filter (fun t => t_netPnlPct t <=? num 0) l))
     <= 0.
Proof.
  induction l as [|x l (A & B)]; [split; apply Qcle_refl|].
  cbn [filter]. rewrite Qc_leb_negb.
  destruct (t_netPnlPct x >? num 0) eqn:E; cbn [negb map total].
  - split; [|exact B]. apply Qc_ltb_lt in E. rewrite num_0 in E.
    replace 0 with (0 + 0) by ring.
    apply Qcplus_le_compat; [now apply Qclt_le_weak | exact A].
  - split; [exact A|]. apply Qc_ltb_ge in E. rewrite num_0 in E.
    replace 0 with (0 + 0) by ring.
    now apply Qcplus_le_compat.
Qed.

Lemma guardedDiv_mean (A : Type) (l : list A) (s q : Qc) :
  (l = [] -> s = 0) ->
  guardedDiv (len l >? num 0) s (len l) = Ok q ->
  q * len l = s /\ (0 <= s -> 0 <= q) /\ (s <= 0 -> q <= 0).
Proof.
  unfold guardedDiv. intros Z H. destruct (len l >? num 0) eqn:G.
  - apply div_inv in H. destruct H as (N & ->).
    apply len_pos in G. split; [now apply Qcdiv_mult_cancel|].
    split; intros S.
    + apply Qcle_div_r; [exact G|]. now rewrite Qcmult_0_l.
    + apply Qcdiv_le_l; [exact G|]. now rewrite Qcmult_0_l.
  - injection H as <-. apply len_zero in G. rewrite (Z G), num_0.
    split; [ring|]. split; intros _; apply Qcle_refl.
Qed.

Section Statistics.

Variable sqrt : Qc -> Qc.

(** X12.  [calculateStats] never fails, whatever the log, and its counts fit
    together: every trade is either a winner (net PnL above zero) or a loser,
    and either a long or a short; the win rate is the share of winners in per
    cent, between 0 and 100; the average win is not negative, the average loss
    not positive, and the two averages weighted by their counts add up to the
    sum of the trades' net PnL. *)
Theorem calculateStats_counts (trades_ : list Trade)
  (finalEquity maxDrawdown_ : Qc) (config : Config) (costs : Costs)
  (totalCosts_ : TotalCosts) :
  exists r : BacktestResult,
    calculateStats sqrt trades_ finalEquity maxDrawdown_ config costs
      totalCosts_ = Ok r
    /\ let s := stats r in
       totalTrades s = List.length trades_
       /\ (winningTrades s + losingTrades s)%nat = totalTrades s
       /\ (ss_count (longStats s) + ss_count (shortStats s))%nat
          = totalTrades s
       /\ winRate r * num (Z.of_nat (totalTrades s))
          = num 100 * num (Z.of_nat (winningTrades s))
       /\ 0 <= winRate r /\ winRate r <= num 100
       /\ 0 <= avgWin s /\ avgLoss s <= 0
       /\ avgWin s * num (Z.of_nat (winningTrades s))
          + avgLoss s * num (Z.of_nat (losingTrades s))
          = sumOf t_netPnlPct trades_.
Proof.
  destruct (calculateStats_total sqrt trades_ finalEquity maxDrawdown_
              config costs totalCosts_) as (r & s0 & H & _).
  exists r. split; [exact H|].
  apply calculateStats_inv in H. cbn zeta in H.
  destruct H as (_ & _ & _ & _ & WR & TT & WT & LT & AW & AL & LS & SS & _).
  cbn zeta. rewrite TT, WT, LT.
  set (winning := filter (fun t => t_netPnlPct t >? num 0) trades_) in *.
  set (losing := filter (fun t => t_netPnlPct t <=? num 0) trades_) in *.
  split; [reflexivity|].
  split.
  { apply filter_split_length. intros x. apply Qc_leb_negb. }
  split.
  { unfold sideStats in LS, SS.
    apply bind_Ok in LS. destruct LS as (? & _ & LS). injection LS as <-.
    apply bind_Ok in SS. destruct SS as (? & _ & SS). injection SS as <-.
    cbn [ss_count]. apply filter_split_length. intros t.
    apply Side_eqb_short. }
  assert (W : winRate r * len trades_ = num 100 * len winning
              /\ 0 <= winRate r /\ winRate r <= num 100).
  { destruct (len trades_ >? num 0) eqn:G.
    - apply bind_Ok in WR. destruct WR as (q & Q & WR).
      injection WR as <-. apply div_inv in Q. destruct Q as (N & ->).
      apply len_pos in G.
      assert (C : 0 < num 100) by (apply Qc_ltb_lt; reflexivity).
      split; [field; exact N|]. split.
      + rewrite <- (Qcmult_0_l (num 100)) at 1.
        apply Qcmult_le_compat_r; [|now apply Qclt_le_weak].
        apply Qcle_div_r; [exact G|]. rewrite Qcmult_0_l.
        apply len_nonneg.
      + rewrite <- (Qcmult_1_l (num 100)) at 2.
        apply Qcmult_le_compat_r; [|now apply Qclt_le_weak].
        apply Qcdiv_le_l; [exact G|]. rewrite Qcmult_1_l.
        apply len_filter_le.
    - injection WR as <-. apply len_zero in G. subst trades_.
      split; [cbn; unfold len; cbn; rewrite num_0; ring|].
      rewrite num_0. split; [apply Qcle_refl|].
      apply Qc_leb_le. reflexivity. }
  destruct W as (W1 & W2 & W3).
  split; [exact W1|]. split; [exact W2|]. split; [exact W3|].
  destruct (total_filter_sign trades_) as (SW & SL).
  fold winning in SW. fold losing in SL.
  apply guardedDiv_mean in AW; [|intros ->; rewrite sumOf_total; reflexivity].
  apply guardedDiv_mean in AL; [|intros ->; rewrite sumOf_total; reflexivity].
  rewrite sumOf_total in AW, AL.
  destruct AW as (AW1 & AW2 & _). destruct AL as (AL1 & _ & AL2).
  split; [now apply AW2|]. split; [now apply AL2|].
  fold (len winning). fold (len losing). rewrite AW1, AL1, sumOf_total.
  apply filter_split_total. intros x. apply Qc_leb_negb.
Qed.

End Statistics.

(** ** The breakdown by side and by exit reason *)

Lemma lookupReason_tally (k : string) (t : Trade)
  (m : list (string * ReasonStats)) :
  lookupReason k (tally t m)
  = if String.eqb (t_exitReason t) k
    then Some (tallied match lookupReason k m with
                       | Some v => v
                       | None => emptyReason
                       end [t])
    else lookupReason k m.
Proof.
  assert (T : forall v, {| rs_count := (rs_count v + 1)%Z;
                           rs_grossPnl := rs_grossPnl v + t_grossPnlPct t;
                           rs_netPnl := rs_netPnl v + t_netPnlPct t |}
                        = tallied v [t]).
  { intros v. unfold tallied. cbn [List.length map total]. f_equal; ring. }
  induction m as [|(k' & v) m IH].
  - cbn [tally lookupReason].
    destruct (String.eqb (t_exitReason t) k); [|reflexivity].
    f_equal. exact (T emptyReason).
  - cbn [tally lookupReason].
    destruct (String.eqb k' (t_exitReason t)) eqn:E.
    + apply String.eqb_eq in E. subst k'. cbn [lookupReason].
      destruct (String.eqb (t_exitReason t) k); [|reflexivity].
      f_equal. exact (T v).
    + cbn [lookupReason]. destruct (String.eqb k' k) eqn:E'.
      * apply String.eqb_eq in E'. subst k'.
        rewrite String.eqb_sym, E. reflexivity.
      * exact IH.
Qed.

Lemma tally_keys (t : Trade) (m : list (string * ReasonStats)) :
  NoDup (map fst m) ->
  NoDup (map fst (tally t m))
  /\ (forall k, In k (map fst (tally t m))
                <-> k = t_exitReason t \/ In k (map fst m)).
Proof.
  induction m as [|(k' & v) m IH]; intros N.
  - cbn. split; [repeat constructor; auto|]. intros k. intuition.
  - cbn [tally]. destruct (String.eqb k' (t_exitReason t)) eqn:E.
    + apply String.eqb_eq in E. subst k'. cbn [map fst] in *.
      split; [exact N|]. intros k. cbn. intuition.
    + cbn [map fst] in *. apply NoDup_cons_iff in N. destruct N as (X & N).
      destruct (IH N) as (A & B). split.
      * constructor; [|exact A]. intros I. apply B in I.
        destruct I as [-> | I]; [|contradiction].
        rewrite String.eqb_refl in E. discriminate.
      * intros k. cbn. rewrite B. intuition.
Qed.

Lemma tallied_app (v : ReasonStats) (a b : list Trade) :
  tallied (tallied v a) b = tallied v (a ++ b).
Proof.
  unfold tallied. cbn [rs_count rs_grossPnl rs_netPnl].
  rewrite !map_app, !total_app, length_app, Nat2Z.inj_add.
  f_equal; [lia | ring | ring].
Qed.

Lemma lookupReason_fold (k : string) (l : list Trade)
  (m : list (string * ReasonStats)) :
  lookupReason k (fold_left (fun m t => tally t m) l m)
  = match withReason k l with
    | [] => lookupReason k m
    | sel => Some (tallied match lookupReason k m with
                           | Some v => v
                           | None => emptyReason
                           end sel)
    end.
Proof.
  revert m. induction l as [|t l IH]; intros m; [reflexivity|].
  cbn [fold_left]. rewrite IH, lookupReason_tally.
  unfold withReason. cbn [filter]. fold (withReason k l).
  destruct (String.eqb (t_exitReason t) k); [|reflexivity].
  destruct (withReason k l) as [|t' sel]; [reflexivity|].
  now rewrite tallied_app.
Qed.

Lemma fold_tally_keys (l : list Trade) (m : list (string * ReasonStats)) :
  NoDup (map fst m) ->
  NoDup (map fst (fold_left (fun m t => tally t m) l m)).
Proof.
  revert m. induction l as [|t l IH]; intros m N; [exact N|].
  cbn [fold_left]. apply IH. now apply tally_keys.
Qed.

Section Breakdown.

Variable sqrt : Qc -> Qc.
Variable config : Config.
Variable costs : Costs.

(** X13.  The report's breakdown by exit reason has one entry for each reason
    that occurs in the log and none for the others; the entry of a reason
    holds the number of the trades closed for it and the sums of their gross
    and net PnL. *)
Theorem byExitReason_tallies_the_log (priceData : list Candle)
  (r : BacktestResult) (k : string) :
  runBacktest sqrt priceData config costs = Ok r ->
  NoDup (map fst (byExitReason (stats r)))
  /\ lookupReason k (byExitReason (stats r))
     = match withReason k (r_trades r) with
       | [] => None
       | sel =>
           Some {| rs_count := Z.of_nat (List.length sel);
                   rs_grossPnl := sumOf t_grossPnlPct sel;
                   rs_netPnl := sumOf t_netPnlPct sel |}
       end.
Proof.
  intros H. apply runBacktest_booked in H. destruct H as (st' & H & _).
  apply calculateStats_inv in H. cbn zeta in H.
  destruct H as (T & _ & _ & _ & _ & _ & _ & _ & _ & _ & _ & _ & B & _).
  rewrite B, T. split; [apply fold_tally_keys; constructor|].
  rewrite lookupReason_fold. cbn [lookupReason].
  destruct (withReason k (trades st')) as [|t sel]; [reflexivity|].
  unfold tallied, emptyReason. cbn [rs_count rs_grossPnl rs_netPnl].
  rewrite !sumOf_total. f_equal. f_equal; rewrite ?num_0; ring.
Qed.

(** X14.  The long and the short half of the report add up to its totals, in
    number of trades, in gross PnL and in net PnL. *)
Theorem report_splits_by_side (priceData : list Candle)
  (r : BacktestResult) :
  runBacktest sqrt priceData config costs = Ok r ->
  let s := stats r in
  (ss_count (longStats s) + ss_count (shortStats s))%nat
  = List.length (r_trades r)
  /\ ss_grossPnl (longStats s) + ss_grossPnl (shortStats s) = grossPnlPct r
  /\ ss_netPnl (longStats s) + ss_netPnl (shortStats s) = netPnlPct r.
Proof.
  intros H.
  pose proof (runBacktest_extends config costs sqrt priceData r H)
    as (N & _).
  apply runBacktest_booked in H. destruct H as (st' & H & _).
  apply calculateStats_inv in H. cbn zeta in H.
  destruct H as (T & _ & G & _ & _ & _ & _ & _ & _ & _ & LS & SS & _).
  unfold sideStats in LS, SS.
  apply bind_Ok in LS. destruct LS as (? & _ & LS).
  apply bind_Ok in SS. destruct SS as (? & _ & SS).
  cbn zeta. rewrite N, G, T.
  injection LS as <-. injection SS as <-.
  cbn [ss_count ss_grossPnl ss_netPnl]. rewrite !sumOf_total.
  split; [apply filter_split_length; intros t; apply Side_eqb_short|].
  split; apply filter_split_total; intros t; apply Side_eqb_short.
Qed.

End Breakdown.

Lemma byExitReason_tallies_the_log_witness :
  exists r : BacktestResult,
    runBacktest isqrt flipAndTarget DEFAULT_CONFIG DEFAULT_COSTS = Ok r
    /\ map fst (byExitReason (stats r))
       = ["zone-flip"; "profit-target"]%string
    /\ NoDup (map fst (byExitReason (stats r)))
    /\ lookupReason "zone-flip" (byExitReason (stats r))
       = match withReason "zone-flip" (r_trades r) with
         | [] => None
         | sel =>
             Some {| rs_count := Z.of_nat (List.length sel);
                     rs_grossPnl := sumOf t_grossPnlPct sel;
                     rs_netPnl := sumOf t_netPnlPct sel |}
         end.
Proof.
  eexists. split; [vm_compute; reflexivity|].
  split; [reflexivity|].
  apply (byExitReason_tallies_the_log isqrt DEFAULT_CONFIG DEFAULT_COSTS
           flipAndTarget).
  vm_compute. reflexivity.
Defined.

Lemma report_splits_by_side_witness :
  exists r : BacktestResult,
    runBacktest isqrt flipAndTarget DEFAULT_CONFIG DEFAULT_COSTS = Ok r
    /\ (ss_count (longStats (stats r))
        + ss_count (shortStats (stats r)))%nat
       = List.length (r_trades r)
    /\ ss_grossPnl (longStats (stats r))
       + ss_grossPnl (shortStats (stats r)) = grossPnlPct r
    /\ ss_netPnl (longStats (stats r))
       + ss_netPnl (shortStats (stats r)) = netPnlPct r.
Proof.
  eexists. split; [vm_compute; reflexivity|].
  apply (report_splits_by_side isqrt DEFAULT_CONFIG DEFAULT_COSTS
           flipAndTarget).
  vm_compute. reflexivity.
Defined.

(** ** Drawdown *)

Lemma total_nonneg (l : list Qc) : Forall (fun x => 0 <= x) l -> 0 <= total l.
Proof.
  induction l as [|x l IH]; intros F; [apply Qcle_refl|].
  apply Forall_cons_iff in F. destruct F as (X & F). cbn [total].
  replace 0 with (0 + 0) by ring. apply Qcplus_le_compat; auto.
Qed.

Lemma Qcmax_le (a b : Qc) : a <= b -> Qcmax a b = b.
Proof.
  intros L. unfold Qcmax. destruct (b >? a) eqn:E; [reflexivity|].
  apply Qc_ltb_ge in E. now apply Qcle_antisym.
Qed.

Section NoDrawdown.

Variable sqrt : Qc -> Qc.
Variable config : Config.
Variable costs : Costs.

Lemma runLoop_no_drawdown (priceData : list Candle) (st st' : LoopState) :
  runLoop config costs priceData st = Ok st' ->
  Forall (fun t => 0 <= t_netPnlPct t) (trades st') ->
  peakEquity st <= equity st ->
  maxDrawdown st = 0 ->
  peakEquity st' <= equity st' /\ maxDrawdown st' = 0.
Proof.
  revert st. induction priceData as [|c rest IH]; intros st H F P M.
  - injection H as <-. auto.
  - cbn [runLoop] in H. apply bind_Ok in H. destruct H as (s & St & H).
    destruct (step_extends config costs _ _ _ St) as (cl & T & E & _).
    destruct (runLoop_extends config costs _ _ _ H) as (cl' & T' & _).
    destruct (step_drawdown config costs _ _ _ St) as (PK & DD).
    assert (N : 0 <= total (map t_netPnlPct cl)).
    { apply total_nonneg. rewrite T', T, !Forall_app in F.
      destruct F as ((_ & F) & _). now rewrite Forall_map. }
    assert (L : peakEquity st <= equity s).
    { rewrite E. apply (Qcle_trans _ _ _ P).
      rewrite <- (Qcplus_0_r (equity st)) at 1.
      apply Qcplus_le_compat; [apply Qcle_refl | exact N]. }
    rewrite (Qcmax_le _ _ L) in PK.
    apply (IH s H F).
    + rewrite PK. apply Qcle_refl.
    + rewrite DD, PK, M.
      replace ((equity s - equity s) / equity s * num 100) with 0
        by (unfold Qcminus; rewrite Qcplus_opp_r; unfold Qcdiv;
            now rewrite !Qcmult_0_l).
      reflexivity.
Qed.

(** X15.  A run in which no trade has a negative net PnL reports a maximum
    drawdown of zero. *)
Theorem no_loss_no_drawdown (priceData : list Candle) (r : BacktestResult) :
  runBacktest sqrt priceData config costs = Ok r ->
  Forall (fun t => 0 <= t_netPnlPct t) (r_trades r) ->
  maxDrawdownPct r = 0.
Proof.
  intros H F. apply runBacktest_inv in H.
  destruct H as (st & st' & L & C & T & _ & D & _).
  rewrite D. rewrite T in F.
  destruct (closeRemaining_extends config costs _ _ _ C) as (cl & T' & _).
  apply closeRemaining_inv in C.
  assert (M : maxDrawdown st' = maxDrawdown st).
  { destruct C as [(-> & _) | (p & c & init & t & _ & _ & _ & ->)];
      reflexivity. }
  rewrite M.
  apply (runLoop_no_drawdown priceData initialState st L).
  - rewrite T', Forall_app in F. tauto.
  - apply Qcle_refl.
  - apply num_0.
Qed.

End NoDrawdown.

Lemma no_loss_no_drawdown_witness :
  exists r : BacktestResult,
    runBacktest isqrt trailingStop DEFAULT_CONFIG DEFAULT_COSTS = Ok r
    /\ Forall (fun t => 0 <= t_netPnlPct t) (r_trades r)
    /\ r_trades r <> []
    /\ maxDrawdownPct r = 0.
Proof.
  assert (F : forall r,
            runBacktest isqrt trailingStop DEFAULT_CONFIG DEFAULT_COSTS
            = Ok r ->
            Forall (fun t => 0 <= t_netPnlPct t) (r_trades r)
            /\ r_trades r <> []).
  { intros r H. vm_compute in H. injection H as <-. split.
    - repeat constructor. apply Qc_leb_le. vm_compute. reflexivity.
    - discriminate. }
  eexists. split; [vm_compute; reflexivity|].
  match goal with
  | |- Forall _ (r_trades ?r) /\ _ =>
      destruct (F r ltac:(vm_compute; reflexivity)) as (A & B)
  end.
  split; [exact A|]. split; [exact B|].
  apply (no_loss_no_drawdown isqrt DEFAULT_CONFIG DEFAULT_COSTS
           trailingStop); [vm_compute; reflexivity | exact A].
Defined.

(** ** Running without costs *)

Section NoCosts.

Variable sqrt : Qc -> Qc.
Variable config : Config.
Variable costs : Costs.

(** X16.  With the taker fee, the slippage and the funding rate all zero, as
    under [--no-costs], every trade's net PnL is its gross PnL, nothing is
    booked as cost, and the report's net PnL equals its gross PnL. *)
Theorem zero_costs_net_is_gross (priceData : list Candle)
  (r : BacktestResult) :
  takerFeeBps costs = 0 -> slippageBps costs = 0 ->
  avgFundingRateBps costs = 0 ->
  runBacktest sqrt priceData config costs = Ok r ->
  Forall (fun t => t_netPnlPct t = t_grossPnlPct t
                   /\ leveragedCostPct (t_costs t) = 0) (r_trades r)
  /\ netPnlPct r = grossPnlPct r.
Proof.
  intros TF SL FU H.
  assert (F : Forall (fun t => t_netPnlPct t = t_grossPnlPct t
                               /\ leveragedCostPct (t_costs t) = 0)
                (r_trades r)).
  { revert H.
    apply (runBacktest_log config costs (fun _ _ _ => True)); [auto|].
    intros c p t _ _ (reason_ & x & K & _). apply closeTrade_costs in K.
    destruct K as (A & B & C & D & E & G).
    assert (Z : leveragedCostPct (t_costs t) = 0).
    { rewrite E, D, A, B, C, TF, SL, FU. unfold Qcdiv. ring. }
    split; [rewrite G, Z; ring | exact Z]. }
  split; [exact F|].
  pose proof (runBacktest_extends config costs sqrt priceData r H)
    as (N & _).
  apply runBacktest_booked in H. destruct H as (st' & H & _).
  apply calculateStats_inv in H. cbn zeta in H.
  destruct H as (T & _ & G & _).
  rewrite N, G, sumOf_total, T. rewrite T in F. clear - F.
  induction (trades st') as [|t l IH]; [reflexivity|].
  apply Forall_cons_iff in F. destruct F as ((X & _) & F).
  cbn [map total]. now rewrite X, IH.
Qed.

End NoCosts.

Lemma zero_costs_net_is_gross_witness :
  exists r : BacktestResult,
    takerFeeBps NO_COSTS = 0 /\ slippageBps NO_COSTS = 0
    /\ avgFundingRateBps NO_COSTS = 0
    /\ runBacktest isqrt flipAndTarget DEFAULT_CONFIG NO_COSTS = Ok r
    /\ Forall (fun t => t_netPnlPct t = t_grossPnlPct t
                        /\ leveragedCostPct (t_costs t) = 0) (r_trades r)
    /\ netPnlPct r = grossPnlPct r.
Proof.
  eexists. split; [reflexivity|]. split; [reflexivity|].
  split; [reflexivity|]. split; [vm_compute; reflexivity|].
  apply (zero_costs_net_is_gross isqrt DEFAULT_CONFIG NO_COSTS
           flipAndTarget);
    [reflexivity | reflexivity | reflexivity | vm_compute; reflexivity].
Defined.

(** * The parameter sweep *)

(** ** Configurations that the backtester cannot tell apart *)

Section SameZones.

Variable c1 c2 : Config.
Variable costs : Costs.

Hypothesis same_target : profitTargetPct c1 = profitTargetPct c2.
Hypothesis same_trailing :
  tpZoneTrailingStopPct c1 = tpZoneTrailingStopPct c2.
Hypothesis same_threshold :
  tpZoneHoursThreshold c1 = tpZoneHoursThreshold c2.
Hypothesis same_leverage : leverage c1 = leverage c2.
Hypothesis same_zone : forall date, getZone date c1 = getZone date c2.
Hypothesis same_hours : forall date,
  getHoursUntilShortZone date c1 = getHoursUntilShortZone date c2.

Lemma closeTrade_same (p : Position) (x : Qc) (time : Date) (r : string) :
  closeTrade p x time r c1 costs = closeTrade p x time r c2 costs.
Proof. unfold closeTrade. now rewrite same_leverage. Qed.

Lemma recordTrade_same (st : LoopState) (t : Trade) :
  recordTrade c1 st t = recordTrade c2 st t.
Proof. unfold recordTrade. now rewrite same_leverage. Qed.

Lemma closePosition_same (st : LoopState) (p : Position) (x : Qc)
  (time : Date) (r : string) :
  closePosition c1 costs st p x time r = closePosition c2 costs st p x time r.
Proof.
  unfold closePosition. rewrite closeTrade_same.
  destruct (closeTrade p x time r c2 costs); [|reflexivity].
  cbn [bind]. now rewrite recordTrade_same.
Qed.

Lemma zoneFlip_same (c : Candle) (zone : Side) (st : LoopState) :
  zoneFlip c1 costs c zone st = zoneFlip c2 costs c zone st.
Proof.
  unfold zoneFlip. destruct (previousZone st); [|reflexivity].
  destruct (negb _); [|reflexivity].
  destruct (position st); [|reflexivity].
  now rewrite closePosition_same.
Qed.

Lemma checkPosition_same (c : Candle) (st : LoopState) :
  checkPosition c1 costs c st = checkPosition c2 costs c st.
Proof.
  unfold checkPosition. destruct (position st) as [p|]; [|reflexivity].
  destruct (calcProfitPct _ _ _); [|reflexivity]. cbn [bind].
  destruct (calcProfitPct _ _ _); [|reflexivity]. cbn [bind].
  destruct (calcProfitPct _ _ _) as [best|]; [|reflexivity]. cbn [bind].
  rewrite same_target.
  destruct (_ && _).
  - unfold tpZoneStep. rewrite same_hours, same_trailing, same_threshold.
    destruct (getHoursUntilShortZone _ _); [|reflexivity]. cbn [bind].
    destruct (checkTpZoneExit _ _ _ _ _ _) as [ec|]; [|reflexivity].
    cbn [bind]. destruct (shouldExit ec); [|reflexivity].
    apply closePosition_same.
  - destruct (_ >=? _); [|reflexivity].
    unfold profitTargetStep.
    rewrite same_hours, same_target, same_threshold.
    destruct (side p).
    + destruct (getHoursUntilShortZone _ _); [|reflexivity]. cbn [bind].
      destruct (shouldEnterTpZone _ _ _); [reflexivity|].
      apply closePosition_same.
    + apply closePosition_same.
Qed.

Lemma step_same (st : LoopState) (c : Candle) :
  step c1 costs st c = step c2 costs st c.
Proof.
  unfold step. rewrite same_zone, zoneFlip_same.
  destruct (zoneFlip _ _ _ _ _); [|reflexivity]. cbn [bind].
  now rewrite checkPosition_same.
Qed.

Lemma runLoop_same (priceData : list Candle) (st : LoopState) :
  runLoop c1 costs priceData st = runLoop c2 costs priceData st.
Proof.
  revert st. induction priceData as [|c rest IH]; intros st; [reflexivity|].
  cbn [runLoop]. rewrite step_same.
  destruct (step _ _ _ _); [|reflexivity]. cbn [bind]. apply IH.
Qed.

Lemma closeRemaining_same (priceData : list Candle) (st : LoopState) :
  closeRemaining c1 costs priceData st = closeRemaining c2 costs priceData st.
Proof.
  unfold closeRemaining. destruct (position st); [|reflexivity].
  destruct (rev priceData); [reflexivity|].
  rewrite closeTrade_same.
  destruct (closeTrade _ _ _ _ _ _); [|reflexivity]. cbn [bind].
  now rewrite recordTrade_same.
Qed.

Lemma calculateStats_sameRun (sqrt : Qc -> Qc) (l : list Trade)
  (e dd : Qc) (tc : TotalCosts) :
  Optimize.sameRun (calculateStats sqrt l e dd c1 costs tc)
    (calculateStats sqrt l e dd c2 costs tc).
Proof.
  destruct (calculateStats_total sqrt l e dd c1 costs tc)
    as (r1 & s1 & H1 & _).
  destruct (calculateStats_total sqrt l e dd c2 costs tc)
    as (r2 & s2 & H2 & _).
  rewrite H1, H2. unfold calculateStats in H1, H2.
  destruct (sharpeOf sqrt _); [|discriminate]. cbn [bind] in H1, H2.
  destruct (if len l >? num 0 then _ else _); [|discriminate].
  cbn [bind] in H1, H2.
  destruct (guardedDiv _ _ _); [|discriminate]. cbn [bind] in H1, H2.
  destruct (guardedDiv _ _ _); [|discriminate]. cbn [bind] in H1, H2.
  destruct (guardedDiv _ _ _); [|discriminate]. cbn [bind] in H1, H2.
  destruct (sideStats _); [|discriminate]. cbn [bind] in H1, H2.
  destruct (sideStats _); [|discriminate]. cbn [bind] in H1, H2.
  injection H1 as <-. injection H2 as <-. split; reflexivity.
Qed.

Lemma runBacktest_sameRun (sqrt : Qc -> Qc) (priceData : list Candle) :
  Optimize.sameRun (runBacktest sqrt priceData c1 costs)
    (runBacktest sqrt priceData c2 costs).
Proof.
  unfold runBacktest. rewrite runLoop_same.
  destruct (runLoop c2 costs priceData initialState) as [st|e];
    [|reflexivity].
  cbn [bind]. rewrite closeRemaining_same.
  destruct (closeRemaining c2 costs priceData st) as [st'|e];
    [|reflexivity].
  cbn [bind]. apply calculateStats_sameRun.
Qed.

End SameZones.

(** ** Half hours *)

Lemma trunc_floor (x : Qc) : 0 <= x -> trunc x = floor x.
Proof.
  intros H. unfold trunc, floor. destruct x as ((a & b) & C).
  cbn [this Qnum Qden Qfloor].
  apply Z.quot_div_nonneg; [|lia].
  unfold Qcle, Qle in H. cbn in H. lia.
Qed.

Lemma half_lt_1 : dec 5 10 < 1.
Proof. apply Qc_ltb_lt. reflexivity. Qed.

Lemma half_pos : 0 < dec 5 10.
Proof. apply Qc_ltb_lt. reflexivity. Qed.

Lemma rem1_half (n : Z) : (0 <= n)%Z -> rem1 (num n + dec 5 10) = dec 5 10.
Proof.
  intros N.
  assert (P : 0 <= num n) by (change 0 with (num 0); now apply num_le).
  pose proof half_lt_1 as A. pose proof half_pos as B.
  assert (F : floor (num n + dec 5 10) = n).
  { apply floor_unique; rewrite ?num_plus, ?num_1.
    - set (h := dec 5 10) in *. set (x := num n) in *. to_Q. lra.
    - set (h := dec 5 10) in *. set (x := num n) in *. to_Q. lra. }
  unfold rem1. rewrite trunc_floor, F; [ring|].
  set (h := dec 5 10) in *. set (x := num n) in *. to_Q. lra.
Qed.

Lemma rem1_whole (n : Z) : (0 <= n)%Z -> rem1 (num n) = 0.
Proof.
  intros N.
  assert (P : 0 <= num n) by (change 0 with (num 0); now apply num_le).
  assert (F : floor (num n) = n).
  { apply floor_unique; [apply Qcle_refl | apply num_lt; lia]. }
  unfold rem1. rewrite trunc_floor, F; [ring | exact P].
Qed.

Lemma minute_nonneg (date : Date) : 0 <= num (getUTCMinutes date).
Proof.
  change 0 with (num 0). apply num_le. unfold getUTCMinutes.
  pose proof (Z.mod_pos_bound (date / 60000) 60 ltac:(lia)). lia.
Qed.

Lemma gtb_half (h n : Z) :
  (num h >? num n + dec 5 10) = (num h >? num n) .
Proof.
  pose proof half_lt_1 as A. pose proof half_pos as B.
  destruct (Z_lt_le_dec n h) as [L | L].
  - assert (X : num (n + 1) <= num h) by (apply num_le; lia).
    rewrite num_plus, num_1 in X.
    transitivity true; [|symmetry; apply Qc_ltb_lt; now apply num_lt].
    apply Qc_ltb_lt.
    set (a := num h) in *. set (b := num n) in *. set (c := dec 5 10) in *.
    to_Q. lra.
  - assert (X : num h <= num n) by (apply num_le; lia).
    transitivity false; [|symmetry; apply Qc_ltb_ge; exact X].
    apply Qc_ltb_ge.
    set (a := num h) in *. set (b := num n) in *. set (c := dec 5 10) in *.
    to_Q. lra.
Qed.

Lemma eqb_half (h n : Z) : (num h =? num n + dec 5 10) = false.
Proof.
  pose proof half_lt_1 as A. pose proof half_pos as B.
  apply Qc_eqb_neq. intros E.
  destruct (Z_lt_le_dec n h) as [L | L].
  - assert (X : num (n + 1) <= num h) by (apply num_le; lia).
    rewrite num_plus, num_1 in X.
    set (a := num h) in *. set (b := num n) in *. set (c := dec 5 10) in *.
    to_Q. lra.
  - assert (X : num h <= num n) by (apply num_le; lia).
    set (a := num h) in *. set (b := num n) in *. set (c := dec 5 10) in *.
    to_Q. lra.
Qed.

Lemma ltb_half (h n : Z) :
  (num h <? num n + dec 5 10) = (num h <? num (n + 1)).
Proof.
  pose proof half_lt_1 as A. pose proof half_pos as B.
  destruct (Z_lt_le_dec n h) as [L | L].
  - assert (X : num (n + 1) <= num h) by (apply num_le; lia).
    transitivity false; [|symmetry; apply Qc_ltb_ge; exact X].
    apply Qc_ltb_ge. rewrite num_plus, num_1 in X.
    set (a := num h) in *. set (b := num n) in *. set (c := dec 5 10) in *.
    to_Q. lra.
  - assert (X : num h <= num n) by (apply num_le; lia).
    transitivity true; [|symmetry; apply Qc_ltb_lt, num_lt; lia].
    apply Qc_ltb_lt.
    set (a := num h) in *. set (b := num n) in *. set (c := dec 5 10) in *.
    to_Q. lra.
Qed.

Lemma gtb_next (h n : Z) (m : Qc) :
  0 <= m ->
  (num h >? num (n + 1)) || ((num h =? num (n + 1)) && (m >=? num 0))
  = (num h >? num n).
Proof.
  intros M. rewrite num_0. apply Qc_leb_le in M. rewrite M, andb_true_r.
  destruct (Z_lt_le_dec n h) as [L | L].
  - transitivity true; [|symmetry; apply Qc_ltb_lt, num_lt; lia].
    destruct (Z.eq_dec h (n + 1)) as [-> | D].
    + replace (num (n + 1) =? num (n + 1)) with true;
        [apply orb_true_r | symmetry; now apply Qc_eqb_eq].
    + replace (num h >? num (n + 1)) with true; [reflexivity|].
      symmetry. apply Qc_ltb_lt, num_lt. lia.
  - transitivity false; [|symmetry; apply Qc_ltb_ge, num_le; lia].
    apply orb_false_iff. split.
    + apply Qc_ltb_ge, num_le. lia.
    + apply Qc_eqb_neq. intros E. apply num_inj in E. lia.
Qed.

Lemma ltb_none (m : Qc) : 0 <= m -> (m <? num 0) = false.
Proof. intros M. apply Qc_ltb_ge. now rewrite num_0. Qed.

Lemma half_hour_target (n : Z) :
  (num n + dec 5 10) * num 60 + num 30 = num (n + 1) * num 60 + num 0.
Proof.
  assert (H1 : dec 5 10 * num 60 = num 30) by qc_eq.
  assert (H2 : num 30 + num 30 = num 60) by qc_eq.
  rewrite num_plus, num_1, num_0.
  replace ((num n + dec 5 10) * num 60 + num 30)
    with (num n * num 60 + (dec 5 10 * num 60 + num 30)) by ring.
  rewrite H1, H2. ring.
Qed.

Section HalfHours.

Variable n : Z.
Hypothesis n_nonneg : (0 <= n)%Z.

Lemma paramConfig_half (param : Optimize.Param) :
  Optimize.paramConfig param (num n + dec 5 10)
  = match param with
    | Optimize.shortStart =>
        {| profitTargetPct := profitTargetPct DEFAULT_CONFIG;
           tpZoneTrailingStopPct := tpZoneTrailingStopPct DEFAULT_CONFIG;
           tpZoneHoursThreshold := tpZoneHoursThreshold DEFAULT_CONFIG;
           leverage := leverage DEFAULT_CONFIG;
           shortZoneStart :=
             {| hour := num n + dec 5 10; minute := num 30 |};
           shortZoneEnd := shortZoneEnd DEFAULT_CONFIG |}
    | Optimize.shortEnd =>
        {| profitTargetPct := profitTargetPct DEFAULT_CONFIG;
           tpZoneTrailingStopPct := tpZoneTrailingStopPct DEFAULT_CONFIG;
           tpZoneHoursThreshold := tpZoneHoursThreshold DEFAULT_CONFIG;
           leverage := leverage DEFAULT_CONFIG;
           shortZoneStart := shortZoneStart DEFAULT_CONFIG;
           shortZoneEnd :=
             {| hour := num n + dec 5 10; minute := num 30 |} |}
    | _ => Optimize.paramConfig param (num n + dec 5 10)
    end.
Proof.
  destruct param; try reflexivity; unfold Optimize.paramConfig;
    rewrite (rem1_half n n_nonneg);
    replace (dec 5 10 =? dec 5 10) with true
      by (symmetry; now apply Qc_eqb_eq); reflexivity.
Qed.

Lemma paramConfig_next (param : Optimize.Param) :
  Optimize.paramConfig param (num (n + 1))
  = match param with
    | Optimize.shortStart =>
        {| profitTargetPct := profitTargetPct DEFAULT_CONFIG;
           tpZoneTrailingStopPct := tpZoneTrailingStopPct DEFAULT_CONFIG;
           tpZoneHoursThreshold := tpZoneHoursThreshold DEFAULT_CONFIG;
           leverage := leverage DEFAULT_CONFIG;
           shortZoneStart := {| hour := num (n + 1); minute := num 0 |};
           shortZoneEnd := shortZoneEnd DEFAULT_CONFIG |}
    | Optimize.shortEnd =>
        {| profitTargetPct := profitTargetPct DEFAULT_CONFIG;
           tpZoneTrailingStopPct := tpZoneTrailingStopPct DEFAULT_CONFIG;
           tpZoneHoursThreshold := tpZoneHoursThreshold DEFAULT_CONFIG;
           leverage := leverage DEFAULT_CONFIG;
           shortZoneStart := shortZoneStart DEFAULT_CONFIG;
           shortZoneEnd := {| hour := num (n + 1); minute := num 0 |} |}
    | _ => Optimize.paramConfig param (num (n + 1))
    end.
Proof.
  destruct param; try reflexivity; unfold Optimize.paramConfig;
    rewrite (rem1_whole (n + 1)) by lia;
    replace (0 =? dec 5 10) with false
      by (symmetry; apply Qc_eqb_neq; intros E; discriminate E);
    reflexivity.
Qed.

Lemma getZone_half_hour (param : Optimize.Param) (date : Date) :
  param = Optimize.shortStart \/ param = Optimize.shortEnd ->
  getZone date (Optimize.paramConfig param (num n + dec 5 10))
  = getZone date (Optimize.paramConfig param (num (n + 1))).
Proof.
  pose proof (minute_nonneg date) as M.
  intros [-> | ->]; rewrite paramConfig_half, paramConfig_next;
    unfold getZone; cbn [shortZoneStart shortZoneEnd hour minute].
  - rewrite gtb_half, eqb_half, (gtb_next _ _ _ M). cbn [andb].
    now rewrite orb_false_r.
  - rewrite ltb_half, eqb_half, (ltb_none _ M). cbn [andb].
    now rewrite andb_false_r.
Qed.

Lemma getHoursUntilShortZone_half_hour (param : Optimize.Param)
  (date : Date) :
  param = Optimize.shortStart \/ param = Optimize.shortEnd ->
  getHoursUntilShortZone date
    (Optimize.paramConfig param (num n + dec 5 10))
  = getHoursUntilShortZone date (Optimize.paramConfig param (num (n + 1))).
Proof.
  intros [-> | ->]; rewrite paramConfig_half, paramConfig_next;
    unfold getHoursUntilShortZone;
    cbn [shortZoneStart shortZoneEnd hour minute];
    [now rewrite half_hour_target | reflexivity].
Qed.

End HalfHours.

(** X17.  The sweeps of [shortStart] and [shortEnd] step by half hours, but a
    half hour is not a time the zone classifier can hit: the value [n + 0.5],
    run with minute 30, classifies every timestamp as the value [n + 1] does,
    run with minute 0, and returns the same time to the next short zone. The
    two backtests agree in the trade log and in every number the sweep keeps,
    so the row of 8:30 repeats the row of 9:00. *)
Theorem half_hour_value_repeats_next_hour (sqrt : Qc -> Qc)
  (priceData : list Candle) (costs : Costs) (param : Optimize.Param)
  (n : Z) :
  (0 <= n)%Z ->
  param = Optimize.shortStart \/ param = Optimize.shortEnd ->
  let half := Optimize.paramConfig param (num n + dec 5 10) in
  let next := Optimize.paramConfig param (num (n + 1)) in
  (forall date, getZone date half = getZone date next)
  /\ (forall date,
        getHoursUntilShortZone date half
        = getHoursUntilShortZone date next)
  /\ Optimize.sameRun (runBacktest sqrt priceData half costs)
       (runBacktest sqrt priceData next costs).
Proof.
  intros N P half next.
  assert (Z : forall date, getZone date half = getZone date next)
    by (intros date; now apply getZone_half_hour).
  assert (H : forall date, getHoursUntilShortZone date half
                           = getHoursUntilShortZone date next)
    by (intros date; now apply getHoursUntilShortZone_half_hour).
  split; [exact Z|]. split; [exact H|].
  apply runBacktest_sameRun; try assumption;
    unfold half, next; rewrite paramConfig_half, paramConfig_next by lia;
    destruct P as [-> | ->]; reflexivity.
Qed.

(** The value 8.5 of the [shortStart] sweep: 13:45 UTC on a Monday, 08:45
    local, is past 8:30 and still long. *)
Lemma half_hour_value_repeats_next_hour_witness :
  (0 <= 8)%Z
  /\ getZone (monday10 - 75 * 60000)%Z
       (Optimize.paramConfig Optimize.shortStart (num 8 + dec 5 10)) = long
  /\ Optimize.sameRun
       (runBacktest isqrt flipAndTarget
          (Optimize.paramConfig Optimize.shortStart (num 8 + dec 5 10))
          DEFAULT_COSTS)
       (runBacktest isqrt flipAndTarget
          (Optimize.paramConfig Optimize.shortStart (num (8 + 1)))
          DEFAULT_COSTS).
Proof.
  split; [lia|]. split; [vm_compute; reflexivity|].
  apply (half_hour_value_repeats_next_hour isqrt flipAndTarget
           DEFAULT_COSTS Optimize.shortStart 8); [lia | now left].
Defined.

(** * Leverage and costs do not steer the strategy *)

Section Simulation.

Variable c1 c2 : Config.
Variable costs1 costs2 : Costs.

Hypothesis same_target : profitTargetPct c1 = profitTargetPct c2.
Hypothesis same_trailing :
  tpZoneTrailingStopPct c1 = tpZoneTrailingStopPct c2.
Hypothesis same_threshold :
  tpZoneHoursThreshold c1 = tpZoneHoursThreshold c2.
Hypothesis same_start : shortZoneStart c1 = shortZoneStart c2.
Hypothesis same_end : shortZoneEnd c1 = shortZoneEnd c2.
Hypothesis interval2 :
  fundingIntervalHours costs1 <> 0 -> fundingIntervalHours costs2 <> 0.

Lemma getZone_sim (date : Date) : getZone date c1 = getZone date c2.
Proof. unfold getZone. now rewrite same_start, same_end. Qed.

Lemma getHours_sim (date : Date) :
  getHoursUntilShortZone date c1 = getHoursUntilShortZone date c2.
Proof. unfold getHoursUntilShortZone. now rewrite same_start. Qed.

Lemma closeTrade_sim (p : Position) (x : Qc) (time : Date) (r : string)
  (t1 : Trade) :
  closeTrade p x time r c1 costs1 = Ok t1 ->
  exists t2,
    closeTrade p x time r c2 costs2 = Ok t2 /\ sameDecision c1 c2 t1 t2.
Proof.
  intros H1. apply closeTrade_inv in H1.
  destruct H1 as (N & I & A1 & B1 & C1 & D1 & E1 & F1 & G1 & (_ & I1 & _)).
  destruct (closeTrade_Ok p x time r c2 costs2 N (interval2 I))
    as (t2 & H2).
  exists t2. split; [exact H2|]. apply closeTrade_inv in H2.
  destruct H2 as (_ & _ & A2 & B2 & C2 & D2 & E2 & F2 & G2 & (_ & I2 & _)).
  unfold sameDecision. rewrite A1, A2, B1, B2, C1, C2, D1, D2, E1, E2, F1,
    F2, G1, G2, I1, I2.
  repeat split. unfold pricePctOf. rewrite C1, C2, D1, D2, E1, E2. ring.
Qed.

Lemma simState_setPosition (st1 st2 : LoopState) (pos : option Position) :
  simState c1 c2 st1 st2 ->
  simState c1 c2 (setPosition st1 pos) (setPosition st2 pos).
Proof. intros (A & B & C & D). repeat split; assumption. Qed.

Lemma closePosition_sim (st1 st2 st1' : LoopState) (p : Position) (x : Qc)
  (time : Date) (r : string) :
  closePosition c1 costs1 st1 p x time r = Ok st1' ->
  simState c1 c2 st1 st2 ->
  exists st2',
    closePosition c2 costs2 st2 p x time r = Ok st2'
    /\ simState c1 c2 st1' st2'.
Proof.
  intros H (A & B & C & D). apply closePosition_inv in H.
  destruct H as (t1 & H & ->).
  destruct (closeTrade_sim _ _ _ _ _ H) as (t2 & H2 & S).
  exists (setPosition (recordTrade c2 st2 t2) None).
  unfold closePosition. rewrite H2. split; [reflexivity|].
  repeat split; cbn; auto. apply Forall2_app; auto.
Qed.

Lemma zoneFlip_sim (c : Candle) (zone : Side) (st1 st2 st1' : LoopState) :
  zoneFlip c1 costs1 c zone st1 = Ok st1' ->
  simState c1 c2 st1 st2 ->
  exists st2',
    zoneFlip c2 costs2 c zone st2 = Ok st2' /\ simState c1 c2 st1' st2'.
Proof.
  unfold zoneFlip. intros H S. pose proof S as (A & B & _).
  rewrite <- B, <- A.
  destruct (previousZone st1); [|injection H as <-; eauto].
  destruct (negb _); [|injection H as <-; eauto].
  destruct (position st1) as [p|].
  - apply bind_Ok in H. destruct H as (s1 & H & E). injection E as <-.
    destruct (closePosition_sim _ _ _ _ _ _ _ H S) as (s2 & -> & S').
    cbn [bind]. eexists. split; [reflexivity|].
    now apply simState_setPosition.
  - cbn [bind] in *. injection H as <-. eexists. split; [reflexivity|].
    now apply simState_setPosition.
Qed.

Lemma checkPosition_sim (c : Candle) (st1 st2 st1' : LoopState) :
  checkPosition c1 costs1 c st1 = Ok st1' ->
  simState c1 c2 st1 st2 ->
  exists st2',
    checkPosition c2 costs2 c st2 = Ok st2' /\ simState c1 c2 st1' st2'.
Proof.
  unfold checkPosition. intros H S. pose proof S as (A & _).
  rewrite <- A.
  destruct (position st1) as [p|]; [|injection H as <-; eauto].
  destruct (calcProfitPct _ _ _); [|discriminate]. cbn [bind] in *.
  destruct (calcProfitPct _ _ _); [|discriminate]. cbn [bind] in *.
  destruct (calcProfitPct _ _ _) as [best|]; [|discriminate].
  cbn [bind] in *. rewrite <- same_target.
  destruct (_ && _).
  - unfold tpZoneStep in *.
    rewrite <- getHours_sim, <- same_trailing, <- same_threshold.
    destruct (getHoursUntilShortZone _ _); [|discriminate].
    cbn [bind] in *.
    destruct (checkTpZoneExit _ _ _ _ _ _) as [ec|]; [|discriminate].
    cbn [bind] in *. destruct (shouldExit ec).
    + eapply closePosition_sim; [exact H|].
      now apply simState_setPosition.
    + injection H as <-. eexists. split; [reflexivity|].
      now apply simState_setPosition.
  - destruct (_ >=? _); [|injection H as <-; eauto].
    unfold profitTargetStep in *.
    rewrite <- getHours_sim, <- same_target, <- same_threshold.
    destruct (side p).
    + destruct (getHoursUntilShortZone _ _); [|discriminate].
      cbn [bind] in *.
      destruct (shouldEnterTpZone _ _ _).
      * injection H as <-. eexists. split; [reflexivity|].
        now apply simState_setPosition.
      * eapply closePosition_sim; eassumption.
    + eapply closePosition_sim; eassumption.
Qed.

Lemma trackDrawdown_sim (st1 st2 st1' : LoopState) :
  trackDrawdown st1 = Ok st1' ->
  simState c1 c2 st1 st2 ->
  exists st2', trackDrawdown st2 = Ok st2' /\ simState c1 c2 st1' st2'.
Proof.
  intros H (A & B & C & D). apply trackDrawdown_inv in H.
  destruct H as (_ & T & P & Z & _).
  unfold trackDrawdown.
  fold (Qcmax (peakEquity st2) (equity st2)).
  pose proof (Qcmax_pos_l _ (equity st2) D) as Q.
  rewrite (div_Ok _ _ (pos_neq_0 _ Q)). cbn [bind].
  eexists. split; [reflexivity|].
  split; [cbn; congruence|]. split; [cbn; congruence|].
  split; [cbn; congruence | exact Q].
Qed.

Lemma step_sim (c : Candle) (st1 st2 st1' : LoopState) :
  step c1 costs1 st1 c = Ok st1' ->
  simState c1 c2 st1 st2 ->
  exists st2', step c2 costs2 st2 c = Ok st2' /\ simState c1 c2 st1' st2'.
Proof.
  intros H S. apply step_inv in H.
  destruct H as (s1 & s2 & s3 & F & C & D & ->).
  unfold step. rewrite <- getZone_sim.
  destruct (zoneFlip_sim _ _ _ _ _ F S) as (u1 & -> & S1). cbn [bind].
  destruct (checkPosition_sim _ _ _ _ C S1) as (u2 & -> & S2). cbn [bind].
  destruct (trackDrawdown_sim _ _ _ D S2) as (u3 & -> & S3). cbn [bind].
  eexists. split; [reflexivity|].
  destruct S3 as (X & Y & Z & W). repeat split; cbn; assumption.
Qed.

Lemma runLoop_sim (priceData : list Candle) (st1 st2 st1' : LoopState) :
  runLoop c1 costs1 priceData st1 = Ok st1' ->
  simState c1 c2 st1 st2 ->
  exists st2',
    runLoop c2 costs2 priceData st2 = Ok st2' /\ simState c1 c2 st1' st2'.
Proof.
  revert st1 st2. induction priceData as [|c rest IH]; intros st1 st2 H S.
  - injection H as <-. exists st2. split; [reflexivity | exact S].
  - cbn [runLoop] in *. apply bind_Ok in H. destruct H as (s & St & H).
    destruct (step_sim _ _ _ _ St S) as (u & -> & S'). cbn [bind].
    eapply IH; eassumption.
Qed.

Lemma closeRemaining_sim (priceData : list Candle)
  (st1 st2 st1' : LoopState) :
  closeRemaining c1 costs1 priceData st1 = Ok st1' ->
  simState c1 c2 st1 st2 ->
  exists st2',
    closeRemaining c2 costs2 priceData st2 = Ok st2'
    /\ Forall2 (sameDecision c1 c2) (trades st1') (trades st2').
Proof.
  unfold closeRemaining. intros H (A & B & C & D). rewrite <- A.
  destruct (position st1) as [p|]; [|injection H as <-; eauto].
  destruct (rev priceData) as [|c l]; [injection H as <-; eauto|].
  apply bind_Ok in H. destruct H as (t1 & H & E). injection E as <-.
  destruct (closeTrade_sim _ _ _ _ _ H) as (t2 & -> & S). cbn [bind].
  eexists. split; [reflexivity|]. cbn. apply Forall2_app; auto.
Qed.

Lemma runBacktest_sim (sqrt : Qc -> Qc) (priceData : list Candle)
  (r1 : BacktestResult) :
  runBacktest sqrt priceData c1 costs1 = Ok r1 ->
  exists r2,
    runBacktest sqrt priceData c2 costs2 = Ok r2
    /\ Forall2 (sameDecision c1 c2) (r_trades r1) (r_trades r2).
Proof.
  intros H. apply runBacktest_inv in H.
  destruct H as (st & st' & L & C & T & _).
  assert (S0 : simState c1 c2 initialState initialState).
  { split; [reflexivity|]. split; [reflexivity|].
    split; [constructor|]. apply Qc_ltb_lt. reflexivity. }
  destruct (runLoop_sim _ _ _ _ L S0) as (u & L2 & S).
  destruct (closeRemaining_sim _ _ _ _ C S) as (u' & C2 & F).
  unfold runBacktest. rewrite L2. cbn [bind]. rewrite C2. cbn [bind].
  destruct (calculateStats_total sqrt (trades u') (equity u')
              (maxDrawdown u') c2 costs2 (totalCosts u'))
    as (r2 & s & H2 & _ & T2 & _).
  exists r2. split; [exact H2|]. now rewrite T, T2.
Qed.

End Simulation.

(** X18.  Neither the leverage nor the cost model steers the strategy: a run
    that succeeds still succeeds under any other leverage and any other costs
    with a funding interval that is not zero, and it takes the same trades,
    with the same entries, exits, sides, reasons and durations. The gross PnL
    of each trade changes in proportion to the leverage. *)
Theorem decisions_ignore_leverage_and_costs (sqrt : Qc -> Qc)
  (priceData : list Candle) (c1 c2 : Config) (costs1 costs2 : Costs)
  (r1 : BacktestResult) :
  sameButLeverage c1 c2 ->
  fundingIntervalHours costs2 <> 0 ->
  runBacktest sqrt priceData c1 costs1 = Ok r1 ->
  exists r2,
    runBacktest sqrt priceData c2 costs2 = Ok r2
    /\ Forall2 (sameDecision c1 c2) (r_trades r1) (r_trades r2).
Proof.
  intros (A & B & C & D & E) I H.
  now apply (runBacktest_sim c1 c2 costs1 costs2 A B C D E (fun _ => I)
               sqrt priceData r1).
Qed.

Lemma sameDecision_net (c1 c2 : Config) (costs : Costs) (t1 t2 : Trade) :
  sameDecision c1 c2 t1 t2 ->
  costIdentity c1 costs t1 -> costIdentity c2 costs t2 ->
  t_netPnlPct t1 * leverage c2 = t_netPnlPct t2 * leverage c1.
Proof.
  intros (_ & _ & _ & _ & S & _ & D & G) (N1 & _) (N2 & _).
  rewrite N1, N2. unfold totalCostPctOf. rewrite S, D.
  set (k := _ + _ + _).
  replace ((t_grossPnlPct t1 - leverage c1 * k) * leverage c2)
    with (t_grossPnlPct t1 * leverage c2 - leverage c1 * leverage c2 * k)
    by ring.
  rewrite G. ring.
Qed.

Lemma runBacktest_gross (sqrt : Qc -> Qc) (priceData : list Candle)
  (config : Config) (costs : Costs) (r : BacktestResult) :
  runBacktest sqrt priceData config costs = Ok r ->
  grossPnlPct r = total (map t_grossPnlPct (r_trades r)).
Proof.
  intros H. apply runBacktest_booked in H. destruct H as (st' & H & _).
  apply calculateStats_inv in H. cbn zeta in H.
  destruct H as (T & _ & G & _). now rewrite G, sumOf_total, T.
Qed.

(** X19.  Net and gross PnL are linear in the leverage: under the same costs,
    two runs that differ in the leverage only report PnL in the ratio of the
    two leverages, over the same number of trades. *)
Theorem pnl_is_linear_in_leverage (sqrt : Qc -> Qc)
  (priceData : list Candle) (c1 c2 : Config) (costs : Costs)
  (r1 : BacktestResult) :
  sameButLeverage c1 c2 ->
  runBacktest sqrt priceData c1 costs = Ok r1 ->
  exists r2,
    runBacktest sqrt priceData c2 costs = Ok r2
    /\ List.length (r_trades r1) = List.length (r_trades r2)
    /\ netPnlPct r1 * leverage c2 = netPnlPct r2 * leverage c1
    /\ grossPnlPct r1 * leverage c2 = grossPnlPct r2 * leverage c1.
Proof.
  intros (A & B & C & D & E) H.
  pose proof (runBacktest_extends c1 costs sqrt priceData r1 H)
    as (N1 & I1).
  pose proof (runBacktest_gross _ _ _ _ _ H) as G1.
  destruct (runBacktest_sim c1 c2 costs costs A B C D E (fun I => I) sqrt
              priceData r1 H) as (r2 & H2 & F).
  exists r2. split; [exact H2|].
  pose proof (runBacktest_extends c2 costs sqrt priceData r2 H2)
    as (N2 & I2).
  pose proof (runBacktest_gross _ _ _ _ _ H2) as G2.
  split; [eapply Forall2_length; exact F|].
  rewrite N1, N2, G1, G2. clear - F I1 I2.
  induction F as [|t1 t2 l1 l2 S F IH].
  - cbn. split; ring.
  - apply Forall_cons_iff in I1. destruct I1 as (J1 & I1).
    apply Forall_cons_iff in I2. destruct I2 as (J2 & I2).
    destruct (IH I1 I2) as (X & Y). cbn [map total].
    pose proof (sameDecision_net _ _ _ _ _ S J1 J2) as Z.
    destruct S as (_ & _ & _ & _ & _ & _ & _ & G).
    split.
    + replace ((t_netPnlPct t1 + total (map t_netPnlPct l1)) * leverage c2)
        with (t_netPnlPct t1 * leverage c2
              + total (map t_netPnlPct l1) * leverage c2) by ring.
      rewrite Z, X. ring.
    + replace ((t_grossPnlPct t1 + total (map t_grossPnlPct l1))
               * leverage c2)
        with (t_grossPnlPct t1 * leverage c2
              + total (map t_grossPnlPct l1) * leverage c2) by ring.
      rewrite G, Y. ring.
Qed.

Lemma decisions_ignore_leverage_and_costs_witness :
  exists r1 r2 : BacktestResult,
    sameButLeverage DEFAULT_CONFIG
      (Optimize.paramConfig Optimize.leverageParam (num 20))
    /\ fundingIntervalHours NO_COSTS <> 0
    /\ runBacktest isqrt flipAndTarget DEFAULT_CONFIG DEFAULT_COSTS = Ok r1
    /\ runBacktest isqrt flipAndTarget
         (Optimize.paramConfig Optimize.leverageParam (num 20)) NO_COSTS
       = Ok r2
    /\ Forall2
         (sameDecision DEFAULT_CONFIG
            (Optimize.paramConfig Optimize.leverageParam (num 20)))
         (r_trades r1) (r_trades r2).
Proof.
  assert (S : sameButLeverage DEFAULT_CONFIG
                (Optimize.paramConfig Optimize.leverageParam (num 20)))
    by (repeat split).
  assert (I : fundingIntervalHours NO_COSTS <> 0)
    by (intros X; discriminate X).
  eexists.
  destruct (decisions_ignore_leverage_and_costs isqrt flipAndTarget
              DEFAULT_CONFIG
              (Optimize.paramConfig Optimize.leverageParam (num 20))
              DEFAULT_COSTS NO_COSTS _ S I ltac:(vm_compute; reflexivity))
    as (r2 & H2 & F).
  exists r2. split; [exact S|]. split; [exact I|].
  split; [vm_compute; reflexivity|]. split; [exact H2 | exact F].
Defined.

Lemma pnl_is_linear_in_leverage_witness :
  exists r1 r2 : BacktestResult,
    sameButLeverage DEFAULT_CONFIG
      (Optimize.paramConfig Optimize.leverageParam (num 20))
    /\ runBacktest isqrt flipAndTarget DEFAULT_CONFIG DEFAULT_COSTS = Ok r1
    /\ runBacktest isqrt flipAndTarget
         (Optimize.paramConfig Optimize.leverageParam (num 20))
         DEFAULT_COSTS = Ok r2
    /\ netPnlPct r1 * num 20 = netPnlPct r2 * num 10.
Proof.
  assert (S : sameButLeverage DEFAULT_CONFIG
                (Optimize.paramConfig Optimize.leverageParam (num 20)))
    by (repeat split).
  eexists.
  destruct (pnl_is_linear_in_leverage isqrt flipAndTarget DEFAULT_CONFIG
              (Optimize.paramConfig Optimize.leverageParam (num 20))
              DEFAULT_COSTS _ S ltac:(vm_compute; reflexivity))
    as (r2 & H2 & _ & N & _).
  exists r2. split; [exact S|].
  split; [vm_compute; reflexivity|]. split; [exact H2 | exact N].
Defined.

(** * Entry and exit on one candle *)

Section SameCandle.

Variable sqrt : Qc -> Qc.
Variable config : Config.
Variable costs : Costs.

Lemma runLoop_app (a b : list Candle) (st : LoopState) :
  runLoop config costs (a ++ b) st
  = (st' <- runLoop config costs a st ;; runLoop config costs b st').
Proof.
  revert st. induction a as [|c a IH]; intros st; [reflexivity|].
  cbn [app runLoop]. destruct (step config costs st c); [|reflexivity].
  cbn [bind]. apply IH.
Qed.



End SameCandle.


(** * The zone classifier and the time to the short zone *)

Lemma date_fields (t : Date) :
  let D := (t / 86400000)%Z in
  let M := ((t / 60000) mod 1440)%Z in
  (0 <= M < 1440)%Z
  /\ (0 <= t mod 60000 < 60000)%Z
  /\ t = (86400000 * D + 60000 * M + t mod 60000)%Z
  /\ getUTCDay t = ((D + 4) mod 7)%Z
  /\ ((getUTCHours t - 5) * 60 + getUTCMinutes t = M - 300)%Z.
Proof.
  unfold getUTCDay, getUTCHours, getUTCMinutes, msPerDay. cbn zeta.
  repeat split; try (Z.div_mod_to_equations; lia).
Qed.

Lemma fields_of_date (t D M r : Z) :
  (0 <= M < 1440)%Z -> (0 <= r < 60000)%Z ->
  t = (86400000 * D + 60000 * M + r)%Z ->
  (t / 86400000 = D)%Z /\ ((t / 60000) mod 1440 = M)%Z.
Proof. intros HM Hr ->. split; Z.div_mod_to_equations; lia. Qed.

Lemma num_le_inv (a b : Z) : num a <= num b -> (a <= b)%Z.
Proof.
  intros H. destruct (Z_le_gt_dec a b) as [L | G]; [exact L|].
  exfalso. apply (Qclt_not_le (num b) (num a)); [apply num_lt; lia | exact H].
Qed.

Lemma num_lt_inv (a b : Z) : num a < num b -> (a < b)%Z.
Proof.
  intros H. destruct (Z_lt_le_dec a b) as [L | G]; [exact L|].
  exfalso. apply (Qclt_not_le _ _ H). now apply num_le.
Qed.

Lemma isoDate_same_day (t t' : Date) :
  (t / 86400000 = t' / 86400000)%Z -> isoDate t = isoDate t'.
Proof. unfold isoDate, msPerDay. now intros ->. Qed.

Section WholeHours.

Variable config : Config.
Variables sh sm eh em : Z.

Hypothesis start_is : shortZoneStart config
                      = {| hour := num sh; minute := num sm |}.
Hypothesis end_is : shortZoneEnd config
                    = {| hour := num eh; minute := num em |}.
Hypothesis sm_range : (0 <= sm < 60)%Z.
Hypothesis em_range : (0 <= em < 60)%Z.

(** [getZone] in whole minutes of the UTC day. *)
Lemma getZone_minutes (t : Date) :
  getZone t config = short
  <-> isWeekend (((t / 86400000) + 4) mod 7)%Z = false
      /\ isHoliday (isoDate t) = false
      /\ (sh * 60 + sm <= (t / 60000) mod 1440 - 300 < eh * 60 + em)%Z.
Proof.
  destruct (date_fields t) as (_ & _ & _ & DW & CM).
  rewrite getZone_window.
  - unfold minuteOfDay, currentMinutes. rewrite start_is, end_is, DW, CM.
    cbn [hour minute].
    rewrite <- !num_mult, <- !num_plus. split.
    + intros (A & B & C & D). split; [exact A|]. split; [exact B|].
      apply num_le_inv in C. apply num_lt_inv in D. lia.
    + intros (A & B & C & D). split; [exact A|]. split; [exact B|].
      split; [apply num_le | apply num_lt]; lia.
  - rewrite start_is. cbn [hour minute]. split; [now exists sh|].
    split; [change 0 with (num 0); apply num_le | apply num_lt]; lia.
  - rewrite end_is. cbn [hour minute]. split; [now exists eh|].
    split; [change 0 with (num 0); apply num_le | apply num_lt]; lia.
Qed.

Lemma getZone_long_or_short (t : Date) :
  getZone t config = long \/ getZone t config = short.
Proof. destruct (getZone t config); auto. Qed.

(** The hours that [getHoursUntilShortZone] returns, as a whole number of
    minutes and days. *)
Lemma getHoursUntilShortZone_minutes (date : Date) :
  let dow := getUTCDay date in
  let M := ((date / 60000) mod 1440)%Z in
  let tz := (sh * 60 + sm)%Z in
  exists (h : Qc) (k : Z),
    getHoursUntilShortZone date config = Ok h
    /\ (0 <= k <= 3)%Z
    /\ h * num 3600000 = num ((tz + 300 - M + 1440 * k) * 60000)
    /\ isWeekend ((dow + k) mod 7)%Z = false
    /\ (forall j : Z, (0 <= j < k)%Z ->
          isWeekend ((dow + j) mod 7)%Z = true
          \/ (j = 0%Z /\ (tz <= M - 300)%Z)).
Proof.
  intros dow M tz.
  destruct (date_fields date) as (_ & _ & _ & _ & CM). fold M in CM.
  destruct (getHoursUntilShortZone_days date config)
    as (h & k & H & K & E & W & J & _).
  rewrite start_is, CM in E, J. cbn [hour minute] in E, J.
  rewrite <- num_mult, <- num_plus in E, J. fold tz in E, J.
  exists h, k. split; [exact H|]. split; [exact K|].
  split.
  { rewrite (num_mult _ 60000), num_plus, (num_sub (tz + 300) M),
      (num_plus tz 300), (num_mult 1440 k).
    rewrite (num_mult 1440 k), (num_sub M 300) in E.
    assert (C1 : num 3600000 = num 60 * num 60000) by qc_eq.
    rewrite C1.
    set (a := num tz) in *. set (b := num M) in *. set (c := num k) in *.
    replace (h * (num 60 * num 60000)) with (num 60 * h * num 60000)
      by ring.
    replace (num 60 * h) with (a + num 1440 * c - (b - num 300))
      by (rewrite <- E; ring).
    ring. }
  split; [exact W|].
  intros j Hj. destruct (J j Hj) as [X | (X & Y)]; [now left | right].
  split; [exact X|]. now apply num_le_inv.
Qed.

End WholeHours.

(** X21.  [getHoursUntilShortZone] measures the time to the next start of the
    short zone as [getZone] sees it. For a window of whole hours and minutes
    that is not empty and starts within the UTC day, the hours returned are a
    whole number of milliseconds, and counted from the start of the current
    minute they end on a timestamp that [getZone] classifies as short unless
    its date is a holiday; if the zone is long now, it stays long at every
    timestamp before that. Holidays are not skipped: on a holiday the time
    returned ends in the long zone. *)
Theorem short_zone_starts_when_hours_run_out (date : Date)
  (config : Config) (sh sm eh em : Z) :
  shortZoneStart config = {| hour := num sh; minute := num sm |} ->
  shortZoneEnd config = {| hour := num eh; minute := num em |} ->
  (-5 <= sh <= 18)%Z -> (0 <= sm < 60)%Z -> (0 <= em < 60)%Z ->
  (sh * 60 + sm < eh * 60 + em)%Z ->
  exists (h : Qc) (wait : Z),
    getHoursUntilShortZone date config = Ok h
    /\ num wait = h * num 3600000
    /\ let start := (date - date mod 60000 + wait)%Z in
       (isHoliday (isoDate start) = false -> getZone start config = short)
       /\ (getZone date config = long ->
           forall t, (date <= t < start)%Z -> getZone t config = long).
Proof.
  intros S E SH SM EM NE.
  destruct (getHoursUntilShortZone_minutes config sh sm S date)
    as (h & k & H & K & W & WE & J).
  destruct (date_fields date) as (MR & RR & DE & DW & _).
  set (D := (date / 86400000)%Z) in *.
  set (M := ((date / 60000) mod 1440)%Z) in *.
  set (tz := (sh * 60 + sm)%Z) in *.
  exists h, ((tz + 300 - M + 1440 * k) * 60000)%Z.
  split; [exact H|]. split; [now rewrite W|].
  set (start := (date - date mod 60000
                 + (tz + 300 - M + 1440 * k) * 60000)%Z).
  assert (SE : start = (86400000 * (D + k) + 60000 * (tz + 300) + 0)%Z)
    by (unfold start; lia).
  destruct (fields_of_date start (D + k) (tz + 300) 0 ltac:(lia) ltac:(lia)
              SE) as (SD & SMin).
  assert (DOW : forall j, (((D + j) + 4) mod 7
                           = (getUTCDay date + j) mod 7)%Z).
  { intros j. rewrite DW. rewrite Z.add_mod_idemp_l by lia. f_equal. lia. }
  cbn zeta. fold start. split.
  - intros NH.
    apply (getZone_minutes config sh sm eh em S E SM EM start).
    rewrite SD, SMin, DOW. split; [exact WE|]. split; [exact NH|]. lia.
  - intros L t (T1 & T2).
    destruct (getZone_long_or_short config t) as [X | X]; [exact X|].
    exfalso.
    apply (getZone_minutes config sh sm eh em S E SM EM t) in X.
    destruct X as (X1 & X2 & X3).
    destruct (date_fields t) as (MR' & RR' & DE' & _ & _).
    set (D' := (t / 86400000)%Z) in *.
    set (M' := ((t / 60000) mod 1440)%Z) in *.
    assert (R : (D <= D' <= D + k)%Z) by lia.
    destruct (Z.eq_dec D' (D + k)) as [Q | Q]; [lia|].
    pose proof X1 as X1'.
    replace D' with (D + (D' - D))%Z in X1 by lia. rewrite DOW in X1.
    destruct (J (D' - D)%Z ltac:(lia)) as [Y | (Y & Y')];
      [congruence|].
    assert (DD : D' = D) by lia.
    assert (N : getZone date config <> short) by congruence.
    apply N.
    apply (getZone_minutes config sh sm eh em S E SM EM date).
    fold D M. rewrite DD in X1'.
    split; [exact X1'|]. split.
    + rewrite <- X2. f_equal. apply isoDate_same_day. fold D D'. lia.
    + fold tz. lia.
Qed.

(** Sunday 2025-11-30 15:00 UTC with the default window: the hours, 23 h
    29 min, end on Monday 09:29 local. *)
Lemma short_zone_starts_when_hours_run_out_witness :
  exists (h : Qc) (wait : Z),
    getHoursUntilShortZone (monday10 - 86400000)%Z DEFAULT_CONFIG = Ok h
    /\ num wait = h * num 3600000
    /\ wait = 84540000%Z
    /\ getZone (monday10 - 86400000)%Z DEFAULT_CONFIG = long
    /\ getZone (monday10 - 86400000 + wait)%Z DEFAULT_CONFIG = short
    /\ forall t, (monday10 - 86400000 <= t < monday10 - 86400000 + wait)%Z
                 -> getZone t DEFAULT_CONFIG = long.
Proof.
  destruct (short_zone_starts_when_hours_run_out
              (monday10 - 86400000)%Z DEFAULT_CONFIG 9 29 16 1
              eq_refl eq_refl ltac:(lia) ltac:(lia) ltac:(lia) ltac:(lia))
    as (h & wait & H & W & A & B).
  exists h, wait. split; [exact H|]. split; [exact W|].
  assert (X : wait = 84540000%Z).
  { vm_compute in H. injection H as <-. apply num_inj. rewrite W. qc_eq. }
  split; [exact X|]. subst wait. split; [reflexivity|].
  split; [reflexivity|].
  assert (R0 : ((monday10 - 86400000) mod 60000 = 0)%Z) by reflexivity.
  intros t Ht. apply B; [reflexivity | lia].
Defined.

(** * Divisions by zero *)

(** X22.  [runBacktest] divides by the entry price of a position, by the
    funding interval, by the equity peak and by the peak price of the
    take-profit zone. On candles with a close that is not zero and a positive
    high, and with a funding interval that is not zero, none of these divisors
    is ever zero: the backtest returns a report. *)
Theorem runBacktest_returns_on_priced_candles (sqrt : Qc -> Qc)
  (priceData : list Candle) (config : Config) (costs : Costs) :
  fundingIntervalHours costs <> 0 ->
  Forall wellFormedCandle priceData ->
  exists r, runBacktest sqrt priceData config costs = Ok r.
Proof. intros I W. now apply runBacktest_total. Qed.

Lemma runBacktest_returns_on_priced_candles_witness :
  fundingIntervalHours DEFAULT_COSTS <> 0
  /\ Forall wellFormedCandle trailingStop
  /\ exists r,
       runBacktest isqrt trailingStop DEFAULT_CONFIG DEFAULT_COSTS = Ok r.
Proof.
  assert (I : fundingIntervalHours DEFAULT_COSTS <> 0)
    by (intros X; discriminate X).
  assert (W : Forall wellFormedCandle trailingStop).
  { repeat constructor; try (intros X; discriminate X);
      apply Qc_ltb_lt; reflexivity. }
  split; [exact I|]. split; [exact W|].
  apply (runBacktest_returns_on_priced_candles isqrt trailingStop
           DEFAULT_CONFIG DEFAULT_COSTS I W).
Defined.

(** X23.  With a funding interval of zero every closure divides by zero: a
    backtest that returns a report has logged no trade. *)
Theorem zero_funding_interval_logs_no_trade (sqrt : Qc -> Qc)
  (priceData : list Candle) (config : Config) (costs : Costs)
  (r : BacktestResult) :
  fundingIntervalHours costs = 0 ->
  runBacktest sqrt priceData config costs = Ok r ->
  r_trades r = [].
Proof.
  intros Z H.
  destruct (runBacktest_extends config costs sqrt priceData r H) as (_ & F).
  destruct (r_trades r) as [|t l]; [reflexivity|].
  apply Forall_cons_iff in F. destruct F as ((_ & _ & _ & _ & N) & _).
  contradiction.
Qed.

Lemma zero_funding_interval_logs_no_trade_witness :
  exists r : BacktestResult,
    fundingIntervalHours (mkCosts (num 5) (num 0) (num 5) (num 1) 0) = 0
    /\ runBacktest isqrt oneZone DEFAULT_CONFIG
         (mkCosts (num 5) (num 0) (num 5) (num 1) 0) = Ok r
    /\ runBacktest isqrt flipAndTarget DEFAULT_CONFIG
         (mkCosts (num 5) (num 0) (num 5) (num 1) 0) = Err DivByZero
    /\ r_trades r = [].
Proof.
  eexists. split; [reflexivity|]. split; [vm_compute; reflexivity|].
  split; [vm_compute; reflexivity|].
  apply (zero_funding_interval_logs_no_trade isqrt oneZone DEFAULT_CONFIG
           (mkCosts (num 5) (num 0) (num 5) (num 1) 0));
    [reflexivity | vm_compute; reflexivity].
Defined.

(** * The take-profit zone *)

Section PositionPrinciple.

Variable config : Config.
Variable costs : Costs.
Variable Pos : Position -> Prop.
Variable P : Trade -> Prop.
Variable priceData : list Candle.

Hypothesis Pos_new : forall c,
  In c priceData -> Pos (newPosition (getZone (timestamp c) config) c).
Hypothesis Pos_enter : forall c p,
  In c priceData -> Pos p -> side p = long -> inTpZone p = false ->
  profitTargetPct config <= bestMovePct p c ->
  Pos (enterTpZone p (high c)).
Hypothesis Pos_raise : forall c p,
  In c priceData -> Pos p -> side p = long -> inTpZone p = true ->
  Pos (raisePeak p c).
Hypothesis P_closed : forall c p t,
  In c priceData -> Pos p -> closedAt config costs c p t -> P t.

Lemma iteration_positionInv (c : Candle) (st st' : LoopState)
  (closed : list Trade) :
  In c priceData ->
  iteration config costs c st st' closed ->
  positionInv Pos P st -> positionInv Pos P st'.
Proof.
  intros I It (A & B). pose proof (iteration_trades _ _ _ _ _ _ It) as T.
  destruct It as (ts1 & ts2 & pos1 & -> & F & C & _ & _).
  unfold positionInv. rewrite T.
  assert (X : (forall p, pos1 = Some p -> Pos p) /\ Forall P ts1).
  { remember (position st) as pos0 eqn:E0. clear E0.
    inversion F; subst.
    - split; [exact A | constructor].
    - split; [exact A | constructor].
    - split; [|constructor]. intros p E. injection E as <-.
      apply Pos_new, I.
    - split.
      + intros p' E. injection E as <-. apply Pos_new, I.
      + repeat constructor. apply (P_closed c p); auto.
        exists "zone-flip"%string, (price c). auto. }
  destruct X as (A1 & B1).
  assert (Y : (forall p, position st' = Some p -> Pos p) /\ Forall P ts2).
  { remember (position st') as pos2 eqn:E2. clear E2.
    inversion C; subst.
    - split; [exact A1 | constructor].
    - split; [|constructor]. intros p' E. injection E as <-.
      apply Pos_enter; auto.
    - split; [|constructor]. intros p' E. injection E as <-.
      apply Pos_raise; auto.
    - split; [discriminate|].
      repeat constructor. apply (P_closed c p); auto.
      exists reason_, x. auto. }
  destruct Y as (A2 & B2).
  split; [exact A2|]. rewrite !Forall_app. auto.
Qed.

Lemma runLoop_positionInv (rest : list Candle) (st st' : LoopState) :
  incl rest priceData ->
  runLoop config costs rest st = Ok st' ->
  positionInv Pos P st -> positionInv Pos P st'.
Proof.
  revert st. induction rest as [|c rest IH]; intros st I H L.
  - injection H as <-. exact L.
  - cbn [runLoop] in H. apply bind_Ok in H. destruct H as (s & St & H).
    apply (IH s); [intros x X; apply I; now right | exact H |].
    apply step_iteration in St. destruct St as (closed & It).
    apply (iteration_positionInv c st s closed); auto. apply I. now left.
Qed.

Lemma runBacktest_positionInv (sqrt : Qc -> Qc) (r : BacktestResult) :
  runBacktest sqrt priceData config costs = Ok r ->
  Forall P (r_trades r).
Proof.
  intros H. apply runBacktest_inv in H.
  destruct H as (st & st' & L & C & T & _). rewrite T.
  assert (I : positionInv Pos P st).
  { apply (runLoop_positionInv priceData initialState st); auto.
    - apply incl_refl.
    - split; [discriminate | constructor]. }
  destruct I as (A & B). apply closeRemaining_inv in C.
  destruct C as [(-> & _) | (p & c & init & t & E & D & C & ->)];
    [exact B|].
  cbn [trades recordTrade]. rewrite Forall_app. split; [exact B|].
  repeat constructor. apply (P_closed c p).
  - rewrite D. apply in_or_app. right. now left.
  - apply A, E.
  - exists "backtest-end"%string, (price c). auto.
Qed.

End PositionPrinciple.

Lemma Qcmult_le_compat_l_nonneg (a b c : Qc) :
  0 <= c -> a <= b -> c * a <= c * b.
Proof.
  intros C L. rewrite (Qcmult_comm c a), (Qcmult_comm c b).
  now apply Qcmult_le_compat_r.
Qed.

Lemma peakAboveTarget_enter (config : Config) (c : Candle) (p : Position) :
  peakAboveTarget config p -> side p = long ->
  profitTargetPct config <= bestMovePct p c ->
  peakAboveTarget config (enterTpZone p (high c)).
Proof.
  intros (E & _) S G. split; [exact E|]. intros _.
  exists (high c). split; [reflexivity|].
  unfold bestMovePct in G. rewrite S in G.
  unfold targetPrice. cbn [enterTpZone side entryPrice]. rewrite S.
  set (e := entryPrice p) in *. set (g := profitTargetPct config) in *.
  set (hi := high c) in *.
  assert (G2 : g * e <= (hi - e) * num 100).
  { replace ((hi - e) * num 100) with ((hi - e) / e * num 100 * e)
      by (field; now apply pos_neq_0).
    apply Qcmult_le_compat_r; [exact G | now apply Qclt_le_weak]. }
  assert (C100 : num 100 <> 0) by (intros X; discriminate X).
  replace (e * (num 1 + g / num 100)) with (e + g * e / num 100)
    by (rewrite num_1; field; exact C100).
  set (ge := g * e) in *. clearbody ge. clear G. to_Q. lra.
Qed.

Lemma peakAboveTarget_raise (config : Config) (c : Candle) (p : Position) :
  peakAboveTarget config p -> inTpZone p = true ->
  peakAboveTarget config (raisePeak p c)
  /\ targetPrice config p <= toNumber (peakPrice (raisePeak p c)).
Proof.
  intros (E & Q) T. destruct (Q T) as (pk & PK & L).
  assert (X : exists pk', peakPrice (raisePeak p c) = Some pk'
                          /\ targetPrice config p <= pk').
  { unfold raisePeak. cbn [peakPrice]. rewrite PK. cbn [toNumber].
    destruct (high c >? pk) eqn:H.
    - exists (high c). split; [reflexivity|]. apply Qc_ltb_lt in H.
      apply (Qcle_trans _ _ _ L). now apply Qclt_le_weak.
    - exists pk. split; [reflexivity | exact L]. }
  destruct X as (pk' & PK' & L'). split.
  - split; [exact E|]. intros _. exists pk'. split; [exact PK' | exact L'].
  - now rewrite PK'.
Qed.

(** X24.  A trailing stop of the take-profit zone locks a profit in.  On
    candles with positive closes and with a trailing stop of at most 100 %,
    every [tp-trailing-stop] trade is filled at or above the target price
    lowered by the trailing stop: the peak it trails was at or above the
    target price when the zone was entered and has only risen since. *)
Theorem trailing_stop_exit_above_target (sqrt : Qc -> Qc)
  (priceData : list Candle) (config : Config) (costs : Costs)
  (r : BacktestResult) :
  Forall (fun c => 0 < price c) priceData ->
  tpZoneTrailingStopPct config <= num 100 ->
  runBacktest sqrt priceData config costs = Ok r ->
  Forall (fun t =>
            t_exitReason t = "tp-trailing-stop"%string ->
            t_entryPrice t * (num 1 + profitTargetPct config / num 100)
            * (num 1 - tpZoneTrailingStopPct config / num 100)
            <= t_exitPrice t)
    (r_trades r).
Proof.
  intros PP TR.
  assert (K : 0 <= num 1 - tpZoneTrailingStopPct config / num 100).
  { set (x := tpZoneTrailingStopPct config) in *. to_Q. lra. }
  rewrite Forall_forall in PP.
  apply (runBacktest_positionInv config costs (peakAboveTarget config)).
  - intros c I. split; [apply PP, I | discriminate].
  - intros c p I Q S T G. now apply peakAboveTarget_enter.
  - intros c p I Q S T. now apply peakAboveTarget_raise.
  - intros c p t I Q (reason_ & x & C & W).
    apply closeTrade_inv in C.
    destruct C as (_ & _ & _ & _ & XP & X & _ & R & _).
    rewrite R, XP, X. intros ->.
    destruct W as [(D & _) | [(D & _) | W]]; try discriminate D.
    inversion W as [| | S T LO EQ |]; subst.
    destruct (peakAboveTarget_raise config c p Q T) as (_ & L').
    unfold targetPrice in L'. rewrite S in L'.
    now apply Qcmult_le_compat_r.
Qed.

(** X30.  Once in the take-profit zone a long is never closed more than
    0.1 % under its entry price.  On candles with a positive close that is
    not under the candle's low, with a trailing stop of at most 100 % that
    leaves the trailed target price at or above 99.9 % of the entry, every
    trade closed for a take-profit-zone reason is filled at or above 0.999
    times its entry price: the below-entry exit fills exactly there, the
    trailing stop above it, and the time exit at a close that is not under
    the entry. *)
Theorem take_profit_zone_worst_case (sqrt : Qc -> Qc)
  (priceData : list Candle) (config : Config) (costs : Costs)
  (r : BacktestResult) :
  Forall (fun c => 0 < price c /\ low c <= price c) priceData ->
  tpZoneTrailingStopPct config <= num 100 ->
  dec 999 1000
  <= (num 1 + profitTargetPct config / num 100)
     * (num 1 - tpZoneTrailingStopPct config / num 100) ->
  runBacktest sqrt priceData config costs = Ok r ->
  Forall (fun t =>
            In (t_exitReason t) tpReasons ->
            t_entryPrice t * dec 999 1000 <= t_exitPrice t)
    (r_trades r).
Proof.
  intros PP TR KK.
  assert (K : 0 <= num 1 - tpZoneTrailingStopPct config / num 100).
  { set (x := tpZoneTrailingStopPct config) in *. to_Q. lra. }
  assert (D1 : dec 999 1000 <= 1) by (apply Qc_leb_le; reflexivity).
  rewrite Forall_forall in PP.
  apply (runBacktest_positionInv config costs (peakAboveTarget config)).
  - intros c I. split; [apply PP, I | discriminate].
  - intros c p I Q S T G. now apply peakAboveTarget_enter.
  - intros c p I Q S T. now apply peakAboveTarget_raise.
  - intros c p t I Q (reason_ & x & C & W).
    apply closeTrade_inv in C.
    destruct C as (_ & _ & _ & _ & XP & X & _ & R & _).
    rewrite R, XP, X. intros RS. clear R XP X.
    destruct W as [(-> & _) | [(-> & _) | W]];
      [destruct RS as [D | [D | [D | []]]]; discriminate D ..|].
    pose proof Q as (E & _).
    assert (E9 : entryPrice p * dec 999 1000 <= entryPrice p).
    { rewrite <- (Qcmult_1_r (entryPrice p)) at 2.
      apply Qcmult_le_compat_l_nonneg; [now apply Qclt_le_weak | exact D1]. }
    inversion W as [A B | S T LO | S T LO | S T LO]; subst.
    + destruct RS as [D | [D | [D | []]]]; discriminate D.
    + apply Qcle_refl.
    + destruct (peakAboveTarget_raise config c p Q T) as (_ & L').
      unfold targetPrice in L'. rewrite S in L'.
      apply (Qcle_trans _ (entryPrice p
                           * ((num 1 + profitTargetPct config / num 100)
                              * (num 1 - tpZoneTrailingStopPct config
                                         / num 100)))).
      * apply Qcmult_le_compat_l_nonneg; [now apply Qclt_le_weak | exact KK].
      * rewrite Qcmult_assoc. now apply Qcmult_le_compat_r.
    + apply (Qcle_trans _ _ _ E9). apply (Qcle_trans _ _ _ LO).
      apply PP, I.
Qed.

Lemma trailing_stop_exit_above_target_witness :
  exists r : BacktestResult,
    Forall (fun c => 0 < price c) trailingStop
    /\ tpZoneTrailingStopPct DEFAULT_CONFIG <= num 100
    /\ runBacktest isqrt trailingStop DEFAULT_CONFIG DEFAULT_COSTS = Ok r
    /\ map t_exitReason (r_trades r) = ["tp-trailing-stop"%string]
    /\ Forall (fun t =>
                 t_exitReason t = "tp-trailing-stop"%string ->
                 t_entryPrice t
                 * (num 1 + profitTargetPct DEFAULT_CONFIG / num 100)
                 * (num 1 - tpZoneTrailingStopPct DEFAULT_CONFIG / num 100)
                 <= t_exitPrice t)
         (r_trades r).
Proof.
  assert (A : Forall (fun c => 0 < price c) trailingStop)
    by (repeat constructor; apply Qc_ltb_lt; reflexivity).
  assert (B : tpZoneTrailingStopPct DEFAULT_CONFIG <= num 100)
    by (apply Qc_leb_le; reflexivity).
  eexists. split; [exact A|]. split; [exact B|].
  split; [vm_compute; reflexivity|]. split; [reflexivity|].
  apply (trailing_stop_exit_above_target isqrt trailingStop DEFAULT_CONFIG
           DEFAULT_COSTS _ A B).
  vm_compute. reflexivity.
Defined.

Lemma take_profit_zone_worst_case_witness :
  exists r : BacktestResult,
    Forall (fun c => 0 < price c /\ low c <= price c) trailingStop
    /\ tpZoneTrailingStopPct DEFAULT_CONFIG <= num 100
    /\ dec 999 1000
       <= (num 1 + profitTargetPct DEFAULT_CONFIG / num 100)
          * (num 1 - tpZoneTrailingStopPct DEFAULT_CONFIG / num 100)
    /\ runBacktest isqrt trailingStop DEFAULT_CONFIG DEFAULT_COSTS = Ok r
    /\ Forall (fun t =>
                 In (t_exitReason t) tpReasons ->
                 t_entryPrice t * dec 999 1000 <= t_exitPrice t)
         (r_trades r).
Proof.
  assert (A : Forall (fun c => 0 < price c /\ low c <= price c)
                trailingStop).
  { repeat constructor; try (apply Qc_ltb_lt; reflexivity);
      apply Qc_leb_le; reflexivity. }
  assert (B : tpZoneTrailingStopPct DEFAULT_CONFIG <= num 100)
    by (apply Qc_leb_le; reflexivity).
  assert (C : dec 999 1000
              <= (num 1 + profitTargetPct DEFAULT_CONFIG / num 100)
                 * (num 1 - tpZoneTrailingStopPct DEFAULT_CONFIG / num 100))
    by (apply Qc_leb_le; vm_compute; reflexivity).
  eexists. split; [exact A|]. split; [exact B|]. split; [exact C|].
  split; [vm_compute; reflexivity|].
  apply (take_profit_zone_worst_case isqrt trailingStop DEFAULT_CONFIG
           DEFAULT_COSTS _ A B C).
  vm_compute. reflexivity.
Defined.

(** ** The values of a sweep *)

Section Range.

Variables max step : Qc.

Let limit : Qc := max + dec 1 10000.

Lemma rangeLoop_run (k : nat) :
  forall (fuel : nat) (v : Qc) (values : list Qc),
    (k < fuel)%nat ->
    (forall i, (i < k)%nat -> v + num (Z.of_nat i) * step <= limit) ->
    limit < v + num (Z.of_nat k) * step ->
    Optimize.rangeLoop fuel v max step values
    = Ok (values ++ map (Optimize.rangeValue v step) (seq 0 k)).
Proof.
  induction k as [|k IH]; intros fuel v values F L U.
  - destruct fuel as [|fuel]; [lia|]. cbn [Optimize.rangeLoop seq map].
    replace (v <=? max + dec 1 10000) with false.
    + now rewrite app_nil_r.
    + symmetry. apply Qc_leb_gt. cbn [Z.of_nat] in U.
      rewrite num_0, Qcmult_0_l, Qcplus_0_r in U. exact U.
  - destruct fuel as [|fuel]; [lia|]. cbn [Optimize.rangeLoop].
    replace (v <=? max + dec 1 10000) with true.
    2:{ symmetry. apply Qc_leb_le. specialize (L 0%nat ltac:(lia)).
        cbn [Z.of_nat] in L.
        rewrite num_0, Qcmult_0_l, Qcplus_0_r in L. exact L. }
    assert (E : forall i, v + step + num (Z.of_nat i) * step
                          = v + num (Z.of_nat (S i)) * step).
    { intros i. rewrite Nat2Z.inj_succ. unfold Z.succ.
      rewrite num_plus, num_1. ring. }
    rewrite (IH fuel (v + step)); [|lia| |].
    + rewrite <- app_assoc. apply (f_equal (@Ok (list Qc))).
      apply (f_equal (app values)). cbn [seq map app]. apply f_equal2.
      * unfold Optimize.rangeValue. cbn [Z.of_nat].
        now rewrite num_0, Qcmult_0_l, Qcplus_0_r.
      * rewrite <- seq_shift, map_map. apply map_ext. intros i.
        unfold Optimize.rangeValue. now rewrite E.
    + intros i Hi. rewrite E. apply L. lia.
    + rewrite E. exact U.
Qed.

Lemma rangeLoop_stuck (fuel : nat) :
  forall (v : Qc) (values : list Qc),
    step <= 0 -> v <= limit ->
    Optimize.rangeLoop fuel v max step values = Err OutOfFuel.
Proof.
  induction fuel as [|fuel IH]; intros v values S L; [reflexivity|].
  cbn [Optimize.rangeLoop]. replace (v <=? max + dec 1 10000) with true
    by (symmetry; now apply Qc_leb_le).
  apply IH; [exact S|].
  apply (Qcle_trans _ (v + 0)); [|now rewrite Qcplus_0_r].
  apply Qcplus_le_compat; [apply Qcle_refl | exact S].
Qed.

Lemma range_count (min : Qc) :
  0 < step ->
  exists k : nat,
    (forall i, (i < k)%nat -> min + num (Z.of_nat i) * step <= limit)
    /\ limit < min + num (Z.of_nat k) * step.
Proof.
  intros P.
  destruct (Qclt_le_dec limit min) as [G | L].
  - exists 0%nat. split; [intros i Hi; lia|].
    cbn [Z.of_nat]. now rewrite num_0, Qcmult_0_l, Qcplus_0_r.
  - set (q := (limit - min) / step).
    destruct (floor_spec q) as (F1 & F2).
    assert (Q0 : 0 <= q).
    { apply Qcle_div_r; [exact P|]. rewrite Qcmult_0_l.
      set (a := limit) in *. set (b := min) in *. to_Q. lra. }
    assert (FZ : (0 <= floor q)%Z).
    { destruct (Z_le_gt_dec 0 (floor q)) as [X | X]; [exact X|].
      exfalso. assert (Y : num (floor q + 1) <= num 0)
        by (apply num_le; lia).
      rewrite num_0 in Y.
      apply (Qclt_not_le _ _ F2). now apply (Qcle_trans _ 0). }
    exists (Z.to_nat (floor q + 1)). split.
    + intros i Hi.
      assert (I : num (Z.of_nat i) <= q).
      { apply (Qcle_trans _ (num (floor q))); [apply num_le; lia | exact F1]. }
      apply Qcle_div_r in I; [|exact P].
      set (a := limit) in *. set (b := min) in *.
      set (c := num (Z.of_nat i) * step) in *. to_Q. lra.
    + rewrite Z2Nat.id by lia.
      apply Qclt_div_r in F2; [|exact P].
      set (a := limit) in *. set (b := min) in *.
      set (c := num (floor q + 1) * step) in *. to_Q. lra.
Qed.

End Range.

(** X25.  With a positive step [generateRange] stops: it returns the values
    [min + i * step], each rounded to three decimals, for [i] from 0 to the
    last one that is not above [max + 0.0001]; there are none when [min] is
    already above that limit. *)
Theorem generateRange_values (min max step : Qc) :
  0 < step ->
  exists (k fuel0 : nat),
    (forall fuel, (fuel0 <= fuel)%nat ->
       Optimize.generateRange fuel min max step
       = Ok (map (Optimize.rangeValue min step) (seq 0 k)))
    /\ (forall i, (i < k)%nat ->
          min + num (Z.of_nat i) * step <= max + dec 1 10000)
    /\ max + dec 1 10000 < min + num (Z.of_nat k) * step.
Proof.
  intros P. destruct (range_count max step min P) as (k & L & U).
  exists k, (S k). split; [|split; assumption].
  intros fuel F. unfold Optimize.generateRange.
  rewrite (rangeLoop_run max step k fuel min []); [reflexivity | lia | |];
    assumption.
Qed.

(** The default sweep of [shortStart]: seven values, from 8 to 11 in half
    hours. *)
Lemma generateRange_values_witness :
  0 < dec 5 10
  /\ Optimize.generateRange 8 (num 8) (num 11) (dec 5 10)
     = Ok (map (Optimize.rangeValue (num 8) (dec 5 10)) (seq 0 7))
  /\ exists (k fuel0 : nat),
       (forall fuel, (fuel0 <= fuel)%nat ->
          Optimize.generateRange fuel (num 8) (num 11) (dec 5 10)
          = Ok (map (Optimize.rangeValue (num 8) (dec 5 10)) (seq 0 k)))
       /\ (forall i, (i < k)%nat ->
             num 8 + num (Z.of_nat i) * dec 5 10 <= num 11 + dec 1 10000)
       /\ num 11 + dec 1 10000 < num 8 + num (Z.of_nat k) * dec 5 10.
Proof.
  assert (P : 0 < dec 5 10) by (apply Qc_ltb_lt; reflexivity).
  split; [exact P|]. split; [vm_compute; reflexivity|].
  apply (generateRange_values (num 8) (num 11) (dec 5 10) P).
Defined.

(** X26.  With a step that is zero or negative and a [min] that is not above
    [max + 0.0001], the loop of [generateRange] never ends: no bound on the
    number of iterations lets it return. *)
Theorem generateRange_never_returns (min max step : Qc) (fuel : nat) :
  step <= 0 ->
  min <= max + dec 1 10000 ->
  Optimize.generateRange fuel min max step = Err OutOfFuel.
Proof. intros S L. now apply rangeLoop_stuck. Qed.

Lemma generateRange_never_returns_witness :
  num 0 <= 0
  /\ num 1 <= num 2 + dec 1 10000
  /\ Optimize.generateRange 1000 (num 1) (num 2) (num 0) = Err OutOfFuel.
Proof.
  assert (S : num 0 <= 0) by (apply Qc_leb_le; reflexivity).
  assert (L : num 1 <= num 2 + dec 1 10000)
    by (apply Qc_leb_le; reflexivity).
  split; [exact S|]. split; [exact L|].
  apply (generateRange_never_returns (num 1) (num 2) (num 0) 1000 S L).
Defined.

(** * Trades and zone changes *)

Section ZoneChanges.

Variable sqrt : Qc -> Qc.
Variable config : Config.
Variable costs : Costs.

Lemma Side_eqb_eq (a b : Side) : Side_eqb a b = true <-> a = b.
Proof. destruct a, b; cbn; split; congruence. Qed.

Lemma entriesOf_close (l : list Trade) (p : Position) (x : Qc)
  (time : Date) (reason_ : string) (t : Trade) (pos : option Position) :
  closeTrade p x time reason_ config costs = Ok t ->
  entriesOf (l ++ [t]) pos
  = entriesOf l (Some p)
    ++ match pos with Some p' => [entryOf p'] | None => [] end.
Proof.
  intros C. apply closeTrade_inv in C.
  destruct C as (_ & _ & T & _ & XP & _ & S & _).
  unfold entriesOf. rewrite map_app. cbn [map].
  unfold entryOfTrade, entryOf. now rewrite T, XP, S.
Qed.

Lemma iteration_entries (c : Candle) (st st' : LoopState)
  (closed : list Trade) :
  iteration config costs c st st' closed ->
  entriesOf (trades st') (position st')
  = entriesOf (trades st) (position st)
    ++ map (entryAt config)
         (zoneChangeCandles config (previousZone st) [c]).
Proof.
  intros It. rewrite (iteration_trades _ _ _ _ _ _ It).
  destruct It as (ts1 & ts2 & pos1 & -> & F & C & _ & _).
  rewrite app_assoc. cbn [zoneChangeCandles].
  set (zone := getZone (timestamp c) config) in *.
  remember (position st) as pos0 eqn:E0. clear E0.
  remember (position st') as pos2 eqn:E2. clear E2.
  remember (previousZone st) as pz0 eqn:E1. clear E1.
  assert (I1 : entriesOf (trades st ++ ts1) pos1
               = entriesOf (trades st) pos0
                 ++ map (entryAt config)
                      match pz0 with
                      | Some pz => if Side_eqb zone pz then [] else [c]
                      | None => []
                      end).
  { inversion F; subst; rewrite ?app_nil_r.
    - cbn [map]. rewrite ?app_nil_r. reflexivity.
    - replace (Side_eqb zone zone) with true
        by (symmetry; now apply Side_eqb_eq).
      cbn [map]. rewrite ?app_nil_r. reflexivity.
    - replace (Side_eqb zone pz) with false.
      + unfold entriesOf. rewrite ?app_nil_r. reflexivity.
      + symmetry. destruct (Side_eqb zone pz) eqn:X; [|reflexivity].
        apply Side_eqb_eq in X. congruence.
    - replace (Side_eqb zone pz) with false.
      + erewrite entriesOf_close by eassumption. reflexivity.
      + symmetry. destruct (Side_eqb zone pz) eqn:X; [|reflexivity].
        apply Side_eqb_eq in X. congruence. }
  rewrite <- I1. clear I1 F.
  inversion C; subst; rewrite ?app_nil_r; try reflexivity.
  erewrite entriesOf_close by eassumption. now rewrite app_nil_r.
Qed.

Lemma zoneChangeCandles_cons (prev : option Side) (c : Candle)
  (rest : list Candle) :
  zoneChangeCandles config prev (c :: rest)
  = zoneChangeCandles config prev [c]
    ++ zoneChangeCandles config (Some (getZone (timestamp c) config)) rest.
Proof.
  cbn [zoneChangeCandles]. destruct prev as [pz|]; [|reflexivity].
  destruct (Side_eqb _ pz); reflexivity.
Qed.

Lemma runLoop_entries (priceData : list Candle) (st st' : LoopState) :
  runLoop config costs priceData st = Ok st' ->
  entriesOf (trades st') (position st')
  = entriesOf (trades st) (position st)
    ++ map (entryAt config)
         (zoneChangeCandles config (previousZone st) priceData).
Proof.
  revert st. induction priceData as [|c rest IH]; intros st H.
  - injection H as <-. cbn. now rewrite app_nil_r.
  - cbn [runLoop] in H. apply bind_Ok in H. destruct H as (s & St & H).
    pose proof (step_previousZone config costs _ _ _ St) as PZ.
    apply step_iteration in St. destruct St as (closed & It).
    rewrite (zoneChangeCandles_cons (previousZone st) c rest), map_app,
      app_assoc.
    now rewrite (IH s H), (iteration_entries _ _ _ _ It), PZ.
Qed.

Lemma runBacktest_entries (priceData : list Candle) (r : BacktestResult) :
  runBacktest sqrt priceData config costs = Ok r ->
  map entryOfTrade (r_trades r)
  = map (entryAt config) (zoneChangeCandles config None priceData).
Proof.
  intros H. apply runBacktest_inv in H.
  destruct H as (st & st' & L & C & T & _). rewrite T.
  apply runLoop_entries in L. cbn in L.
  apply closeRemaining_inv in C.
  destruct C as [(-> & [P | ->]) | (p & c & init & t & P & _ & C & ->)].
  - rewrite P in L. unfold entriesOf in L. now rewrite app_nil_r in L.
  - cbn in L |- *. destruct (position st); unfold entriesOf in L.
    + destruct (trades st); discriminate L.
    + rewrite app_nil_r in L. exact L.
  - cbn [trades recordTrade]. rewrite <- L, P.
    pose proof (entriesOf_close (trades st) p _ _ _ t None C) as X.
    unfold entriesOf in X at 1. rewrite !app_nil_r in X. exact X.
Qed.

(** X27.  The trades of a backtest are its zone changes. Every candle that
    falls in another zone than the candle before it opens a position, at its
    close and on the side of its zone, and every position ends as one trade:
    read in order, the sides, entry times and entry prices of the log are
    those of the zone-change candles of the input. So the number of trades is
    the number of zone changes, whatever the prices do. *)
Theorem trades_are_the_zone_changes (priceData : list Candle)
  (r : BacktestResult) :
  runBacktest sqrt priceData config costs = Ok r ->
  map entryOfTrade (r_trades r)
  = map (entryAt config) (zoneChangeCandles config None priceData)
  /\ totalTrades (stats r)
     = List.length (zoneChangeCandles config None priceData).
Proof.
  intros H. pose proof (runBacktest_entries priceData r H) as E.
  split; [exact E|].
  apply (f_equal (@List.length Entry)) in E. rewrite !length_map in E.
  rewrite <- E. apply runBacktest_booked in H.
  destruct H as (st' & H & _). apply calculateStats_inv in H.
  cbn zeta in H. destruct H as (T & _ & _ & _ & _ & TT & _).
  now rewrite TT, T.
Qed.

Lemma sidesAlternate_weaken (prev : option Side) (l : list Side) :
  sidesAlternate prev l -> sidesAlternate None l.
Proof. destruct l as [|s l]; [auto|]. cbn. tauto. Qed.

Lemma zoneChangeCandles_alternate (priceData : list Candle)
  (prev : option Side) :
  sidesAlternate prev
    (map (fun c => getZone (timestamp c) config)
       (zoneChangeCandles config prev priceData)).
Proof.
  revert prev. induction priceData as [|c rest IH]; intros prev; [exact I|].
  cbn [zoneChangeCandles]. destruct prev as [pz|].
  - destruct (Side_eqb _ pz) eqn:E.
    + apply Side_eqb_eq in E. rewrite <- E. apply IH.
    + cbn [map sidesAlternate]. split; [|apply IH].
      intros X. rewrite X in E.
      assert (Y : Side_eqb pz pz = true) by now apply Side_eqb_eq.
      congruence.
  - eapply sidesAlternate_weaken. apply IH.
Qed.

Lemma sidesAlternate_split (prev : option Side) (l1 l2 : list Side)
  (a b : Side) :
  sidesAlternate prev (l1 ++ a :: b :: l2) -> b <> a.
Proof.
  revert prev. induction l1 as [|x l1 IH]; intros prev H.
  - cbn in H. tauto.
  - cbn in H. destruct H as (_ & H). exact (IH _ H).
Qed.

(** X28.  Long and short trades alternate: no two consecutive trades of the
    log are on the same side. *)
Theorem trade_sides_alternate (priceData : list Candle)
  (r : BacktestResult) (l1 l2 : list Trade) (t1 t2 : Trade) :
  runBacktest sqrt priceData config costs = Ok r ->
  r_trades r = l1 ++ t1 :: t2 :: l2 ->
  t_side t2 <> t_side t1.
Proof.
  intros H E. pose proof (runBacktest_entries priceData r H) as X.
  apply (f_equal (map (fun e : Entry => fst (fst e)))) in X.
  rewrite !map_map in X. cbn [entryOfTrade entryAt fst] in X.
  pose proof (zoneChangeCandles_alternate priceData None) as A.
  rewrite <- X, E, map_app in A. cbn [map] in A.
  exact (sidesAlternate_split _ _ _ _ _ A).
Qed.

End ZoneChanges.

Lemma trades_are_the_zone_changes_witness :
  exists r : BacktestResult,
    runBacktest isqrt flipAndTarget DEFAULT_CONFIG DEFAULT_COSTS = Ok r
    /\ List.length (zoneChangeCandles DEFAULT_CONFIG None flipAndTarget)
       = 2%nat
    /\ map entryOfTrade (r_trades r)
       = map (entryAt DEFAULT_CONFIG)
           (zoneChangeCandles DEFAULT_CONFIG None flipAndTarget)
    /\ totalTrades (stats r)
       = List.length (zoneChangeCandles DEFAULT_CONFIG None flipAndTarget).
Proof.
  eexists. split; [vm_compute; reflexivity|]. split; [reflexivity|].
  apply (trades_are_the_zone_changes isqrt DEFAULT_CONFIG DEFAULT_COSTS
           flipAndTarget).
  vm_compute. reflexivity.
Defined.

Lemma trade_sides_alternate_witness :
  exists (r : BacktestResult) (t1 t2 : Trade),
    runBacktest isqrt flipAndTarget DEFAULT_CONFIG DEFAULT_COSTS = Ok r
    /\ r_trades r = [] ++ t1 :: t2 :: []
    /\ t_side t1 = long
    /\ t_side t2 <> t_side t1.
Proof.
  do 3 eexists. split; [vm_compute; reflexivity|].
  split; [reflexivity|]. split; [reflexivity|].
  eapply (trade_sides_alternate isqrt DEFAULT_CONFIG DEFAULT_COSTS
            flipAndTarget _ [] []).
  - vm_compute. reflexivity.
  - reflexivity.
Defined.

(** * Shorter data *)

Section Prefix.

Variable sqrt : Qc -> Qc.
Variable config : Config.
Variable costs : Costs.

Lemma runLoop_app_inv (a b : list Candle) (st st' : LoopState) :
  runLoop config costs (a ++ b) st = Ok st' ->
  exists s,
    runLoop config costs a st = Ok s /\ runLoop config costs b s = Ok st'.
Proof.
  rewrite runLoop_app. intros H. apply bind_Ok in H. exact H.
Qed.

(** The position left open by the first part of the data is closed later
    in a run over all of it, so it can be closed. *)
Lemma open_position_closes (b priceData : list Candle) (s st st' : LoopState)
  (p : Position) :
  runLoop config costs b s = Ok st ->
  closeRemaining config costs priceData st = Ok st' ->
  priceData <> [] ->
  position s = Some p ->
  entryPrice p <> 0 /\ fundingIntervalHours costs <> 0.
Proof.
  intros L C NE P.
  pose proof (runLoop_entries config costs b s st L) as E.
  destruct (runLoop_extends config costs _ _ _ L) as (c1 & T1 & _ & F1).
  destruct (closeRemaining_extends config costs _ _ _ C)
    as (c2 & T2 & _ & F2).
  assert (X : exists t rest, c1 ++ c2 = t :: rest
                             /\ entryOfTrade t = entryOf p).
  { apply closeRemaining_inv in C.
    destruct C as [(-> & [Q | Q]) | (q & c & init & t & Q & _ & C & ->)].
    - rewrite Q, P in E. unfold entriesOf in E.
      rewrite T1, map_app, app_nil_r, <- !app_assoc in E.
      apply app_inv_head in E.
      assert (c2 = []).
      { apply (f_equal (@List.length Trade)) in T2.
        rewrite length_app in T2. destruct c2; [reflexivity|].
        cbn in T2. lia. }
      subst c2. rewrite app_nil_r.
      destruct c1 as [|t rest]; [destruct (zoneChangeCandles _ _ _);
                                 discriminate E|].
      exists t, rest. split; [reflexivity|]. cbn in E. congruence.
    - contradiction.
    - cbn [trades recordTrade] in T2. apply app_inv_head in T2. subst c2.
      rewrite Q, P in E. unfold entriesOf in E.
      rewrite T1, map_app, <- !app_assoc in E. apply app_inv_head in E.
      destruct c1 as [|t1 rest].
      + exists t, []. split; [reflexivity|].
        cbn [map app] in E. unfold entryOf in E.
        apply closeTrade_inv in C.
        destruct C as (_ & _ & A1 & _ & A2 & _ & A3 & _).
        unfold entryOfTrade, entryOf. rewrite A1, A2, A3.
        congruence.
      + exists t1, (rest ++ [t]). split; [reflexivity|].
        cbn in E. congruence. }
  destruct X as (t & rest & X & Y).
  assert (F : Forall (costIdentity config costs) (c1 ++ c2))
    by (apply Forall_app; auto).
  rewrite X in F. apply Forall_cons_iff in F.
  destruct F as ((_ & _ & _ & N1 & N2) & _).
  unfold entryOfTrade, entryOf in Y. injection Y as _ _ Y.
  rewrite Y in N1. auto.
Qed.

(** X29.  The backtester does not look ahead: a run over the first part of the
    data succeeds whenever the run over all of it does, and it takes the same
    trades in the same order. Its log is a beginning of the longer log, but
    for a last [backtest-end] trade that closes, at the end of the shorter
    data, the position that the longer run keeps open. *)
Theorem shorter_data_same_trades (a b : list Candle) (r : BacktestResult) :
  runBacktest sqrt (a ++ b) config costs = Ok r ->
  exists (ra : BacktestResult) (l later : list Trade),
    runBacktest sqrt a config costs = Ok ra
    /\ r_trades r = l ++ later
    /\ (r_trades ra = l
        \/ exists t, r_trades ra = l ++ [t]
                     /\ t_exitReason t = "backtest-end"%string).
Proof.
  intros H. apply runBacktest_inv in H.
  destruct H as (st & st' & L & C & T & _).
  apply runLoop_app_inv in L. destruct L as (s & La & Lb).
  destruct (runLoop_extends config costs _ _ _ Lb) as (c1 & T1 & _).
  destruct (closeRemaining_extends config costs _ _ _ C) as (c2 & T2 & _).
  assert (CA : exists s',
             closeRemaining config costs a s = Ok s'
             /\ (trades s' = trades s
                 \/ exists t, trades s' = trades s ++ [t]
                              /\ t_exitReason t = "backtest-end"%string)).
  { unfold closeRemaining. destruct (position s) as [p|] eqn:P; [|eauto].
    destruct (rev a) as [|c l] eqn:R; [eauto|].
    assert (NE : a ++ b <> []).
    { intros X. apply app_eq_nil in X. destruct X as (-> & _).
      discriminate R. }
    destruct (open_position_closes b (a ++ b) s st st' p Lb C NE P)
      as (N1 & N2).
    destruct (closeTrade_Ok p (price c) (timestamp c) "backtest-end" config
                costs N1 N2) as (t & CT).
    rewrite CT. cbn [bind]. eexists. split; [reflexivity|]. right.
    exists t. split; [reflexivity|]. apply closeTrade_inv in CT. tauto. }
  destruct CA as (s' & CA & TA).
  destruct (calculateStats_total sqrt (trades s') (equity s')
              (maxDrawdown s') config costs (totalCosts s'))
    as (ra & sh & HA & _ & TR & _).
  exists ra, (trades s), (c1 ++ c2).
  split.
  { unfold runBacktest. rewrite La. cbn [bind]. rewrite CA. cbn [bind].
    exact HA. }
  split; [rewrite T, T2, T1; now rewrite app_assoc|].
  rewrite TR. exact TA.
Qed.

End Prefix.

Lemma shorter_data_same_trades_witness :
  exists (r ra : BacktestResult) (l later : list Trade),
    runBacktest isqrt
      ([sampleCandle monday10 100 100 100;
        sampleCandle monday17 100 100 100]
       ++ [sampleCandle tuesday10 98 98 97]) DEFAULT_CONFIG DEFAULT_COSTS
    = Ok r
    /\ runBacktest isqrt
         [sampleCandle monday10 100 100 100;
          sampleCandle monday17 100 100 100] DEFAULT_CONFIG DEFAULT_COSTS
       = Ok ra
    /\ r_trades r = l ++ later
    /\ (r_trades ra = l
        \/ exists t, r_trades ra = l ++ [t]
                     /\ t_exitReason t = "backtest-end"%string).
Proof.
  eexists.
  destruct (shorter_data_same_trades isqrt DEFAULT_CONFIG DEFAULT_COSTS
              [sampleCandle monday10 100 100 100;
               sampleCandle monday17 100 100 100]
              [sampleCandle tuesday10 98 98 97] _
              ltac:(vm_compute; reflexivity))
    as (ra & l & later & A & B & C).
  exists ra, l, later. split; [vm_compute; reflexivity|].
  split; [exact A|]. split; [exact B | exact C].
Defined.
